(** * Brainlot backend: the quota-gated MCQ generation pipeline

    A shallow embedding of the Supabase edge functions that turn study
    material into multiple-choice questions, together with the SQL
    functions they call:

    - [Gemini]    : the Gemini handler with global ceiling, per-user daily
                    quota and the in-memory MCQ cache;
    - [Groq]      : the Groq handler of
                    [functions/generate-mcqs-groq/index.ts] (no quota);
    - [GroqQuota] : the Groq handler that also enforces the daily quota;
    - [Sql]       : [get_user_usage_stats] and [increment_upload_count];
    - [GroqSimple]: the first Groq handler (a bare array, no quota, no
                    length limit);
    - [Schema]    : the tables with all their columns, the login and
                    sign-up functions and the insert trigger
                    [check_upload_limit];
    - [Resend]    : [functions/resend-confirmation/index.ts];
    - [Sync]      : the function that syncs a subscription with
                    RevenueCat.

    Conventions of the embedding.
    - A JavaScript string is a Rocq [string]; characters are bytes, so
      text outside ASCII is its UTF-8 encoding and only ASCII white space
      is white space.
    - A JavaScript value that came out of [JSON.parse] is a [json]; a
      number keeps its decimal literal [m * 10^e] exactly (the rounding to
      a double is not modelled).
    - Time is epoch milliseconds in [Z]. A timestamp column and the ISO
      string the client reads it through are the same number.
    - Module state, the database tables, the clock, the requests sent to
      the provider and the timers awaited live in one [World]; a handler
      is a function [World -> Outcome Response * World].
    - What the outside world answers (auth, provider, database faults) is
      the [Env] a handler runs in. *)

From Stdlib Require Import ZArith Ascii String List Bool Lia.
From stdpp Require Import base option list gmap strings pretty.

Local Open Scope Z_scope.

(** ** JavaScript strings *)

Module Js.

Definition chars (s : string) : list ascii := list_ascii_of_string s.
Definition text (l : list ascii) : string := string_of_list_ascii l.

Definition code (c : ascii) : Z := Z.of_N (N_of_ascii c).
Definition char_of (z : Z) : ascii := ascii_of_N (Z.to_N z).

Definition dquote : ascii := Eval cbv in ascii_of_nat 34.
Definition backslash : ascii := Eval cbv in ascii_of_nat 92.

(** Test literals are written with apostrophes where JSON has double
    quotes; [dq] puts the double quotes back. *)
Definition dq (s : string) : string :=
  text (map (fun c => if Ascii.eqb c "'"%char then dquote else c) (chars s)).

(** The double quote as a string. *)
Definition dqs : string := String dquote EmptyString.

(** [\s] of a regular expression and the characters [trim] strips, as
    far as they are ASCII.  JavaScript also counts U+00A0, U+1680,
    U+2000 to U+200A, U+2028, U+2029, U+202F, U+205F, U+3000 and U+FEFF,
    whose bytes are not white space here: what is proved of [trim] and of
    the patterns is exact for text without these. *)
Definition is_space (c : ascii) : bool :=
  let n := code c in
  (n =? 32) || ((9 <=? n) && (n <=? 13)).

(** White space of the JSON grammar. *)
Definition is_json_ws (c : ascii) : bool :=
  let n := code c in
  (n =? 32) || (n =? 9) || (n =? 10) || (n =? 13).

Definition is_digit (c : ascii) : bool :=
  let n := code c in (48 <=? n) && (n <=? 57).

Definition digit_val (c : ascii) : Z := code c - 48.

Fixpoint drop_while (p : ascii -> bool) (l : list ascii) : list ascii :=
  match l with
  | c :: r => if p c then drop_while p r else l
  | [] => []
  end.

(** [String.prototype.trim] *)
Definition trim (s : string) : string :=
  text (rev (drop_while is_space (rev (drop_while is_space (chars s))))).

Fixpoint prefix_of (p l : list ascii) : bool :=
  match p, l with
  | [], _ => true
  | a :: p', b :: l' => Ascii.eqb a b && prefix_of p' l'
  | _ :: _, [] => false
  end.

(** [String.prototype.startsWith] *)
Definition startsWith (s p : string) : bool := prefix_of (chars p) (chars s).

Fixpoint includes_chars (l p : list ascii) : bool :=
  prefix_of p l ||
  match l with
  | _ :: r => includes_chars r p
  | [] => false
  end.

(** [String.prototype.includes] *)
Definition includes (s p : string) : bool := includes_chars (chars s) (chars p).

Fixpoint replace_chars (l p by_ : list ascii) : list ascii :=
  if prefix_of p l then by_ ++ skipn (List.length p) l
  else match l with
       | c :: r => c :: replace_chars r p by_
       | [] => []
       end.

(** [String.prototype.replace] with a string pattern: the first
    occurrence only. *)
Definition replace (s p by_ : string) : string :=
  text (replace_chars (chars s) (chars p) (chars by_)).

(** [String.prototype.slice(0, n)] *)
Definition slice0 (s : string) (n : Z) : string :=
  text (firstn (Z.to_nat n) (chars s)).

Definition strlen (s : string) : Z := Z.of_nat (String.length s).

(** Truthiness of an optional string: [undefined] and the empty string
    are falsy. *)
Definition truthy_str (o : option string) : bool :=
  match o with
  | Some EmptyString | None => false
  | Some _ => true
  end.

End Js.

(** ** JSON values and [JSON.parse] *)

Module Json.
Import Js.

#[warnings="-register-all"]
Inductive json : Type :=
| JNull
| JBool (b : bool)
| JNum (m e : Z)                       (* the literal m * 10^e *)
| JStr (s : string)
| JArr (items : list json)
| JObj (props : list (string * json)). (* own properties, in enumeration order *)

(** An array index among property keys: a canonical decimal below
    2^32 - 1.  Such keys enumerate first, in ascending order. *)
Definition digits_val (l : list ascii) : Z :=
  fold_left (fun acc c => 10 * acc + digit_val c) l 0.

Definition index_of_key (k : string) : option Z :=
  match chars k with
  | [] => None
  | c :: r =>
      if forallb is_digit (c :: r)
         && (negb (Ascii.eqb c "0"%char) || (Nat.eqb (List.length r) 0))
         && (digits_val (c :: r) <? 4294967295)
      then Some (digits_val (c :: r)) else None
  end.

Fixpoint obj_has (props : list (string * json)) (k : string) : bool :=
  match props with
  | [] => false
  | (k', _) :: r => String.eqb k k' || obj_has r k
  end.

Fixpoint obj_replace (props : list (string * json)) (k : string) (v : json)
  : list (string * json) :=
  match props with
  | [] => []
  | (k', v') :: r =>
      if String.eqb k k' then (k', v) :: r else (k', v') :: obj_replace r k v
  end.

(** Does a new key [k] enumerate before the existing key [k']? *)
Definition key_before (k k' : string) : bool :=
  match index_of_key k, index_of_key k' with
  | Some i, Some j => i <? j
  | Some _, None => true
  | None, _ => false
  end.

Fixpoint obj_insert (props : list (string * json)) (k : string) (v : json)
  : list (string * json) :=
  match props with
  | [] => [(k, v)]
  | (k', v') :: r =>
      if key_before k k' then (k, v) :: props else (k', v') :: obj_insert r k v
  end.

(** Defining a property while parsing: a repeated key keeps its place and
    takes the later value. *)
Definition obj_set (props : list (string * json)) (k : string) (v : json)
  : list (string * json) :=
  if obj_has props k then obj_replace props k v else obj_insert props k v.

Definition hex_val (c : ascii) : option Z :=
  let n := code c in
  if (48 <=? n) && (n <=? 57) then Some (n - 48)
  else if (97 <=? n) && (n <=? 102) then Some (n - 87)
  else if (65 <=? n) && (n <=? 70) then Some (n - 55)
  else None.

(** UTF-8 bytes of one UTF-16 code unit. *)
Definition utf8 (n : Z) : list ascii :=
  if n <? 128 then [char_of n]
  else if n <? 2048 then [char_of (192 + n / 64); char_of (128 + n mod 64)]
  else [char_of (224 + n / 4096); char_of (128 + (n / 64) mod 64);
        char_of (128 + n mod 64)].

Definition escape_char (c : ascii) : option ascii :=
  if Ascii.eqb c dquote then Some dquote
  else if Ascii.eqb c backslash then Some backslash
  else if Ascii.eqb c "/"%char then Some "/"%char
  else if Ascii.eqb c "b"%char then Some (char_of 8)
  else if Ascii.eqb c "f"%char then Some (char_of 12)
  else if Ascii.eqb c "n"%char then Some (char_of 10)
  else if Ascii.eqb c "r"%char then Some (char_of 13)
  else if Ascii.eqb c "t"%char then Some (char_of 9)
  else None.

(** The characters of a string literal after its opening quote, up to the
    closing quote. *)
Fixpoint parse_string (s : list ascii) (acc : list ascii)
  : option (string * list ascii) :=
  match s with
  | [] => None
  | c :: r =>
      if Ascii.eqb c dquote then Some (text (rev acc), r)
      else if Ascii.eqb c backslash then
        match r with
        | [] => None
        | e :: r1 =>
            if Ascii.eqb e "u"%char then
              match r1 with
              | h1 :: h2 :: h3 :: h4 :: r2 =>
                  match hex_val h1, hex_val h2, hex_val h3, hex_val h4 with
                  | Some a, Some b, Some c', Some d =>
                      parse_string r2
                        (rev (utf8 (((a * 16 + b) * 16 + c') * 16 + d)) ++ acc)
                  | _, _, _, _ => None
                  end
              | _ => None
              end
            else
              match escape_char e with
              | Some x => parse_string r1 (x :: acc)
              | None => None
              end
        end
      else if code c <? 32 then None
      else parse_string r (c :: acc)
  end.

Fixpoint take_digits (s : list ascii) (acc : list ascii)
  : list ascii * list ascii :=
  match s with
  | c :: r => if is_digit c then take_digits r (c :: acc) else (rev acc, s)
  | [] => (rev acc, [])
  end.

(** A number literal: an optional minus sign, an integer part without
    leading zero, an optional fraction and an optional exponent. *)
Definition parse_number (s : list ascii) : option (json * list ascii) :=
  let '(neg, s1) :=
    match s with
    | c :: r => if Ascii.eqb c "-"%char then (true, r) else (false, s)
    | [] => (false, s)
    end in
  let '(int_digits, s2) :=
    match s1 with
    | c :: r => if Ascii.eqb c "0"%char then ([c], r) else take_digits s1 []
    | [] => ([], [])
    end in
  match int_digits with
  | [] => None
  | _ :: _ =>
      let frac :=
        match s2 with
        | c :: r =>
            if Ascii.eqb c "."%char then
              match take_digits r [] with
              | ([], _) => None
              | (f, s3) => Some (f, s3)
              end
            else Some ([], s2)
        | [] => Some ([], [])
        end in
      match frac with
      | None => None
      | Some (frac_digits, s3) =>
          let expo :=
            match s3 with
            | c :: r =>
                if Ascii.eqb c "e"%char || Ascii.eqb c "E"%char then
                  let '(eneg, r1) :=
                    match r with
                    | sg :: r' =>
                        if Ascii.eqb sg "-"%char then (true, r')
                        else if Ascii.eqb sg "+"%char then (false, r')
                        else (false, r)
                    | [] => (false, r)
                    end in
                  match take_digits r1 [] with
                  | ([], _) => None
                  | (x, s4) =>
                      Some (if eneg then - digits_val x else digits_val x, s4)
                  end
                else Some (0, s3)
            | [] => Some (0, [])
            end in
          match expo with
          | None => None
          | Some (x, s4) =>
              let m := digits_val (int_digits ++ frac_digits) in
              Some (JNum (if neg then - m else m)
                         (x - Z.of_nat (List.length frac_digits)), s4)
          end
      end
  end.

Definition skip_ws (s : list ascii) : list ascii := drop_while is_json_ws s.

(** Recursive descent; every second call at the latest consumes a
    character, so [2 * length + 2] units of fuel are enough. *)
Fixpoint parse_value (fuel : nat) (s : list ascii) : option (json * list ascii) :=
  match fuel with
  | O => None
  | S f =>
      match skip_ws s with
      | [] => None
      | c :: r =>
          if Ascii.eqb c "["%char then
            match skip_ws r with
            | c1 :: r1 =>
                if Ascii.eqb c1 "]"%char then Some (JArr [], r1)
                else parse_elements f r []
            | [] => None
            end
          else if Ascii.eqb c "{"%char then
            match skip_ws r with
            | c1 :: r1 =>
                if Ascii.eqb c1 "}"%char then Some (JObj [], r1)
                else parse_members f r []
            | [] => None
            end
          else if Ascii.eqb c dquote then
            match parse_string r [] with
            | Some (str, r1) => Some (JStr str, r1)
            | None => None
            end
          else if prefix_of (chars "null") (c :: r)
          then Some (JNull, skipn 4 (c :: r))
          else if prefix_of (chars "true") (c :: r)
          then Some (JBool true, skipn 4 (c :: r))
          else if prefix_of (chars "false") (c :: r)
          then Some (JBool false, skipn 5 (c :: r))
          else parse_number (c :: r)
      end
  end
with parse_elements (fuel : nat) (s : list ascii) (acc : list json)
  : option (json * list ascii) :=
  match fuel with
  | O => None
  | S f =>
      match parse_value f s with
      | None => None
      | Some (v, r) =>
          match skip_ws r with
          | c :: r1 =>
              if Ascii.eqb c ","%char then parse_elements f r1 (v :: acc)
              else if Ascii.eqb c "]"%char then Some (JArr (rev (v :: acc)), r1)
              else None
          | [] => None
          end
      end
  end
with parse_members (fuel : nat) (s : list ascii) (acc : list (string * json))
  : option (json * list ascii) :=
  match fuel with
  | O => None
  | S f =>
      match skip_ws s with
      | q :: r =>
          if Ascii.eqb q dquote then
            match parse_string r [] with
            | None => None
            | Some (k, r1) =>
                match skip_ws r1 with
                | c :: r2 =>
                    if Ascii.eqb c ":"%char then
                      match parse_value f r2 with
                      | None => None
                      | Some (v, r3) =>
                          match skip_ws r3 with
                          | d :: r4 =>
                              if Ascii.eqb d ","%char
                              then parse_members f r4 (obj_set acc k v)
                              else if Ascii.eqb d "}"%char
                              then Some (JObj (obj_set acc k v), r4)
                              else None
                          | [] => None
                          end
                      end
                    else None
                | [] => None
                end
            end
          else None
      | [] => None
      end
  end.

(** [JSON.parse] of a string: [None] is the [SyntaxError]. *)
Definition JSON_parse (s : string) : option json :=
  let l := chars s in
  match parse_value (2 * List.length l + 2) l with
  | Some (v, r) => match skip_ws r with [] => Some v | _ :: _ => None end
  | None => None
  end.

(** [String(v)]: what [JSON.parse] and string concatenation see when they
    are handed a value that is not a string.  A number is printed from
    its literal. *)
Fixpoint ToString (v : json) : string :=
  match v with
  | JNull => "null"
  | JBool true => "true"
  | JBool false => "false"
  | JNum m e => if e =? 0 then pretty m else pretty m +:+ "e" +:+ pretty e
  | JStr s => s
  | JArr items =>
      (fix join (l : list json) : string :=
         match l with
         | [] => EmptyString
         | x :: r =>
             let sx := match x with JNull => EmptyString | _ => ToString x end in
             match r with
             | [] => sx
             | _ :: _ => sx +:+ "," +:+ join r
             end
         end) items
  | JObj _ => "[object Object]"
  end.

(** [JSON.parse(v)] for an arbitrary value: the argument is converted to
    a string first. *)
Definition JSON_parse_value (v : json) : option json := JSON_parse (ToString v).

Definition isArray (v : json) : bool :=
  match v with JArr _ => true | _ => false end.

Definition truthy (v : json) : bool :=
  match v with
  | JNull => false
  | JBool b => b
  | JNum m _ => negb (m =? 0)
  | JStr s => negb (String.eqb s EmptyString)
  | JArr _ | JObj _ => true
  end.

Fixpoint obj_lookup (props : list (string * json)) (k : string) : option json :=
  match props with
  | [] => None
  | (k', v) :: r => if String.eqb k k' then Some v else obj_lookup r k
  end.

(** Property keys: [v.name] and [v[i]]. *)
Inductive key : Type :=
| Name (s : string)
| Index (i : nat).

(** Own data property of a non-null value; [None] is [undefined].  The
    names read by the handlers are not names of built-in methods, so
    only own properties and [length] matter. *)
Definition get (v : json) (k : key) : option json :=
  match v, k with
  | JObj props, Name s => obj_lookup props s
  | JObj props, Index i => obj_lookup props (pretty (Z.of_nat i))
  | JArr items, Index i => nth_error items i
  | JArr items, Name s =>
      if String.eqb s "length" then Some (JNum (Z.of_nat (List.length items)) 0)
      else match index_of_key s with
           | Some i => nth_error items (Z.to_nat i)
           | None => None
           end
  | JStr s, Index i =>
      match nth_error (chars s) i with
      | Some c => Some (JStr (text [c]))
      | None => None
      end
  | JStr s, Name n =>
      if String.eqb n "length" then Some (JNum (strlen s) 0) else None
  | _, _ => None
  end.

(** [o?.k]: [undefined] when [o] is [null] or [undefined]. *)
Definition opt_get (o : option json) (k : key) : option json :=
  match o with
  | None | Some JNull => None
  | Some v => get v k
  end.

(** [a ?? b] *)
Definition nullish_or (a : option json) (b : option json) : option json :=
  match a with
  | None | Some JNull => b
  | Some _ => a
  end.

(** [Object.values] *)
Definition values (props : list (string * json)) : list json := map snd props.

End Json.

(** ** The two regular expressions of the normalisers *)

Module Regex.
Import Js.

Inductive atom : Type :=
| Chr (c : ascii)                    (* one literal character *)
| StarGreedy (p : ascii -> bool)     (* class*  *)
| StarLazy (p : ascii -> bool)       (* class*? *)
| GroupOpen                          (* start of capture group 1 *)
| GroupClose.

(** Backtracking match of [r] at the head of [s]: the end position and
    the span of group 1, both counted from the start of the match. *)
Fixpoint run (r : list atom) (s : list ascii) (pos opened : nat)
    (cap : option (nat * nat)) {struct r} : option (nat * option (nat * nat)) :=
  match r with
  | [] => Some (pos, cap)
  | Chr c :: r' =>
      match s with
      | x :: s' => if Ascii.eqb x c then run r' s' (S pos) opened cap else None
      | [] => None
      end
  | GroupOpen :: r' => run r' s pos pos cap
  | GroupClose :: r' => run r' s pos opened (Some (opened, pos))
  | StarGreedy p :: r' =>
      (fix star (s : list ascii) (pos : nat) {struct s} :=
         match s with
         | x :: s' =>
             if p x then
               match star s' (S pos) with
               | Some res => Some res
               | None => run r' s pos opened cap
               end
             else run r' s pos opened cap
         | [] => run r' s pos opened cap
         end) s pos
  | StarLazy p :: r' =>
      (fix star (s : list ascii) (pos : nat) {struct s} :=
         match run r' s pos opened cap with
         | Some res => Some res
         | None =>
             match s with
             | x :: s' => if p x then star s' (S pos) else None
             | [] => None
             end
         end) s pos
  end.

Record found : Type := { whole : string; group1 : option string }.

Fixpoint search (r : list atom) (s : list ascii) : option found :=
  match run r s 0 0 None with
  | Some (e, cap) =>
      Some {| whole := text (firstn e s);
              group1 := match cap with
                        | Some (a, b) => Some (text (firstn (b - a) (skipn a s)))
                        | None => None
                        end |}
  | None =>
      match s with
      | _ :: s' => search r s'
      | [] => None
      end
  end.

(** [String.prototype.match] with a pattern without the [g] flag: the
    leftmost match. *)
Definition re_match (s : string) (r : list atom) : option found :=
  search r (chars s).

Definition any (c : ascii) : bool := true.

Definition lits (s : string) : list atom := map Chr (chars s).

(** The pattern for a bracketed array of objects: an opening bracket,
    white space, an opening brace, anything, a closing brace, white
    space, a closing bracket. *)
Definition array_pattern : list atom :=
  [Chr "["%char; StarGreedy is_space; Chr "{"%char; StarGreedy any;
   Chr "}"%char; StarGreedy is_space; Chr "]"%char].

(** The pattern for a fenced block tagged json; group 1 is its content. *)
Definition fence_pattern : list atom :=
  lits "```json" ++ [StarGreedy is_space; GroupOpen; StarLazy any; GroupClose;
                     StarGreedy is_space] ++ lits "```".

End Regex.

(** ** The usage table and its SQL functions *)

Module Sql.

(** A row of [user_usage_stats] as the edge functions read it; both
    columns are nullable.  The columns they never read ([last_login_at],
    [created_at], [updated_at]) are left out here, and with them what
    the SQL functions write to those columns: the functions below are
    the SQL functions seen through these two columns.  [Schema] further
    down has the rows and the functions with every column. *)
Record UsageRow : Type := {
  uploads_today : option Z;
  daily_reset_at : option Z
}.

(** A row of [user_subscriptions]. *)
Record SubscriptionRow : Type := {
  plan_type : string;
  status : string
}.

Definition DAY_MS : Z := 24 * 60 * 60 * 1000.

(** [date_trunc('day', now) + interval '1 day'], in UTC. *)
Definition next_midnight (now : Z) : Z := (now / DAY_MS + 1) * DAY_MS.

(** [IF current_reset_at IS NULL OR now_time >= current_reset_at]; a
    missing row selects NULL into [current_reset_at]. *)
Definition reset_due (now : Z) (row : option UsageRow) : bool :=
  match row with
  | Some {| daily_reset_at := Some r |} => r <=? now
  | _ => true
  end.

(** [UPDATE user_usage_stats SET ... WHERE user_id = user]: no row, no
    change. *)
Definition update_row (user : string) (f : UsageRow -> UsageRow)
    (t : gmap string UsageRow) : gmap string UsageRow :=
  match t !! user with
  | Some row => <[user := f row]> t
  | None => t
  end.

Definition coalesce (o : option Z) (d : Z) : Z :=
  match o with Some z => z | None => d end.

(** [get_user_usage_stats(user_id_param)]: resets a stale counter to 0,
    then returns the user's rows as
    [(COALESCE(uploads_today, 0), daily_reset_at)]. *)
Definition get_user_usage_stats (now : Z) (user : string)
    (t : gmap string UsageRow)
  : list (Z * option Z) * gmap string UsageRow :=
  let t' :=
    if reset_due now (t !! user)
    then update_row user
           (fun _ => {| uploads_today := Some 0;
                        daily_reset_at := Some (next_midnight now) |}) t
    else t in
  (match t' !! user with
   | Some row => [(coalesce (uploads_today row) 0, daily_reset_at row)]
   | None => []
   end, t').

(** [increment_upload_count(user_id_param)]: a stale counter restarts at
    1, a live one is incremented. *)
Definition increment_upload_count (now : Z) (user : string)
    (t : gmap string UsageRow) : gmap string UsageRow :=
  if reset_due now (t !! user)
  then update_row user
         (fun _ => {| uploads_today := Some 1;
                      daily_reset_at := Some (next_midnight now) |}) t
  else update_row user
         (fun row => {| uploads_today := Some (coalesce (uploads_today row) 0 + 1);
                        daily_reset_at := daily_reset_at row |}) t.

End Sql.

(** ** World, environment and the monad of handlers *)

Module Runtime.
Import Js Json.

(** A thrown value: an [Error] with the two extra properties the Groq
    client attaches. *)
Record Exn : Type := {
  message : string;
  rawResponse : option json;
  statusCode : option Z
}.

Definition Error (msg : string) : Exn :=
  {| message := msg; rawResponse := None; statusCode := None |}.

(** What [fetch] comes back with: a rejection (network failure) or a
    response with its status and body text. *)
Inductive HttpResult : Type :=
| FetchFailed (msg : string)
| Responded (status : Z) (body : string).

(** [res.ok] *)
Definition ok_status (status : Z) : bool := (200 <=? status) && (status <=? 299).

(** A request sent to the provider. *)
Record FetchReq : Type := {
  url : string;
  content : string;                          (* prompt and study material *)
  inlineData : option (string * string)      (* mimeType and base64 data *)
}.

(** One entry of the in-memory cache. *)
Record CacheEntry : Type := {
  mcqs : list json;
  timestamp : Z
}.

(** The calls made through the Supabase client. *)
Inductive DbCall : Type :=
| RpcGetUsageStats
| SelectUsageStats
| RpcIncrementUploadCount
| SelectCurrentUsage
| UpdateUsage
| SelectSubscription.

(** A call works, resolves with an [error], or rejects. *)
Inductive Fault : Type := Works | ReturnsError | Rejects (msg : string).

Record Env : Type := {
  getUser : string -> option string;  (* token to user id; None: authError or no user *)
  provider : nat -> HttpResult;       (* answer to the n-th fetch *)
  db_fault : DbCall -> Fault;
  isDevelopment : bool;               (* ENVIRONMENT is development *)
  GROQ_API_KEY : option string;
  syntaxErrorMessage : string;        (* message of the engine's SyntaxError *)
  typeErrorMessage : string           (* message of the engine's TypeError *)
}.

Record World : Type := {
  clock : Z;                                  (* Date.now() and SQL now() *)
  globalUsageCount : Z;
  globalUsageResetTime : Z;
  mcqCache : gmap string CacheEntry;
  user_usage_stats : gmap string Sql.UsageRow;
  user_subscriptions : gmap string Sql.SubscriptionRow;
  fetches : list FetchReq;                    (* requests sent so far *)
  timers : list Z                             (* setTimeout delays awaited *)
}.

Definition set_clock (w : World) (t : Z) : World :=
  {| clock := t; globalUsageCount := globalUsageCount w;
     globalUsageResetTime := globalUsageResetTime w; mcqCache := mcqCache w;
     user_usage_stats := user_usage_stats w;
     user_subscriptions := user_subscriptions w;
     fetches := fetches w; timers := timers w |}.

Definition set_global (w : World) (count reset : Z) : World :=
  {| clock := clock w; globalUsageCount := count;
     globalUsageResetTime := reset; mcqCache := mcqCache w;
     user_usage_stats := user_usage_stats w;
     user_subscriptions := user_subscriptions w;
     fetches := fetches w; timers := timers w |}.

Definition set_cache (w : World) (c : gmap string CacheEntry) : World :=
  {| clock := clock w; globalUsageCount := globalUsageCount w;
     globalUsageResetTime := globalUsageResetTime w; mcqCache := c;
     user_usage_stats := user_usage_stats w;
     user_subscriptions := user_subscriptions w;
     fetches := fetches w; timers := timers w |}.

Definition set_usage (w : World) (t : gmap string Sql.UsageRow) : World :=
  {| clock := clock w; globalUsageCount := globalUsageCount w;
     globalUsageResetTime := globalUsageResetTime w; mcqCache := mcqCache w;
     user_usage_stats := t;
     user_subscriptions := user_subscriptions w;
     fetches := fetches w; timers := timers w |}.

Definition log_fetch (w : World) (r : FetchReq) : World :=
  {| clock := clock w; globalUsageCount := globalUsageCount w;
     globalUsageResetTime := globalUsageResetTime w; mcqCache := mcqCache w;
     user_usage_stats := user_usage_stats w;
     user_subscriptions := user_subscriptions w;
     fetches := fetches w ++ [r]; timers := timers w |}.

Definition log_timer (w : World) (d : Z) : World :=
  {| clock := clock w + d; globalUsageCount := globalUsageCount w;
     globalUsageResetTime := globalUsageResetTime w; mcqCache := mcqCache w;
     user_usage_stats := user_usage_stats w;
     user_subscriptions := user_subscriptions w;
     fetches := fetches w; timers := timers w ++ [d] |}.

Inductive Outcome (A : Type) : Type :=
| Ret (a : A)
| Throw (e : Exn).
Arguments Ret {A} a.
Arguments Throw {A} e.

(** A computation: it reads and writes the world and returns or throws. *)
Definition M (A : Type) : Type := World -> Outcome A * World.

Definition ret {A} (a : A) : M A := fun w => (Ret a, w).
Definition throw {A} (e : Exn) : M A := fun w => (Throw e, w).

Definition bind {A B} (m : M A) (k : A -> M B) : M B :=
  fun w =>
    match m w with
    | (Ret a, w') => k a w'
    | (Throw e, w') => (Throw e, w')
    end.

(** [try { m } catch (e) { h e }] *)
Definition try_catch {A} (m : M A) (h : Exn -> M A) : M A :=
  fun w =>
    match m w with
    | (Ret a, w') => (Ret a, w')
    | (Throw e, w') => h e w'
    end.

Definition gets {A} (f : World -> A) : M A := fun w => (Ret (f w), w).
Definition modify (f : World -> World) : M unit := fun w => (Ret tt, f w).

Declare Scope js_scope.
Delimit Scope js_scope with js.
Notation "'let*' x ':=' m 'in' k" := (bind m (fun x => k))
  (at level 10, x pattern, m at level 100, k at level 200) : js_scope.
Notation "m ';;' k" := (bind m (fun _ => k))
  (at level 100, k at level 200, right associativity) : js_scope.

(** A pure step that returns or throws. *)
Definition lift {A} (r : Exn + A) : M A :=
  match r with
  | inl e => throw e
  | inr a => ret a
  end.

(** A JavaScript value or [undefined]. *)
Definition jsval : Type := option json.

Definition ToString_js (v : jsval) : string :=
  match v with
  | Some j => ToString j
  | None => "undefined"
  end.

(** [JSON.parse(v)] *)
Definition JSON_parse_js (v : jsval) : option json := JSON_parse (ToString_js v).

(** [v.match(r)]: only a string has the method; [None] is the
    [TypeError] of calling it on anything else. *)
Definition match_js (v : jsval) (r : list Regex.atom)
  : option (option Regex.found) :=
  match v with
  | Some (JStr s) => Some (Regex.re_match s r)
  | _ => None
  end.

Definition nl : string := Eval cbv in String (ascii_of_nat 10) EmptyString.

(** [Math.ceil(a / b)] for a positive [b] *)
Definition ceil_div (a b : Z) : Z := - ((- a) / b).

(** [Date.now()] *)
Definition Date_now : M Z := gets clock.

(** [await new Promise(resolve => setTimeout(resolve, d))]: the only way
    time passes inside a handler. *)
Definition sleep (d : Z) : M unit := modify (fun w => log_timer w d).

(** [await fetch(...)] followed by reading the body. *)
Definition fetch (env : Env) (r : FetchReq) : M (Z * string) :=
  fun w =>
    let w' := log_fetch w r in
    match provider env (List.length (fetches w)) with
    | FetchFailed msg => (Throw (Error msg), w')
    | Responded st body => (Ret (st, body), w')
    end.

(** The result of awaiting a Supabase call: [data] with a null [error],
    or an [error]; a rejected promise throws. *)
Definition db_call {A} (env : Env) (c : DbCall) (run : World -> A * World)
  : M (option A) :=
  fun w =>
    match db_fault env c with
    | Works => let '(a, w') := run w in (Ret (Some a), w')
    | ReturnsError => (Ret None, w)
    | Rejects msg => (Throw (Error msg), w)
    end.

End Runtime.

(** ** Subscription tier and daily quota

    [getUserSubscription], [getUserUsageStatsFromDB], [checkUserLimits]
    and [incrementUserUsage]; the Gemini handler and the Groq handler
    with quota carry the same text of these four functions. *)

Module Quota.
Import Js Json Runtime.
Local Open Scope js_scope.

Inductive Subscription : Type := FREE | PRO.

(** [USER_LIMITS[subscription].daily_limit] *)
Definition daily_limit (s : Subscription) : Z :=
  match s with
  | FREE => 5
  | PRO => 50
  end.

(** The row selected with [.eq('user_id', userId).eq('status', 'active')
    .single()]. *)
Definition select_active_subscription (userId : string) (w : World)
  : option Sql.SubscriptionRow * World :=
  (match user_subscriptions w !! userId with
   | Some row => if String.eqb (Sql.status row) "active" then Some row else None
   | None => None
   end, w).

Definition getUserSubscription (env : Env) (userId : string) : M Subscription :=
  try_catch
    (let* r := db_call env SelectSubscription (select_active_subscription userId) in
     match r with
     | Some (Some data) =>
         ret (if String.eqb (Sql.plan_type data) "pro" then PRO else FREE)
     | _ => ret FREE
     end)
    (fun _ => ret FREE).

(** The usage snapshot the functions hand around. *)
Record Usage : Type := {
  uploads_today : Z;
  daily_reset_at : Z
}.

(** [n || 0] on a nullable integer column *)
Definition or_zero (o : option Z) : Z :=
  match o with Some z => z | None => 0 end.

(** [{ uploads_today: 0, daily_reset_at: now + 24h }] *)
Definition default_usage : M Usage :=
  let* now := Date_now in
  ret {| uploads_today := 0; daily_reset_at := now + Sql.DAY_MS |}.

Definition usage_of (up : option Z) (reset : option Z) : M Usage :=
  let* now := Date_now in
  ret {| uploads_today := or_zero up;
         daily_reset_at := match reset with
                           | Some r => r
                           | None => now + Sql.DAY_MS
                           end |}.

Definition rpc_get_user_usage_stats (userId : string) (w : World)
  : list (Z * option Z) * World :=
  let '(rows, t) := Sql.get_user_usage_stats (clock w) userId (user_usage_stats w) in
  (rows, set_usage w t).

(** [.from('user_usage_stats').select(...).eq('user_id', userId).single()] *)
Definition select_usage (userId : string) (w : World)
  : option Sql.UsageRow * World :=
  (user_usage_stats w !! userId, w).

Definition getUserUsageStatsFromDB (env : Env) (userId : string) : M Usage :=
  try_catch
    (let* r := db_call env RpcGetUsageStats (rpc_get_user_usage_stats userId) in
     match r with
     | None =>
         (* the RPC came back with an error: query the table directly *)
         let* fb := db_call env SelectUsageStats (select_usage userId) in
         match fb with
         | Some (Some row) =>
             usage_of (Sql.uploads_today row) (Sql.daily_reset_at row)
         | _ => default_usage
         end
     | Some ((up, reset) :: _) => usage_of (Some up) reset
     | Some [] => default_usage
     end)
    (fun _ => default_usage).

Record Limits : Type := {
  allowed : bool;
  limitType : option string;
  remaining : Z;
  resetTime : Z
}.

(** The decision of [checkUserLimits] once the snapshot is read. *)
Definition limits_of (subscription : Subscription) (usage : Usage) : Limits :=
  if daily_limit subscription <=? uploads_today usage
  then {| allowed := false; limitType := Some "daily"; remaining := 0;
          resetTime := daily_reset_at usage |}
  else {| allowed := true; limitType := None;
          remaining := daily_limit subscription - uploads_today usage;
          resetTime := daily_reset_at usage |}.

Definition checkUserLimits (env : Env) (userId : string)
    (subscription : Subscription) : M Limits :=
  let* usage := getUserUsageStatsFromDB env userId in
  ret (limits_of subscription usage).

Definition rpc_increment_upload_count (userId : string) (w : World)
  : unit * World :=
  (tt, set_usage w (Sql.increment_upload_count (clock w) userId (user_usage_stats w))).

Definition update_usage (userId : string) (f : Sql.UsageRow -> Sql.UsageRow)
    (w : World) : unit * World :=
  (tt, set_usage w (Sql.update_row userId f (user_usage_stats w))).

Definition incrementUserUsage (env : Env) (userId : string) : M unit :=
  try_catch
    (let* r := db_call env RpcIncrementUploadCount (rpc_increment_upload_count userId) in
     match r with
     | Some _ => ret tt
     | None =>
         (* fallback to manual update *)
         let* cur := db_call env SelectCurrentUsage (select_usage userId) in
         match cur with
         | Some (Some current) =>
             let* now := Date_now in
             if or_zero (Sql.daily_reset_at current) <=? now
             then
               let* _ := db_call env UpdateUsage
                 (update_usage userId (fun row =>
                    {| Sql.uploads_today := Some 1;
                       Sql.daily_reset_at := Some (Sql.next_midnight now) |})) in
               ret tt
             else
               let* _ := db_call env UpdateUsage
                 (update_usage userId (fun row =>
                    {| Sql.uploads_today := Some (or_zero (Sql.uploads_today current) + 1);
                       Sql.daily_reset_at := Sql.daily_reset_at row |})) in
               ret tt
         | _ => ret tt
         end
     end)
    (fun _ => ret tt).

End Quota.

(** ** Requests and responses *)

Module Http.
Import Json.

(** The JSON body of a request, as its TypeScript type [Body] declares it. *)
Record Body : Type := {
  file_data : option string;
  mime_type : option string;
  text_content : option string;
  content_type : option string;
  llm_provider : option string;
  mcq_count : option Z;
  text_chunks : option (list string)
}.

Record Request : Type := {
  method : string;
  authorization : option string;   (* the Authorization header *)
  json_body : option Body          (* None: req.json() rejects *)
}.

Record UserLimits : Type := {
  subscription : Quota.Subscription;
  limit_type : option string;
  remaining : Z;
  reset_time : Z
}.

Record GlobalUsage : Type := {
  global_remaining : Z;
  global_reset_time : Z
}.

(** A response: its status and the members of its JSON body; a member
    that the body does not have is [None]. *)
Record Response : Type := {
  status : Z;
  ok : bool;
  error : option string;
  mcqs : option (list json);
  generated_at : option Z;
  count : option Z;
  cached : option bool;
  model : option string;
  usage : option json;
  user_limits : option UserLimits;
  global_usage : option GlobalUsage;
  raw_api_response : option json;
  status_code : option Z
}.

(** [{ ok: false, error }] with a status *)
Definition failure (st : Z) (msg : string) : Response :=
  {| status := st; ok := false; error := Some msg; mcqs := None;
     generated_at := None; count := None; cached := None; model := None;
     usage := None; user_limits := None; global_usage := None;
     raw_api_response := None; status_code := None |}.

Definition with_user_limits (r : Response) (u : UserLimits) : Response :=
  {| status := status r; ok := ok r; error := error r; mcqs := mcqs r;
     generated_at := generated_at r; count := count r; cached := cached r;
     model := model r; usage := usage r; user_limits := Some u;
     global_usage := global_usage r; raw_api_response := raw_api_response r;
     status_code := status_code r |}.

Definition with_global_usage (r : Response) (g : GlobalUsage) : Response :=
  {| status := status r; ok := ok r; error := error r; mcqs := mcqs r;
     generated_at := generated_at r; count := count r; cached := cached r;
     model := model r; usage := usage r; user_limits := user_limits r;
     global_usage := Some g; raw_api_response := raw_api_response r;
     status_code := status_code r |}.

(** [{ ok: true, mcqs, generated_at, count }], status 200 *)
Definition success (l : list json) (now : Z) : Response :=
  {| status := 200; ok := true; error := None; mcqs := Some l;
     generated_at := Some now; count := Some (Z.of_nat (List.length l));
     cached := None; model := None; usage := None; user_limits := None;
     global_usage := None; raw_api_response := None; status_code := None |}.

End Http.

(** ** The Gemini handler: global ceiling, daily quota, cache *)

Module Gemini.
Import Js Json Runtime.
Local Open Scope js_scope.

Definition MAX_GLOBAL_USAGE : Z := 500000.
Definition GLOBAL_WINDOW : Z := 30 * 24 * 60 * 60 * 1000.
Definition CACHE_DURATION : Z := 30 * 60 * 1000.
Definition CACHE_CEILING : nat := 1000.

Definition GEMINI_URL : string :=
  "https://generativelanguage.googleapis.com/v1beta/models/gemini-2.5-flash-lite:generateContent".

(** The prompt template of the handler (its step 8). *)
Definition prompt : string :=
  nl
  +:+ "You are an expert MCQ generator. Create 20 high-quality multiple-choice questions that test users' understanding and knowledge of the concepts, facts, and ideas covered in the study material." +:+ nl
  +:+ nl
  +:+ "CRITICAL REQUIREMENTS:" +:+ nl
  +:+ "1. Questions MUST test understanding and knowledge of concepts, facts, and ideas - NOT retrieval of specific text passages" +:+ nl
  +:+ "2. Questions must be answerable from MEMORY and COMPREHENSION - users should NOT need to look back at the material" +:+ nl
  +:+ dq "3. NEVER use words like 'text', 'document', 'passage', 'material', 'according to', 'mentioned', 'stated', 'explained', 'notes', or 'discusses' in the question itself" +:+ nl
  +:+ "4. Focus on testing KNOWLEDGE and UNDERSTANDING of the subject matter, not memory of specific wording" +:+ nl
  +:+ "5. Each question must have exactly 4 options" +:+ nl
  +:+ dq "6. Include 'answer_index' (0-based index) for the correct answer" +:+ nl
  +:+ "7. Respond ONLY with a valid JSON array - no markdown, no code blocks, no additional text" +:+ nl
  +:+ nl
  +:+ "QUESTION TYPES TO INCLUDE:" +:+ nl
  +:+ "- Factual knowledge questions (definitions, key facts, numbers, measurements)" +:+ nl
  +:+ "- Conceptual understanding questions (processes, relationships, cause and effect)" +:+ nl
  +:+ "- Application questions (using knowledge to solve problems or make predictions)" +:+ nl
  +:+ "- Analysis questions (comparing, contrasting, identifying patterns)" +:+ nl
  +:+ "- Questions about concepts, theories, formulas, or principles" +:+ nl
  +:+ "- Questions about historical events, people, dates, or facts" +:+ nl
  +:+ "- Questions about scientific processes, chemical reactions, or biological processes" +:+ nl
  +:+ "- Questions about mathematical concepts, equations, or calculations" +:+ nl
  +:+ nl
  +:+ "QUESTION TYPES TO STRICTLY AVOID:" +:+ nl
  +:+ dq "- ANY questions that reference 'text', 'document', 'passage', 'material', 'according to', 'mentioned', 'stated', 'explained', 'notes', 'discusses'" +:+ nl
  +:+ dq "- Questions asking 'what does the image/figure/chart show' or 'what is depicted in the image'" +:+ nl
  +:+ "- Questions about document layout, structure, or organization" +:+ nl
  +:+ dq "- Questions asking 'where to find information' or 'which page/section'" +:+ nl
  +:+ "- Questions about study tips, learning strategies, or methodology" +:+ nl
  +:+ "- Questions not directly covered in the provided material" +:+ nl
  +:+ "- Questions requiring visual inspection of the material" +:+ nl
  +:+ "- Questions about colors, shapes, or visual characteristics" +:+ nl
  +:+ dq "- Questions asking users to identify something 'in the picture' or 'shown in the image'" +:+ nl
  +:+ nl
  +:+ "GOOD EXAMPLES:" +:+ nl
  +:+ dq "{ 'question': 'What is the resolving power of a light microscope?', 'options': ['0.2 nm', '200 nm', '2 μm', '0.2 μm'], 'answer_index': 1 }" +:+ nl
  +:+ dq "{ 'question': 'Which process occurs during photosynthesis?', 'options': ['Glucose breakdown', 'Carbon dioxide absorption', 'Protein synthesis', 'DNA replication'], 'answer_index': 1 }" +:+ nl
  +:+ dq "{ 'question': 'What is the chemical formula for water?', 'options': ['H2O', 'CO2', 'NaCl', 'O2'], 'answer_index': 0 }" +:+ nl
  +:+ dq "{ 'question': 'Who was the first African American to serve in the U.S. Senate?', 'options': ['Frederick Douglass', 'Hiram Revels', 'Booker T. Washington', 'W.E.B. Du Bois'], 'answer_index': 1 }" +:+ nl
  +:+ dq "{ 'question': 'What type of sound sources exist besides musical instruments and traffic?', 'options': ['Electronic devices', 'Natural phenomena', 'Human voices', 'Animal sounds'], 'answer_index': 1 }" +:+ nl
  +:+ dq "{ 'question': 'How does the speed of sound change with temperature?', 'options': ['Increases by 0.6 m/s per °C', 'Decreases by 0.6 m/s per °C', 'Remains constant', 'Increases by 3.31 m/s per °C'], 'answer_index': 0 }" +:+ nl
  +:+ nl
  +:+ "BAD EXAMPLES (DO NOT CREATE THESE):" +:+ nl
  +:+ dq "{ 'question': 'The text notes that sound waves are created by vibrations', 'options': ['True', 'False', 'Sometimes', 'Never'], 'answer_index': 0 }" +:+ nl
  +:+ dq "{ 'question': 'According to the text, what is the speed of sound?', 'options': ['343 m/s', '300 m/s', '400 m/s', '250 m/s'], 'answer_index': 0 }" +:+ nl
  +:+ "{ " +:+ dqs +:+ "question" +:+ dqs +:+ ": " +:+ dqs +:+ "What does the text explain about temperature?" +:+ dqs +:+ ", " +:+ dqs +:+ "options" +:+ dqs +:+ ": [" +:+ dqs +:+ "It affects sound speed" +:+ dqs +:+ ", " +:+ dqs +:+ "It doesn't matter" +:+ dqs +:+ ", " +:+ dqs +:+ "It's constant" +:+ dqs +:+ ", " +:+ dqs +:+ "It varies" +:+ dqs +:+ "], " +:+ dqs +:+ "answer_index" +:+ dqs +:+ ": 0 }" +:+ nl
  +:+ dq "{ 'question': 'The passage mentions that...', 'options': ['Option A', 'Option B', 'Option C', 'Option D'], 'answer_index': 0 }" +:+ nl
  +:+ nl
  +:+ "IMPORTANT: Generate questions that test users' understanding and knowledge of the subject matter. Focus on concepts, facts, and ideas that users should know and understand, not on specific wording or references to the source material. Users should be able to answer all questions based on their knowledge and comprehension of the topics covered." +:+ nl.

Record GlobalCheck : Type := {
  allowed : bool;
  remaining : Z;
  resetTime : Z
}.

Definition checkGlobalUsage : M GlobalCheck :=
  let* now := Date_now in
  let* reset0 := gets globalUsageResetTime in
  (* reset counter monthly *)
  (if reset0 <? now
   then modify (fun w => set_global w 0 (now + GLOBAL_WINDOW))
   else ret tt) ;;
  let* count := gets globalUsageCount in
  let* reset := gets globalUsageResetTime in
  if MAX_GLOBAL_USAGE <=? count
  then ret {| allowed := false; remaining := 0; resetTime := reset |}
  else ret {| allowed := true; remaining := MAX_GLOBAL_USAGE - count;
              resetTime := reset |}.

Definition incrementGlobalUsage : M unit :=
  modify (fun w => set_global w (globalUsageCount w + 1) (globalUsageResetTime w)).

(** [ToInt32] *)
Definition to_int32 (z : Z) : Z := (z + 2 ^ 31) mod 2 ^ 32 - 2 ^ 31.

(** One round of the hash loop:
    [hash = ((hash << 5) - hash) + char; hash = hash & hash]. *)
Definition hash_step (hash : Z) (c : ascii) : Z :=
  to_int32 ((to_int32 (hash * 32) - hash) + code c).

Definition digit36 (d : Z) : ascii :=
  if d <? 10 then char_of (48 + d) else char_of (87 + d).

Fixpoint base36 (fuel : nat) (n : Z) (acc : list ascii) : list ascii :=
  match fuel with
  | O => acc
  | S f =>
      if n <? 36 then digit36 n :: acc
      else base36 f (n / 36) (digit36 (n mod 36) :: acc)
  end.

(** [n.toString(36)] for a non-negative integer *)
Definition toString36 (n : Z) : string :=
  text (base36 (S (Z.to_nat (Z.log2 n))) n []).

Definition generateFileHash (fileData : string) : string :=
  toString36 (Z.abs (fold_left hash_step (chars fileData) 0)).

Definition getCachedMCQs (fileHash : string) : M (option (list json)) :=
  let* cached := gets (fun w => mcqCache w !! fileHash) in
  let* now := Date_now in
  match cached with
  | Some entry =>
      if now - timestamp entry <? CACHE_DURATION
      then ret (Some (mcqs entry))
      else
        (* remove expired cache entry *)
        modify (fun w => set_cache w (delete fileHash (mcqCache w))) ;;
        ret None
  | None => ret None
  end.

Definition cacheMCQs (fileHash : string) (l : list json) : M unit :=
  let* stamp := Date_now in
  modify (fun w =>
    set_cache w (<[fileHash := {| mcqs := l; timestamp := stamp |}]> (mcqCache w))) ;;
  let* n := gets (fun w => size (mcqCache w)) in
  if (CACHE_CEILING <? n)%nat
  then
    let* now := Date_now in
    modify (fun w =>
      set_cache w
        (filter (fun kv => now - timestamp (snd kv) <= CACHE_DURATION) (mcqCache w)))
  else ret tt.

(** How one pass through the body of the retry loop ends. *)
Inductive Step : Type :=
| Return (v : jsval)
| Continue.

(** [data.candidates?.[0]?.content?.parts?.[0]?.text ?? "[]"] for a
    [data] that is not [null] *)
Definition gemini_text (data : json) : jsval :=
  nullish_or
    (opt_get (opt_get (opt_get (opt_get (opt_get (get data (Name "candidates"))
       (Index 0)) (Name "content")) (Name "parts")) (Index 0)) (Name "text"))
    (Some (JStr "[]")).

(** The [try { ... } catch (error) { ... }] inside the loop. *)
Definition attempt_once (env : Env) (r : FetchReq) (attempt maxRetries : Z)
  : M Step :=
  try_catch
    (let* res := fetch env r in
     let '(st, body) := res in
     if negb (ok_status st) then
       (* a temporary error (5xx) with retries left *)
       if (500 <=? st) && (attempt <? maxRetries)
       then sleep (2000 * attempt) ;; ret Continue
       else throw (Error ("Gemini API failed: " +:+ body))
     else
       match JSON_parse body with
       | None => throw (Error (syntaxErrorMessage env))
       | Some JNull => throw (Error (typeErrorMessage env))
       | Some data => ret (Return (gemini_text data))
       end)
    (fun error =>
       if attempt =? maxRetries then throw error
       else sleep (2000 * attempt) ;; ret Continue).

(** [for (let attempt = ...; attempt <= maxRetries; attempt++)] with
    [remaining] passes left; falling off the end returns [undefined]. *)
Fixpoint retry_loop (env : Env) (r : FetchReq) (remaining : nat)
    (attempt maxRetries : Z) : M jsval :=
  match remaining with
  | O => ret None
  | S k =>
      let* s := attempt_once env r attempt maxRetries in
      match s with
      | Return v => ret v
      | Continue => retry_loop env r k (attempt + 1) maxRetries
      end
  end.

Definition callGeminiWithText (env : Env) (textContent prompt : string)
    (maxRetries : Z) : M jsval :=
  retry_loop env
    {| url := GEMINI_URL;
       content := prompt +:+ nl +:+ nl +:+ "STUDY MATERIAL:" +:+ nl +:+ textContent;
       inlineData := None |}
    (Z.to_nat maxRetries) 1 maxRetries.

(** [x.toFixed(1)] for [x = len * 3 / 4 / 2^20], which is exact in binary *)
Definition size_mb_fixed1 (len : Z) : string :=
  let tenths := (len * 60 + 4194304) / 8388608 in
  pretty (tenths / 10) +:+ "." +:+ pretty (tenths mod 10).

Definition callGeminiWithFileData (env : Env) (fileData mimeType prompt : string)
    (maxRetries : Z) : M jsval :=
  (* fileSizeMB > 20, with fileSizeMB = (length * 3) / 4 / (1024 * 1024) *)
  if 20 * 4 * (1024 * 1024) <? strlen fileData * 3
  then throw (Error ("File too large: " +:+ size_mb_fixed1 (strlen fileData)
                     +:+ "MB. Maximum size is 20MB. Please compress the file."))
  else
    retry_loop env
      {| url := GEMINI_URL; content := prompt;
         inlineData := Some (mimeType, fileData) |}
      (Z.to_nat maxRetries) 1 maxRetries.

(** The parse of the provider text: direct JSON, then a fenced block,
    then a bracketed array; the result must be an array. *)
Definition extract (geminiRaw : jsval) : Exn + json :=
  match JSON_parse_js geminiRaw with
  | Some v => inr v
  | None =>
      let not_valid :=
        Error ("Gemini did not return valid JSON. Raw response: "
               +:+ ToString_js geminiRaw) in
      match match_js geminiRaw Regex.fence_pattern with
      | None => inl not_valid
      | Some jsonMatch =>
          match jsonMatch with
          | Some {| Regex.group1 := Some (String c g) |} =>
              match JSON_parse (trim (String c g)) with
              | Some v => inr v
              | None => inl not_valid
              end
          | _ =>
              match match_js geminiRaw Regex.array_pattern with
              | Some (Some arrayMatch) =>
                  match JSON_parse (Regex.whole arrayMatch) with
                  | Some v => inr v
                  | None => inl not_valid
                  end
              | _ => inl not_valid
              end
          end
      end
  end.

Definition normalize (geminiRaw : jsval) : Exn + list json :=
  match extract geminiRaw with
  | inl e => inl e
  | inr (JArr l) => inr l
  | inr _ =>
      inl (Error ("Gemini response is not an array: " +:+ ToString_js geminiRaw))
  end.

Definition days_until (reset now : Z) : Z := ceil_div (reset - now) Sql.DAY_MS.

Definition userMessage (env : Env) (e : Exn) : string :=
  let msg := message e in
  if isDevelopment env
  then (if String.eqb msg EmptyString then "Error" else msg)
  else if includes msg "File too large"
  then "File size exceeds the maximum allowed limit (20MB)."
  else if includes msg "Gemini API"
  then "AI service is temporarily unavailable. Please try again later."
  else if includes msg "not authenticated"
  then "Authentication failed. Please log in again."
  else if includes msg "Failed to fetch"
  then "Network error. Please check your connection and try again."
  else if includes msg "JSON"
  then "Failed to process AI response. Please try again."
  else "An unexpected error occurred. Please try again later.".

(** [text_content || file_data!] *)
Definition material_of (body : Http.Body) : string :=
  if truthy_str (Http.text_content body)
  then default EmptyString (Http.text_content body)
  else default EmptyString (Http.file_data body).

(** The input checks of step 5: is the body one the handler goes on with? *)
Definition has_input (body : Http.Body) : bool :=
  negb (negb (truthy_str (Http.file_data body))
        && negb (truthy_str (Http.text_content body)))
  && negb (truthy_str (Http.file_data body)
           && negb (truthy_str (Http.mime_type body))).

(** Step 8: the text API when [text_content] is given, the file API
    otherwise. *)
Definition provider_call (env : Env) (body : Http.Body) : M jsval :=
  if truthy_str (Http.text_content body)
  then callGeminiWithText env (default EmptyString (Http.text_content body)) prompt 3
  else callGeminiWithFileData env (default EmptyString (Http.file_data body))
         (default EmptyString (Http.mime_type body)) prompt 3.

(** The 200 response: [{ ok: true, mcqs, generated_at, count, cached,
    user_limits, global_usage }]. *)
Definition okResponse (l : list json) (is_cached : bool)
    (subscription : Quota.Subscription) (userLimits : Quota.Limits)
    (globalUsage : GlobalCheck) (user_left global_left now : Z) : Http.Response :=
  let r := Http.success l now in
  {| Http.status := Http.status r; Http.ok := Http.ok r;
     Http.error := Http.error r; Http.mcqs := Http.mcqs r;
     Http.generated_at := Http.generated_at r; Http.count := Http.count r;
     Http.cached := Some is_cached; Http.model := None; Http.usage := None;
     Http.user_limits :=
       Some {| Http.subscription := subscription; Http.limit_type := None;
               Http.remaining := user_left;
               Http.reset_time := Quota.resetTime userLimits |};
     Http.global_usage :=
       Some {| Http.global_remaining := global_left;
               Http.global_reset_time := resetTime globalUsage |};
     Http.raw_api_response := None; Http.status_code := None |}.

(** The 503 response of the global ceiling. *)
Definition response503 (globalUsage : GlobalCheck) (now : Z) : Http.Response :=
  Http.with_global_usage
    (Http.failure 503
       ("Service temporarily unavailable. Monthly limit reached. Resets in "
        +:+ pretty (days_until (resetTime globalUsage) now) +:+ " days."))
    {| Http.global_remaining := 0;
       Http.global_reset_time := resetTime globalUsage |}.

(** The 429 response of the daily limit. *)
Definition response429 (subscription : Quota.Subscription)
    (userLimits : Quota.Limits) (now : Z) : Http.Response :=
  Http.with_user_limits
    (Http.failure 429
       ("Daily limit reached. You can generate MCQs again in "
        +:+ pretty (days_until (Quota.resetTime userLimits) now) +:+ " days."))
    {| Http.subscription := subscription;
       Http.limit_type := Quota.limitType userLimits;
       Http.remaining := 0;
       Http.reset_time := Quota.resetTime userLimits |}.

(** Steps 9 and 10: increment the usage counters, then cache the MCQs. *)
Definition commit (env : Env) (userId contentHash : string) (l : list json)
  : M unit :=
  incrementGlobalUsage ;;
  Quota.incrementUserUsage env userId ;;
  cacheMCQs contentHash l.

(** Steps 5 to 10 of the handler, for an authenticated and admitted
    user. *)
Definition generate (env : Env) (req : Http.Request) (userId : string)
    (subscription : Quota.Subscription) (userLimits : Quota.Limits)
    (globalUsage : GlobalCheck) : M Http.Response :=
  match Http.json_body req with
  | None => throw (Error (syntaxErrorMessage env))
  | Some body =>
      if negb (truthy_str (Http.file_data body))
         && negb (truthy_str (Http.text_content body))
      then ret (Http.failure 400 "Either file_data or text_content is required")
      else if truthy_str (Http.file_data body)
              && negb (truthy_str (Http.mime_type body))
      then ret (Http.failure 400 "mime_type is required when file_data is provided")
      else
        let contentHash := generateFileHash (material_of body) in
        let* cachedMCQs := getCachedMCQs contentHash in
        match cachedMCQs with
        | Some l =>
            let* now := Date_now in
            ret (okResponse l true subscription userLimits globalUsage
                   (Quota.remaining userLimits) (remaining globalUsage) now)
        | None =>
            let* geminiRaw := provider_call env body in
            let* l := lift (normalize geminiRaw) in
            commit env userId contentHash l ;;
            let* now := Date_now in
            ret (okResponse l false subscription userLimits globalUsage
                   (Quota.remaining userLimits - 1) (remaining globalUsage - 1) now)
        end
  end.

(** The body of the handler's [try]. *)
Definition serve (env : Env) (req : Http.Request) : M Http.Response :=
  if negb (String.eqb (Http.method req) "POST")
  then ret (Http.failure 405 "Method not allowed")
  else
    (* 1. check global usage limit first *)
    let* globalUsage := checkGlobalUsage in
    if negb (allowed globalUsage) then
      let* now := Date_now in
      ret (response503 globalUsage now)
    else
      (* 2. verify Authorization header *)
      match Http.authorization req with
      | Some authHeader =>
          if startsWith authHeader "Bearer " then
            (* 3. extract and verify user from token *)
            match getUser env (replace authHeader "Bearer " EmptyString) with
            | Some userId =>
                (* 4. get user subscription and check limits *)
                let* subscription := Quota.getUserSubscription env userId in
                let* userLimits := Quota.checkUserLimits env userId subscription in
                if negb (Quota.allowed userLimits) then
                  let* now := Date_now in
                  ret (response429 subscription userLimits now)
                else generate env req userId subscription userLimits globalUsage
            | None => ret (Http.failure 401 "Unauthorized: Invalid token")
            end
          else ret (Http.failure 401 "Unauthorized: Missing or invalid token")
      | None => ret (Http.failure 401 "Unauthorized: Missing or invalid token")
      end.

(** [Deno.serve(async (req) => { try { ... } catch (e) { ... } })] *)
Definition handler (env : Env) (req : Http.Request) : M Http.Response :=
  try_catch (serve env req)
    (fun e => ret (Http.failure 500 (userMessage env e))).

End Gemini.

(** ** The Groq handler of [generate-mcqs-groq/index.ts] *)

Module Groq.
Import Js Json Runtime.
Local Open Scope js_scope.

Definition MAX_INPUT_LENGTH : Z := 2500.
Definition GROQ_MODEL : string := "llama-3.1-8b-instant".
Definition GROQ_URL : string := "https://api.groq.com/openai/v1/chat/completions".

(** The prompt template of the handler for [count] questions. *)
Definition prompt (count : Z) : string :=
  nl
  +:+ "You are an expert MCQ generator. Create " +:+ pretty count +:+ " high-quality multiple-choice questions that test users' understanding and knowledge of the concepts, facts, and ideas covered in the study material." +:+ nl
  +:+ nl
  +:+ "CRITICAL REQUIREMENTS:" +:+ nl
  +:+ "1. Questions MUST test understanding and knowledge of concepts, facts, and ideas - NOT retrieval of specific text passages" +:+ nl
  +:+ "2. Questions must be answerable from MEMORY and COMPREHENSION - users should NOT need to look back at the material" +:+ nl
  +:+ dq "3. NEVER use words like 'text', 'document', 'passage', 'material', 'according to', 'mentioned', 'stated', 'explained', 'notes', or 'discusses' in the question itself" +:+ nl
  +:+ "4. Focus on testing KNOWLEDGE and UNDERSTANDING of the subject matter, not memory of specific wording" +:+ nl
  +:+ "5. Each question must have exactly 4 options" +:+ nl
  +:+ dq "6. Include 'answer_index' (0-based index) for the correct answer" +:+ nl
  +:+ dq "7. Respond with a valid JSON object containing a 'mcqs' key with an array of MCQ objects - no markdown, no code blocks, no additional text" +:+ nl
  +:+ dq "8. Format: {'mcqs': [array of MCQ objects]}" +:+ nl
  +:+ nl
  +:+ "GOOD EXAMPLES:" +:+ nl
  +:+ dq "{ 'question': 'What is the resolving power of a light microscope?', 'options': ['0.2 nm', '200 nm', '2 μm', '0.2 μm'], 'answer_index': 1 }" +:+ nl
  +:+ dq "{ 'question': 'Which process occurs during photosynthesis?', 'options': ['Glucose breakdown', 'Carbon dioxide absorption', 'Protein synthesis', 'DNA replication'], 'answer_index': 1 }" +:+ nl
  +:+ dq "{ 'question': 'What is the chemical formula for water?', 'options': ['H2O', 'CO2', 'NaCl', 'O2'], 'answer_index': 0 }" +:+ nl
  +:+ dq "{ 'question': 'Who was the first African American to serve in the U.S. Senate?', 'options': ['Frederick Douglass', 'Hiram Revels', 'Booker T. Washington', 'W.E.B. Du Bois'], 'answer_index': 1 }" +:+ nl
  +:+ dq "{ 'question': 'What type of sound sources exist besides musical instruments and traffic?', 'options': ['Electronic devices', 'Natural phenomena', 'Human voices', 'Animal sounds'], 'answer_index': 1 }" +:+ nl
  +:+ dq "{ 'question': 'How does the speed of sound change with temperature?', 'options': ['Increases by 0.6 m/s per °C', 'Decreases by 0.6 m/s per °C', 'Remains constant', 'Increases by 3.31 m/s per °C'], 'answer_index': 0 }" +:+ nl.

(** What [callGroqWithText] resolves with. *)
Record Completion : Type := {
  content : json;
  usage : json
}.

(** [a ?? d] with a default that is not nullish *)
Definition nullish_default (a : option json) (d : json) : json :=
  match nullish_or a (Some d) with
  | Some v => v
  | None => d
  end.

(** [data.choices?.[0]?.message?.content] for a [data] that is not [null] *)
Definition message_content (data : json) : jsval :=
  opt_get (opt_get (opt_get (get data (Name "choices")) (Index 0))
             (Name "message")) (Name "content").

(** [message_content ?? message_content?.[0]?.text ?? "[]"] *)
Definition completion_content (data : json) : json :=
  nullish_default
    (nullish_or (message_content data)
       (opt_get (opt_get (message_content data) (Index 0)) (Name "text")))
    (JStr "[]").

Definition raw_truthy (o : option json) : bool :=
  match o with
  | Some v => truthy v
  | None => false
  end.

Inductive Step : Type :=
| Return (c : Completion)
| Continue.

(** The [try { ... } catch (error) { ... }] inside the loop. *)
Definition attempt_once (env : Env) (r : FetchReq) (attempt maxRetries : Z)
  : M Step :=
  try_catch
    (let* res := fetch env r in
     let '(st, body) := res in
     if negb (ok_status st) then
       if (500 <=? st) && (attempt <? maxRetries)
       then sleep (2000 * attempt) ;; ret Continue
       else throw {| message := "Groq API failed: " +:+ body;
                     rawResponse := Some (JStr body);
                     statusCode := Some st |}
     else
       match JSON_parse body with
       | None => throw (Error (syntaxErrorMessage env))
       | Some JNull => throw (Error (typeErrorMessage env))
       | Some data =>
           ret (Return {| content := completion_content data;
                          usage := nullish_default (get data (Name "usage")) (JObj []) |})
       end)
    (fun error =>
       if attempt =? maxRetries then
         (* preserve raw response in error if it exists *)
         if raw_truthy (rawResponse error) then throw error
         else if negb (String.eqb (message error) EmptyString)
         then throw {| message := message error;
                       rawResponse := Some (JStr (message error));
                       statusCode := statusCode error |}
         else throw error
       else sleep (2000 * attempt) ;; ret Continue).

(** The [for] loop with [remaining] passes left; [after] is what follows
    the loop. *)
Fixpoint retry_loop (env : Env) (r : FetchReq) (remaining : nat)
    (attempt maxRetries : Z) (after : M (option Completion))
  : M (option Completion) :=
  match remaining with
  | O => after
  | S k =>
      let* s := attempt_once env r attempt maxRetries in
      match s with
      | Return c => ret (Some c)
      | Continue => retry_loop env r k (attempt + 1) maxRetries after
      end
  end.

(** [textContent.length > MAX_INPUT_LENGTH ? textContent.slice(0,
    MAX_INPUT_LENGTH) : textContent].  Lengths and cuts are in bytes
    here and in UTF-16 code units in the source: the two agree on ASCII
    text, and what is proved of the cut is stated for it. *)
Definition limitedTextContent (textContent : string) : string :=
  if MAX_INPUT_LENGTH <? strlen textContent
  then slice0 textContent MAX_INPUT_LENGTH
  else textContent.

Definition request_for (textContent prompt : string) : FetchReq :=
  {| url := GROQ_URL;
     Runtime.content :=
       prompt +:+ nl +:+ nl +:+ "STUDY MATERIAL:" +:+ nl +:+ limitedTextContent textContent;
     inlineData := None |}.

(** [callGroqWithText]; [None] is the [undefined] of a loop that ends
    without returning. *)
Definition callGroqWithText (env : Env) (textContent prompt : string)
    (maxRetries : Z) : M (option Completion) :=
  if truthy_str (GROQ_API_KEY env)
  then retry_loop env (request_for textContent prompt)
         (Z.to_nat maxRetries) 1 maxRetries (ret None)
  else throw (Error "GROQ_API_KEY is not set in the environment").

Definition possibleKeys : list string :=
  ["mcqs"; "questions"; "items"; "data"; "results"; "array"].

(** The first of [keys] whose property is an array. *)
Fixpoint first_keyed_array (props : list (string * json)) (keys : list string)
  : option (list json) :=
  match keys with
  | [] => None
  | k :: r =>
      match obj_lookup props k with
      | Some (JArr l) => Some l
      | _ => first_keyed_array props r
      end
  end.

(** The first of [vals] that is an array. *)
Fixpoint first_array (vals : list json) : option (list json) :=
  match vals with
  | [] => None
  | JArr l :: _ => Some l
  | _ :: r => first_array r
  end.

Definition is_nil {A} (l : list A) : bool :=
  match l with [] => true | _ :: _ => false end.

Definition raw_error (msg : string) (groqRaw : json) : Exn :=
  {| message := msg; rawResponse := Some groqRaw; statusCode := None |}.

(** The [try] block of the normaliser: [inl] is what it throws. *)
Definition parse_direct (env : Env) (groqRaw : json) : Exn + list json :=
  match JSON_parse_value groqRaw with
  | None => inl (Error (syntaxErrorMessage env))
  | Some (JArr l) => inr l
  | Some (JObj props) =>
      let mcqs0 := default [] (first_keyed_array props possibleKeys) in
      let mcqs1 :=
        if is_nil mcqs0 then default mcqs0 (first_array (values props)) else mcqs0 in
      if is_nil mcqs1
      then inl (raw_error "Could not find MCQ array in JSON object response" groqRaw)
      else inr mcqs1
  | Some _ => inl (raw_error "Parsed JSON is neither an array nor an object" groqRaw)
  end.

(** The [catch] block: extract a bracketed array from the text. *)
Definition parse_fallback (groqRaw : json) : Exn + json :=
  match match_js (Some groqRaw) Regex.array_pattern with
  | Some (Some jsonMatch) =>
      match JSON_parse (Regex.whole jsonMatch) with
      | Some v => inr v
      | None => inl (raw_error "Groq did not return valid JSON" groqRaw)
      end
  | _ => inl (raw_error "Groq did not return valid JSON" groqRaw)
  end.

Definition normalize (env : Env) (groqRaw : json) : Exn + list json :=
  match parse_direct env groqRaw with
  | inr l => inr l
  | inl _ =>
      match parse_fallback groqRaw with
      | inl e => inl e
      | inr (JArr l) => inr l
      | inr _ => inl (raw_error "Groq response is not an array" groqRaw)
      end
  end.

(** [text_chunks?.filter(string).map(trim).filter(non-empty) ?? []] *)
Definition sanitizedChunks (text_chunks : option (list string)) : list string :=
  match text_chunks with
  | Some l => List.filter (fun c => negb (String.eqb c EmptyString)) (map trim l)
  | None => []
  end.

Fixpoint sections (chunks : list string) (index : Z) : list string :=
  match chunks with
  | [] => []
  | chunk :: r =>
      ("STUDY MATERIAL SECTION " +:+ pretty (index + 1) +:+ ":" +:+ nl +:+ chunk)
      :: sections r (index + 1)
  end.

Fixpoint join (sep : string) (l : list string) : string :=
  match l with
  | [] => EmptyString
  | [x] => x
  | x :: r => x +:+ sep +:+ join sep r
  end.

Definition studyMaterialSections (chunks : list string) (primaryText : option string)
  : string :=
  join (nl +:+ nl)
    (sections (if is_nil chunks then [default EmptyString primaryText] else chunks) 0).

(** The study material sent to the provider. *)
Definition material_of (body : Http.Body) : string :=
  studyMaterialSections (sanitizedChunks (Http.text_chunks body))
    (option_map trim (Http.text_content body)).

(** Is the request without material:
    [(!primaryText || primaryText.length === 0) && sanitizedChunks.length === 0] *)
Definition no_material (body : Http.Body) : bool :=
  negb (truthy_str (option_map trim (Http.text_content body)))
  && is_nil (sanitizedChunks (Http.text_chunks body)).

Definition userMessage (env : Env) (e : Exn) : string :=
  let msg := message e in
  if isDevelopment env
  then (if String.eqb msg EmptyString then "Error" else msg)
  else if includes msg "Groq API"
  then "AI service is temporarily unavailable. Please try again later."
  else if includes msg "not authenticated"
  then "Authentication failed. Please log in again."
  else if includes msg "Failed to fetch"
  then "Network error. Please check your connection and try again."
  else if includes msg "JSON"
  then "Failed to process AI response. Please try again."
  else "An unexpected error occurred. Please try again later.".

(** The [catch] of the handler: status 500, with the raw provider
    response and its status code when the error carries them. *)
Definition errorResponse (env : Env) (e : Exn) : Http.Response :=
  let r := Http.failure 500 (userMessage env e) in
  {| Http.status := Http.status r; Http.ok := Http.ok r;
     Http.error := Http.error r; Http.mcqs := None;
     Http.generated_at := None; Http.count := None; Http.cached := None;
     Http.model := None; Http.usage := None; Http.user_limits := None;
     Http.global_usage := None;
     Http.raw_api_response :=
       if raw_truthy (rawResponse e) then rawResponse e else None;
     Http.status_code :=
       match statusCode e with
       | Some c => if c =? 0 then None else Some c
       | None => None
       end |}.

(** [{ ok: true, mcqs, generated_at, count, model, usage }] *)
Definition okResponse (l : list json) (usage : json) (now : Z) : Http.Response :=
  let r := Http.success l now in
  {| Http.status := Http.status r; Http.ok := Http.ok r;
     Http.error := None; Http.mcqs := Http.mcqs r;
     Http.generated_at := Http.generated_at r; Http.count := Http.count r;
     Http.cached := None; Http.model := Some GROQ_MODEL;
     Http.usage := Some usage; Http.user_limits := None;
     Http.global_usage := None; Http.raw_api_response := None;
     Http.status_code := None |}.

(** Method and bearer token: the user id, or the response that ends the
    request. *)
Definition authenticate (env : Env) (req : Http.Request) : Http.Response + string :=
  if negb (String.eqb (Http.method req) "POST")
  then inl (Http.failure 405 "Method not allowed")
  else
    match Http.authorization req with
    | Some authHeader =>
        if startsWith authHeader "Bearer " then
          match getUser env (replace authHeader "Bearer " EmptyString) with
          | Some userId => inr userId
          | None => inl (Http.failure 401 "Unauthorized: Invalid token")
          end
        else inl (Http.failure 401 "Unauthorized: Missing or invalid token")
    | None => inl (Http.failure 401 "Unauthorized: Missing or invalid token")
    end.

Definition serve (env : Env) (req : Http.Request) : M Http.Response :=
  match authenticate env req with
  | inl response => ret response
  | inr _ =>
      match Http.json_body req with
      | None => throw (Error (syntaxErrorMessage env))
      | Some body =>
          if no_material body
          then ret (Http.failure 400 "text_content or text_chunks is required")
          else
            let count := default 20 (Http.mcq_count body) in
            let* completion :=
              callGroqWithText env (material_of body) (prompt count) 3 in
            match completion with
            | None => throw (Error (typeErrorMessage env))
            | Some c =>
                let* l := lift (normalize env (content c)) in
                let* now := Date_now in
                ret (okResponse l (usage c) now)
            end
      end
  end.

Definition handler (env : Env) (req : Http.Request) : M Http.Response :=
  try_catch (serve env req) (fun e => ret (errorResponse env e)).

End Groq.

(** ** The Groq handler with the daily quota *)

Module GroqQuota.
Import Js Json Runtime.
Local Open Scope js_scope.

(** The static prompt: the template of [Groq.prompt] for 20 questions. *)
Definition staticPrompt : string := Groq.prompt 20.

(** [callGroqWithText] of this variant: the same loop, followed by a
    [throw] that the loop never reaches when [maxRetries] is positive. *)
Definition callGroqWithText (env : Env) (textContent staticPrompt : string)
    (maxRetries : Z) : M (option Groq.Completion) :=
  if truthy_str (GROQ_API_KEY env)
  then Groq.retry_loop env (Groq.request_for textContent staticPrompt)
         (Z.to_nat maxRetries) 1 maxRetries
         (throw (Error "Max retries exceeded without returning a result"))
  else throw (Error "GROQ_API_KEY is not set in the environment").

Definition serve (env : Env) (req : Http.Request) : M Http.Response :=
  match Groq.authenticate env req with
  | inl response => ret response
  | inr userId =>
      (* get user subscription and check limits before calling the API *)
      let* subscription := Quota.getUserSubscription env userId in
      let* userLimits := Quota.checkUserLimits env userId subscription in
      if negb (Quota.allowed userLimits) then
        let* now := Date_now in
        ret (Http.with_user_limits
               (Http.failure 429
                  ("Daily limit reached. You can generate MCQs again in "
                   +:+ pretty (Gemini.days_until (Quota.resetTime userLimits) now)
                   +:+ " day(s)."))
               {| Http.subscription := subscription;
                  Http.limit_type := Quota.limitType userLimits;
                  Http.remaining := 0;
                  Http.reset_time := Quota.resetTime userLimits |})
      else
        match Http.json_body req with
        | None => throw (Error (syntaxErrorMessage env))
        | Some body =>
            if Groq.no_material body
            then ret (Http.failure 400 "text_content or text_chunks is required")
            else
              let* completion :=
                callGroqWithText env (Groq.material_of body) staticPrompt 3 in
              match completion with
              | None => throw (Error (typeErrorMessage env))
              | Some c =>
                  let* l := lift (Groq.normalize env (Groq.content c)) in
                  (* increment user usage count after successful generation *)
                  Quota.incrementUserUsage env userId ;;
                  let* now := Date_now in
                  ret (Http.with_user_limits
                         (Groq.okResponse l (Groq.usage c) now)
                         {| Http.subscription := subscription;
                            Http.limit_type := None;
                            Http.remaining := Quota.remaining userLimits - 1;
                            Http.reset_time := Quota.resetTime userLimits |})
              end
        end
  end.

Definition handler (env : Env) (req : Http.Request) : M Http.Response :=
  try_catch (serve env req) (fun e => ret (Groq.errorResponse env e)).

End GroqQuota.

(** ** Notions used to state the properties *)

Module Stages.
Import Js Json Runtime.

(** The user a request's bearer token stands for; [None] when the header
    is missing, is not a bearer token, or the token is not accepted. *)
Definition token_user (env : Env) (req : Http.Request) : option string :=
  match Http.authorization req with
  | Some authHeader =>
      if startsWith authHeader "Bearer "
      then getUser env (replace authHeader "Bearer " EmptyString)
      else None
  | None => None
  end.

(** The usage row is untouched or was reset by the lazy daily reset. *)
Definition untouched_or_reset (now : Z) (before after : option Sql.UsageRow) : Prop :=
  after = before \/
  (Sql.reset_due now before = true /\
   after = Some {| Sql.uploads_today := Some 0;
                   Sql.daily_reset_at := Some (Sql.next_midnight now) |}).

(** Every Supabase call of the environment works. *)
Definition db_works (env : Env) : Prop := forall c, db_fault env c = Works.

(** A value is [null] or [undefined]. *)
Definition nullish (v : jsval) : bool :=
  match v with
  | None | Some JNull => true
  | Some _ => false
  end.

(** An MCQ as the data model wants it: an object with exactly four
    options and an integer [answer_index] from 0 to 3. *)
Definition four_options (v : json) : bool :=
  match get v (Name "options") with
  | Some (JArr l) => Nat.eqb (List.length l) 4
  | _ => false
  end.

Definition answer_in_range (v : json) : bool :=
  match get v (Name "answer_index") with
  | Some (JNum m e) =>
      (0 <=? e) && (0 <=? m * 10 ^ e) && (m * 10 ^ e <=? 3)
      || (e <? 0) && (m mod 10 ^ (- e) =? 0)
         && (0 <=? m / 10 ^ (- e)) && (m / 10 ^ (- e) <=? 3)
  | _ => false
  end.

Definition valid_mcq (v : json) : bool := four_options v && answer_in_range v.

(** Every array among the values is empty. *)
Definition arrays_empty (vals : list json) : Prop :=
  forall l, In (JArr l) vals -> l = [].

(** The fallback of the Groq normaliser finds no bracketed array in the
    text, or one that does not parse. *)
Definition no_rescue (raw : string) : Prop :=
  match Regex.re_match raw Regex.array_pattern with
  | Some f => JSON_parse (Regex.whole f) = None
  | None => True
  end.

(** The counter a snapshot reports for a row of the table. *)
Definition snapshot_uploads (row : option Sql.UsageRow) : Z :=
  match row with
  | Some r => Sql.coalesce (Sql.uploads_today r) 0
  | None => 0
  end.

(** What a snapshot read at time [now] reports for a row: a counter due
    for its reset reads as 0. *)
Definition snapshot_view (now : Z) (row : option Sql.UsageRow) : Z :=
  if Sql.reset_due now row then 0 else snapshot_uploads row.

(** *** One pass of a retry loop, read off the provider's answer *)

(** What a pass of the Groq loop returns for an answer, when it returns. *)
Definition groq_answer (res : HttpResult) : option Groq.Completion :=
  match res with
  | Responded st body =>
      if ok_status st then
        match JSON_parse body with
        | None | Some JNull => None
        | Some data =>
            Some {| Groq.content := Groq.completion_content data;
                    Groq.usage := Groq.nullish_default (get data (Name "usage"))
                                    (JObj []) |}
        end
      else None
  | FetchFailed _ => None
  end.

(** What the [try] block of a Groq pass throws for an answer it does not
    return from. *)
Definition groq_failure (env : Env) (res : HttpResult) : Exn :=
  match res with
  | FetchFailed msg => Error msg
  | Responded st body =>
      if ok_status st then
        match JSON_parse body with
        | None => Error (syntaxErrorMessage env)
        | _ => Error (typeErrorMessage env)
        end
      else {| message := "Groq API failed: " +:+ body;
              rawResponse := Some (JStr body);
              statusCode := Some st |}
  end.

(** What the [catch] of the last Groq pass rethrows. *)
Definition groq_rethrown (e : Exn) : Exn :=
  if Groq.raw_truthy (rawResponse e) then e
  else if negb (String.eqb (message e) EmptyString)
  then {| message := message e; rawResponse := Some (JStr (message e));
          statusCode := statusCode e |}
  else e.

(** The same for the Gemini client. *)
Definition gemini_answer (res : HttpResult) : option jsval :=
  match res with
  | Responded st body =>
      if ok_status st then
        match JSON_parse body with
        | None | Some JNull => None
        | Some data => Some (Gemini.gemini_text data)
        end
      else None
  | FetchFailed _ => None
  end.

Definition gemini_failure (env : Env) (res : HttpResult) : Exn :=
  match res with
  | FetchFailed msg => Error msg
  | Responded st body =>
      if ok_status st then
        match JSON_parse body with
        | None => Error (syntaxErrorMessage env)
        | _ => Error (typeErrorMessage env)
        end
      else Error ("Gemini API failed: " +:+ body)
  end.

(** The world after a pass that failed and waited [d] milliseconds. *)
Definition retried (w : World) (r : FetchReq) (d : Z) : World :=
  log_timer (log_fetch w r) d.

(** The answer to the next fetch. *)
Definition next_answer (env : Env) (w : World) : HttpResult :=
  provider env (List.length (fetches w)).

(** *** The paths of the Gemini handler *)

(** The request is a POST that passed the global check and
    authentication; its user's tier and limits were read, leaving the
    world [w2]. *)
Definition checked (env : Env) (req : Http.Request) (w : World)
    (g : Gemini.GlobalCheck) (userId : string) (sub : Quota.Subscription)
    (limits : Quota.Limits) (w2 : World) : Prop :=
  Http.method req = "POST" /\
  exists w1,
    Gemini.checkGlobalUsage w = (Ret g, w1) /\
    Gemini.allowed g = true /\
    token_user env req = Some userId /\
    Quota.getUserSubscription env userId w1 = (Ret sub, w1) /\
    Quota.checkUserLimits env userId sub w1 = (Ret limits, w2).

(** The request was admitted with a usable body and missed the cache:
    the provider is called next, in the world [w3]. *)
Definition reaches_provider (env : Env) (req : Http.Request) (w : World)
    (g : Gemini.GlobalCheck) (userId : string) (sub : Quota.Subscription)
    (limits : Quota.Limits) (body : Http.Body) (w2 w3 : World) : Prop :=
  checked env req w g userId sub limits w2 /\
  Quota.allowed limits = true /\
  Http.json_body req = Some body /\
  Gemini.has_input body = true /\
  Gemini.getCachedMCQs (Gemini.generateFileHash (Gemini.material_of body)) w2
  = (Ret None, w3).

(** Every way a request goes through the Gemini handler: the response
    and the world it ends in. *)
Inductive GeminiRun (env : Env) (req : Http.Request) (w : World)
  : Http.Response -> World -> Prop :=
| Run405 :
    Http.method req <> "POST" ->
    GeminiRun env req w (Http.failure 405 "Method not allowed") w
| Run503 g w1 :
    Http.method req = "POST" ->
    Gemini.checkGlobalUsage w = (Ret g, w1) ->
    Gemini.allowed g = false ->
    GeminiRun env req w (Gemini.response503 g (clock w1)) w1
| Run401 g w1 msg :
    Http.method req = "POST" ->
    Gemini.checkGlobalUsage w = (Ret g, w1) ->
    Gemini.allowed g = true ->
    token_user env req = None ->
    GeminiRun env req w (Http.failure 401 msg) w1
| Run429 g userId sub limits w2 :
    checked env req w g userId sub limits w2 ->
    Quota.allowed limits = false ->
    GeminiRun env req w (Gemini.response429 sub limits (clock w2)) w2
| RunNoBody g userId sub limits w2 :
    checked env req w g userId sub limits w2 ->
    Quota.allowed limits = true ->
    Http.json_body req = None ->
    GeminiRun env req w
      (Http.failure 500 (Gemini.userMessage env (Error (syntaxErrorMessage env)))) w2
| Run400 g userId sub limits w2 body msg :
    checked env req w g userId sub limits w2 ->
    Quota.allowed limits = true ->
    Http.json_body req = Some body ->
    Gemini.has_input body = false ->
    GeminiRun env req w (Http.failure 400 msg) w2
| RunCached g userId sub limits w2 body l w3 :
    checked env req w g userId sub limits w2 ->
    Quota.allowed limits = true ->
    Http.json_body req = Some body ->
    Gemini.has_input body = true ->
    Gemini.getCachedMCQs (Gemini.generateFileHash (Gemini.material_of body)) w2
    = (Ret (Some l), w3) ->
    GeminiRun env req w
      (Gemini.okResponse l true sub limits g (Quota.remaining limits)
         (Gemini.remaining g) (clock w3)) w3
| RunThrows g userId sub limits w2 body w3 e w4 :
    reaches_provider env req w g userId sub limits body w2 w3 ->
    Gemini.provider_call env body w3 = (Throw e, w4) ->
    GeminiRun env req w (Http.failure 500 (Gemini.userMessage env e)) w4
| RunMalformed g userId sub limits w2 body w3 raw w4 e :
    reaches_provider env req w g userId sub limits body w2 w3 ->
    Gemini.provider_call env body w3 = (Ret raw, w4) ->
    Gemini.normalize raw = inl e ->
    GeminiRun env req w (Http.failure 500 (Gemini.userMessage env e)) w4
| RunGenerated g userId sub limits w2 body w3 raw w4 l w5 :
    reaches_provider env req w g userId sub limits body w2 w3 ->
    Gemini.provider_call env body w3 = (Ret raw, w4) ->
    Gemini.normalize raw = inr l ->
    Gemini.commit env userId (Gemini.generateFileHash (Gemini.material_of body)) l w4
    = (Ret tt, w5) ->
    GeminiRun env req w
      (Gemini.okResponse l false sub limits g (Quota.remaining limits - 1)
         (Gemini.remaining g - 1) (clock w5)) w5.

End Stages.

(** ** Concrete environments, worlds and requests *)

Module Fixtures.
Import Js Json Runtime.

Definition env_with (p : nat -> HttpResult) : Env :=
  {| getUser := fun t => if String.eqb t "token-1" then Some "user-1" else None;
     provider := p;
     db_fault := fun _ => Works;
     isDevelopment := false;
     GROQ_API_KEY := Some "gsk-key";
     syntaxErrorMessage := "Unexpected token in JSON";
     typeErrorMessage := "Cannot read properties of null" |}.

(** 2023-11-14T22:13:20Z and the midnight after it *)
Definition t0 : Z := 1700000000000.
Definition midnight : Z := 1700006400000.

Definition usage_row (uploads reset : Z) : Sql.UsageRow :=
  {| Sql.uploads_today := Some uploads; Sql.daily_reset_at := Some reset |}.

(** A world at [t0] with one free-plan user. *)
Definition world (global_count : Z) (row : Sql.UsageRow)
    (cache : gmap string CacheEntry) : World :=
  {| clock := t0;
     globalUsageCount := global_count;
     globalUsageResetTime := t0 + Gemini.GLOBAL_WINDOW;
     mcqCache := cache;
     user_usage_stats := {[ "user-1" := row ]};
     user_subscriptions :=
       {[ "user-1" := {| Sql.plan_type := "free"; Sql.status := "active" |} ]};
     fetches := [];
     timers := [] |}.

Definition text_body (s : string) : Http.Body :=
  {| Http.file_data := None; Http.mime_type := None;
     Http.text_content := Some s; Http.content_type := None;
     Http.llm_provider := None; Http.mcq_count := None;
     Http.text_chunks := None |}.

Definition post (auth : option string) (s : string) : Http.Request :=
  {| Http.method := "POST"; Http.authorization := auth;
     Http.json_body := Some (text_body s) |}.

Definition bearer : option string := Some "Bearer token-1".

Definition always (st : Z) (body : string) : nat -> HttpResult :=
  fun _ => Responded st body.

Definition script (l : list HttpResult) : nat -> HttpResult :=
  fun n => nth n l (FetchFailed "Failed to fetch").

(** A JSON string literal for [s]: quotes and backslashes escaped. *)
Definition quoted (s : string) : string :=
  text (dquote ::
        flat_map (fun c => if Ascii.eqb c dquote || Ascii.eqb c backslash
                           then [backslash; c] else [c]) (chars s)
        ++ [dquote]).

(** The envelope of a Gemini answer whose text is [s]. *)
Definition gemini_envelope (s : string) : string :=
  dq "{'candidates':[{'content':{'parts':[{'text':" +:+ quoted s +:+ "}]}}]}".

(** The envelope of a Groq answer whose content is [s]. *)
Definition groq_envelope (s : string) : string :=
  dq "{'choices':[{'message':{'role':'assistant','content':" +:+ quoted s
  +:+ dq "}}],'usage':{'completion_tokens':12}}".

(** An array with one question that has two options and answer index 7. *)
Definition malformed_mcqs : string :=
  dq "[{'question':'Q','options':['A','B'],'answer_index':7}]".

Definition malformed_mcq : json :=
  JObj [("question", JStr "Q"); ("options", JArr [JStr "A"; JStr "B"]);
        ("answer_index", JNum 7 0)].

Definition good_mcq : json :=
  JObj [("question", JStr "Q");
        ("options", JArr [JStr "A"; JStr "B"; JStr "C"; JStr "D"]);
        ("answer_index", JNum 2 0)].

End Fixtures.

(** ** The concrete cases of the claims *)

Module Cases.
Import Js Json Runtime Stages Fixtures.

(** Three uploads today, the counter live until the next midnight. *)
Definition fresh_world : World := world 0 (usage_row 3 midnight) ∅.

(** Three uploads counted in a window that ended at the last midnight. *)
Definition stale_world : World :=
  world 0 (usage_row 3 (midnight - Sql.DAY_MS)) ∅.

(** The global ceiling is reached. *)
Definition full_world : World := world 500000 (usage_row 3 midnight) ∅.

(** The free plan's five uploads are used up. *)
Definition exhausted_world : World := world 0 (usage_row 5 midnight) ∅.

Definition notes : string := "Photosynthesis turns light into chemical energy.".

(** The cache holds a list for [notes], stored a minute ago. *)
Definition cached_world : World :=
  world 0 (usage_row 3 midnight)
    {[ Gemini.generateFileHash notes
       := {| mcqs := [good_mcq]; timestamp := t0 - 60000 |} ]}.

Definition rejecting : Env := env_with (always 400 "bad request").
Definition down : Env := env_with (always 500 "overloaded").
Definition recovering (body : string) : Env :=
  env_with (script [Responded 500 "overloaded"; Responded 500 "overloaded";
                    Responded 200 body]).
Definition answering (body : string) : Env := env_with (always 200 body).

Definition admitted_limits : Quota.Limits :=
  {| Quota.allowed := true; Quota.limitType := None; Quota.remaining := 2;
     Quota.resetTime := midnight |}.

Definition open_global : Gemini.GlobalCheck :=
  {| Gemini.allowed := true; Gemini.remaining := 500000;
     Gemini.resetTime := t0 + Gemini.GLOBAL_WINDOW |}.

(** A wrapper whose only array is empty, with a bracketed array of
    objects inside a string. *)
Definition rescued_wrapper : string := dq "{'mcqs': [], 'note': '[{}]'}".
Definition empty_wrapper : string := dq "{'mcqs': []}".

(** The worlds of the failing request on [stale_world]: after the quota
    check, and after the provider call. *)
Definition stale_checked : World :=
  (Quota.checkUserLimits rejecting "user-1" Quota.FREE stale_world).2.
Definition stale_called : World :=
  (Gemini.provider_call rejecting (text_body notes) stale_checked).2.

Definition reset_limits : Quota.Limits :=
  {| Quota.allowed := true; Quota.limitType := None; Quota.remaining := 5;
     Quota.resetTime := midnight |}.

Definition groq_request (prompt : string) : FetchReq :=
  Groq.request_for (Groq.material_of (text_body notes)) prompt.

Definition good_mcqs : string :=
  dq "[{'question':'Q','options':['A','B','C','D'],'answer_index':2}]".

(** The envelope of a successful answer without a content field. *)
Definition bare_envelope : string := dq "{'choices':[]}".

Definition bare_data : json := JObj [("choices", JArr [])].

Definition wrapper_completion : Groq.Completion :=
  {| Groq.content := JStr empty_wrapper;
     Groq.usage := JObj [("completion_tokens", JNum 12 0)] |}.

(** The same array inside a fenced block, after a line of prose. *)
Definition fenced_mcqs : string :=
  "Here you go:" +:+ nl +:+ "```json" +:+ nl +:+ good_mcqs +:+ nl +:+ "```".

(** The same array under the key the Groq prompt asks for. *)
Definition wrapped_mcqs : string := dq "{'mcqs': " +:+ good_mcqs +:+ "}".

End Cases.

(** ** The first Groq handler: a bare array, no quota, no length limit *)

Module GroqSimple.
Import Js Json Runtime.
Local Open Scope js_scope.

(** The prompt template of this handler for [count] questions. *)
Definition prompt (count : Z) : string :=
  nl +:+ "You are an expert MCQ generator. Create " +:+ pretty count
  +:+ " high-quality multiple-choice questions that test users' understanding and knowledge of the concepts, facts, and ideas covered in the study material."
  +:+ nl +:+ nl
  +:+ "CRITICAL REQUIREMENTS:" +:+ nl
  +:+ "1. Questions MUST test understanding and knowledge of concepts, facts, and ideas - NOT retrieval of specific text passages" +:+ nl
  +:+ "2. Questions must be answerable from MEMORY and COMPREHENSION - users should NOT need to look back at the material" +:+ nl
  +:+ dq "3. NEVER use words like 'text', 'document', 'passage', 'material', 'according to', 'mentioned', 'stated', 'explained', 'notes', or 'discusses' in the question itself" +:+ nl
  +:+ "4. Focus on testing KNOWLEDGE and UNDERSTANDING of the subject matter, not memory of specific wording" +:+ nl
  +:+ "5. Each question must have exactly 4 options" +:+ nl
  +:+ dq "6. Include 'answer_index' (0-based index) for the correct answer" +:+ nl
  +:+ "7. Respond ONLY with a valid JSON array - no markdown, no code blocks, no additional text" +:+ nl.

Definition request_for (textContent prompt : string) : FetchReq :=
  {| url := Groq.GROQ_URL;
     Runtime.content :=
       prompt +:+ nl +:+ nl +:+ "STUDY MATERIAL:" +:+ nl +:+ textContent;
     inlineData := None |}.

Inductive Step : Type :=
| Return (content : json)
| Continue.

(** The [try { ... } catch (error) { ... }] inside the loop. *)
Definition attempt_once (env : Env) (r : FetchReq) (attempt maxRetries : Z)
  : M Step :=
  try_catch
    (let* res := fetch env r in
     let '(st, body) := res in
     if negb (ok_status st) then
       if (500 <=? st) && (attempt <? maxRetries)
       then sleep (2000 * attempt) ;; ret Continue
       else throw (Error ("Groq API failed: " +:+ body))
     else
       match JSON_parse body with
       | None => throw (Error (syntaxErrorMessage env))
       | Some JNull => throw (Error (typeErrorMessage env))
       | Some data => ret (Return (Groq.completion_content data))
       end)
    (fun error =>
       if attempt =? maxRetries then throw error
       else sleep (2000 * attempt) ;; ret Continue).

(** The [for] loop with [remaining] passes left; falling off its end
    returns [undefined]. *)
Fixpoint retry_loop (env : Env) (r : FetchReq) (remaining : nat)
    (attempt maxRetries : Z) : M jsval :=
  match remaining with
  | O => ret None
  | S k =>
      let* s := attempt_once env r attempt maxRetries in
      match s with
      | Return c => ret (Some c)
      | Continue => retry_loop env r k (attempt + 1) maxRetries
      end
  end.

Definition callGroqWithText (env : Env) (textContent prompt : string)
    (maxRetries : Z) : M jsval :=
  if truthy_str (GROQ_API_KEY env)
  then retry_loop env (request_for textContent prompt)
         (Z.to_nat maxRetries) 1 maxRetries
  else throw (Error "GROQ_API_KEY is not set in the environment").

(** The parse of the provider text: direct JSON, then a bracketed array. *)
Definition extract (groqRaw : jsval) : Exn + json :=
  match JSON_parse_js groqRaw with
  | Some v => inr v
  | None =>
      let not_valid :=
        Error ("Groq did not return valid JSON. Raw response: "
               +:+ ToString_js groqRaw) in
      match match_js groqRaw Regex.array_pattern with
      | Some (Some jsonMatch) =>
          match JSON_parse (Regex.whole jsonMatch) with
          | Some v => inr v
          | None => inl not_valid
          end
      | _ => inl not_valid
      end
  end.

Definition normalize (groqRaw : jsval) : Exn + list json :=
  match extract groqRaw with
  | inl e => inl e
  | inr (JArr l) => inr l
  | inr _ =>
      inl (Error ("Groq response is not an array: " +:+ ToString_js groqRaw))
  end.

(** [mcq_count && mcq_count > 0 ? mcq_count : 30] *)
Definition count_of (mcq_count : option Z) : Z :=
  match mcq_count with
  | Some n => if 0 <? n then n else 30
  | None => 30
  end.

(** [{ ok: true, mcqs, generated_at, count, model }] *)
Definition okResponse (l : list json) (now : Z) : Http.Response :=
  let r := Http.success l now in
  {| Http.status := Http.status r; Http.ok := Http.ok r;
     Http.error := None; Http.mcqs := Http.mcqs r;
     Http.generated_at := Http.generated_at r; Http.count := Http.count r;
     Http.cached := None; Http.model := Some Groq.GROQ_MODEL;
     Http.usage := None; Http.user_limits := None;
     Http.global_usage := None; Http.raw_api_response := None;
     Http.status_code := None |}.

Definition serve (env : Env) (req : Http.Request) : M Http.Response :=
  match Groq.authenticate env req with
  | inl response => ret response
  | inr _ =>
      match Http.json_body req with
      | None => throw (Error (syntaxErrorMessage env))
      | Some body =>
          if negb (truthy_str (Http.text_content body))
          then ret (Http.failure 400 "text_content is required")
          else
            let count := count_of (Http.mcq_count body) in
            let* groqRaw :=
              callGroqWithText env (default EmptyString (Http.text_content body))
                (prompt count) 3 in
            let* l := lift (normalize groqRaw) in
            let* now := Date_now in
            ret (okResponse l now)
      end
  end.

(** The [catch] of this handler answers with the message alone. *)
Definition handler (env : Env) (req : Http.Request) : M Http.Response :=
  try_catch (serve env req)
    (fun e => ret (Http.failure 500 (Groq.userMessage env e))).

End GroqSimple.

(** ** The tables with all the columns the SQL functions write

    [user_usage_stats] and [user_subscriptions] as the migrations leave
    them, keyed by [user_id] (the [ON CONFLICT (user_id)] of the sign-up
    trigger needs it unique), and the functions of the migrations on
    them.  [Sql] above is the view of these tables the edge functions
    read. *)

Module Schema.

Record UsageStats : Type := {
  uploads_today : option Z;
  daily_reset_at : option Z;
  last_login_at : option Z;
  usage_created_at : Z;
  usage_updated_at : Z
}.

Record Subscription : Type := {
  plan_type : string;
  is_active : bool;
  status : string;
  revenue_cat_customer_id : option string;
  revenue_cat_subscription_id : option string;
  created_at : Z;
  updated_at : Z
}.

Record Database : Type := {
  user_usage_stats : gmap string UsageStats;
  user_subscriptions : gmap string Subscription
}.

(** [IF current_reset_at IS NULL OR now_time >= current_reset_at], with
    [current_reset_at] selected from the user's row. *)
Definition reset_due (now : Z) (row : option UsageStats) : bool :=
  match row with
  | Some r =>
      match daily_reset_at r with
      | Some t => t <=? now
      | None => true
      end
  | None => true
  end.

(** [UPDATE user_usage_stats SET ... WHERE user_id = user] *)
Definition update (user : string) (f : UsageStats -> UsageStats)
    (t : gmap string UsageStats) : gmap string UsageStats :=
  match t !! user with
  | Some row => <[user := f row]> t
  | None => t
  end.

(** [check_and_reset_daily_uploads_on_login(user_id_param)] *)
Definition check_and_reset_daily_uploads_on_login (now : Z) (user : string)
    (t : gmap string UsageStats) : gmap string UsageStats :=
  if reset_due now (t !! user)
  then update user
         (fun r => {| uploads_today := Some 0;
                      daily_reset_at := Some (Sql.next_midnight now);
                      last_login_at := Some now;
                      usage_created_at := usage_created_at r;
                      usage_updated_at := now |}) t
  else update user
         (fun r => {| uploads_today := uploads_today r;
                      daily_reset_at := daily_reset_at r;
                      last_login_at := Some now;
                      usage_created_at := usage_created_at r;
                      usage_updated_at := now |}) t.

(** [increment_upload_count(user_id_param)] *)
Definition increment_upload_count (now : Z) (user : string)
    (t : gmap string UsageStats) : gmap string UsageStats :=
  if reset_due now (t !! user)
  then update user
         (fun r => {| uploads_today := Some 1;
                      daily_reset_at := Some (Sql.next_midnight now);
                      last_login_at := last_login_at r;
                      usage_created_at := usage_created_at r;
                      usage_updated_at := now |}) t
  else update user
         (fun r => {| uploads_today := Some (Sql.coalesce (uploads_today r) 0 + 1);
                      daily_reset_at := daily_reset_at r;
                      last_login_at := last_login_at r;
                      usage_created_at := usage_created_at r;
                      usage_updated_at := now |}) t.

(** [get_user_usage_stats(user_id_param)]: the table after the reset
    check, and the rows returned:
    [(COALESCE(uploads_today, 0), daily_reset_at, last_login_at)]. *)
Definition get_user_usage_stats (now : Z) (user : string)
    (t : gmap string UsageStats)
  : list (Z * option Z * option Z) * gmap string UsageStats :=
  let t' :=
    if reset_due now (t !! user)
    then update user
           (fun r => {| uploads_today := Some 0;
                        daily_reset_at := Some (Sql.next_midnight now);
                        last_login_at := last_login_at r;
                        usage_created_at := usage_created_at r;
                        usage_updated_at := now |}) t
    else t in
  (match t' !! user with
   | Some r => [(Sql.coalesce (uploads_today r) 0, daily_reset_at r, last_login_at r)]
   | None => []
   end, t').

(** The manual update [incrementUserUsage] falls back to when the RPC
    resolves with an error, on the full rows: the row selected, then an
    update of [uploads_today] and [daily_reset_at] when the reset is due
    ([new Date(null)] is the epoch) and of [uploads_today] alone
    otherwise.  No other column is written. *)
Definition manual_increment (now : Z) (user : string)
    (t : gmap string UsageStats) : gmap string UsageStats :=
  match t !! user with
  | Some current =>
      if Quota.or_zero (daily_reset_at current) <=? now
      then update user
             (fun r => {| uploads_today := Some 1;
                          daily_reset_at := Some (Sql.next_midnight now);
                          last_login_at := last_login_at r;
                          usage_created_at := usage_created_at r;
                          usage_updated_at := usage_updated_at r |}) t
      else update user
             (fun r => {| uploads_today :=
                            Some (Quota.or_zero (uploads_today current) + 1);
                          daily_reset_at := daily_reset_at r;
                          last_login_at := last_login_at r;
                          usage_created_at := usage_created_at r;
                          usage_updated_at := usage_updated_at r |}) t
  | None => t
  end.

(** [INSERT ... ON CONFLICT (user_id) DO NOTHING] *)
Definition insert_new {A} (user : string) (row : A) (t : gmap string A)
  : gmap string A :=
  match t !! user with
  | Some _ => t
  | None => <[user := row]> t
  end.

(** The sign-up trigger [create_user_subscription_and_stats()], fired for
    the new user [new_id]. *)
Definition create_user_subscription_and_stats (now : Z) (new_id : string)
    (db : Database) : Database :=
  {| user_subscriptions :=
       insert_new new_id
         {| plan_type := "free"; is_active := true; status := "active";
            revenue_cat_customer_id := None;
            revenue_cat_subscription_id := None;
            created_at := now; updated_at := now |}
         (user_subscriptions db);
     user_usage_stats :=
       insert_new new_id
         {| uploads_today := Some 0;
            daily_reset_at := Some (Sql.next_midnight now);
            last_login_at := Some now;
            usage_created_at := now; usage_updated_at := now |}
         (user_usage_stats db) |}.

(** The trigger function [check_upload_limit()], fired for a new row of
    the user [user]: [inl] is the exception it raises, with the plan, the
    uploads of today and the limit of the message. *)
Definition check_upload_limit (user : string) (db : Database)
  : (string * Z * Z) + unit :=
  let user_plan :=
    match user_subscriptions db !! user with
    | Some s => plan_type s
    | None => "free"
    end in
  let current_uploads :=
    match user_usage_stats db !! user with
    | Some r => Sql.coalesce (uploads_today r) 0
    | None => 0
    end in
  let upload_limit :=
    if String.eqb user_plan "free" then 5
    else if String.eqb user_plan "pro" then 50
    else 5 in
  if upload_limit <=? current_uploads
  then inl (user_plan, current_uploads, upload_limit)
  else inr tt.

(** *** What the edge functions see of the tables *)

Definition usage_view (r : UsageStats) : Sql.UsageRow :=
  {| Sql.uploads_today := uploads_today r;
     Sql.daily_reset_at := daily_reset_at r |}.

Definition subscription_view (s : Subscription) : Sql.SubscriptionRow :=
  {| Sql.plan_type := plan_type s; Sql.status := status s |}.

(** *** The life of one user's row *)

Inductive Op : Type :=
| Login     (* check_and_reset_daily_uploads_on_login *)
| Read      (* get_user_usage_stats *)
| Upload.   (* increment_upload_count *)

Definition step (user : string) (t : gmap string UsageStats) (e : Z * Op)
  : gmap string UsageStats :=
  match e with
  | (now, Login) => check_and_reset_daily_uploads_on_login now user t
  | (now, Read) => (get_user_usage_stats now user t).2
  | (now, Upload) => increment_upload_count now user t
  end.

(** The calls [events], each with the time it is made at, in order. *)
Definition run (user : string) (events : list (Z * Op))
    (t : gmap string UsageStats) : gmap string UsageStats :=
  fold_left (step user) events t.

(** The UTC day of a time. *)
Definition day (now : Z) : Z := now / Sql.DAY_MS.

(** The uploads among [events] made on the day [d]. *)
Definition uploads_on (d : Z) (events : list (Z * Op)) : Z :=
  Z.of_nat (List.length
    (List.filter
       (fun e => match e with
                 | (now, Upload) => day now =? d
                 | _ => false
                 end) events)).

(** Times that do not go back, starting from [from]. *)
Fixpoint in_order (from : Z) (events : list (Z * Op)) : bool :=
  match events with
  | [] => true
  | (now, _) :: r => (from <=? now) && in_order now r
  end.

(** The time of the last event, [from] when there is none. *)
Definition last_time (from : Z) (events : list (Z * Op)) : Z :=
  fold_left (fun _ e => fst e) events from.

End Schema.

(** ** Calls through the Supabase client of the account functions *)

Module Api.

(** What awaiting a call gives: [data] with a null [error], an [error]
    with its message, or a rejected promise. *)
Inductive ApiResult (A : Type) : Type :=
| Data (a : A)
| Failed (message : string)
| Rejected (message : string).
Arguments Data {A} a.
Arguments Failed {A} message.
Arguments Rejected {A} message.

End Api.

(** ** The function that resends the confirmation mail
    ([functions/resend-confirmation/index.ts]) *)

Module Resend.
Import Js Json Runtime Api.

(** *** The pattern of a mail address *)

Inductive atom : Type :=
| Lit (c : ascii)               (* one literal character *)
| Plus (p : ascii -> bool).     (* class+ *)

(** Does the pattern, anchored at both ends, match the characters?  The
    greedy [class+] takes one character of the class, then as many as it
    can, and gives them back one by one. *)
Fixpoint matches (r : list atom) (s : list ascii) {struct r} : bool :=
  match r with
  | [] => match s with [] => true | _ :: _ => false end
  | Lit c :: r' =>
      match s with
      | x :: s' => Ascii.eqb x c && matches r' s'
      | [] => false
      end
  | Plus p :: r' =>
      match s with
      | x :: s' =>
          p x &&
          (fix more (s : list ascii) {struct s} : bool :=
             match s with
             | y :: s'' => (p y && more s'') || matches r' s
             | [] => matches r' []
             end) s'
      | [] => false
      end
  end.

(** The class of the pattern: neither white space nor an at sign. *)
Definition plain (c : ascii) : bool := negb (is_space c || Ascii.eqb c "@"%char).

(** The pattern: plain characters, an at sign, plain characters, a dot,
    plain characters. *)
Definition emailRegex : list atom :=
  [Plus plain; Lit "@"%char; Plus plain; Lit "."%char; Plus plain].

(** [emailRegex.test(v)]: the argument is converted to a string. *)
Definition test (v : json) : bool := matches emailRegex (chars (ToString v)).

(** *** The admin API *)

(** A user as [listUsers] returns it. *)
Record AuthUser : Type := {
  email : option string;
  email_confirmed_at : option string
}.

(** The calls made on the admin API. *)
Inductive Call : Type :=
| ListUsers
| GenerateLink (email : json)
| InviteUserByEmail (email : json) (redirectTo : option string).

Record Env : Type := {
  listUsers : ApiResult (list AuthUser);
  (* [data.properties?.action_link] of the link generated for an address *)
  generateLink : json -> ApiResult (option string);
  inviteUserByEmail : json -> option string -> ApiResult unit;
  syntaxErrorMessage : string;   (* message of the engine's SyntaxError *)
  typeErrorMessage : string      (* message of the engine's TypeError *)
}.

Record Request : Type := {
  method : string;
  json_body : option json      (* None: req.json() rejects *)
}.

Record Response : Type := {
  status : Z;
  ok : bool;
  error : option string;
  message : option string
}.

Definition failure (st : Z) (msg : string) : Response :=
  {| status := st; ok := false; error := Some msg; message := None |}.

(** [u.email === email] *)
Definition same_email (u : AuthUser) (address : json) : bool :=
  match email u, address with
  | Some a, JStr b => String.eqb a b
  | _, _ => false
  end.

(** The body of the handler's [try]: what it returns or throws, and the
    calls it made, in order. *)
Definition serve (env : Env) (req : Request) : (Exn + Response) * list Call :=
  if negb (String.eqb (method req) "POST")
  then (inr (failure 405 "This method is not allowed"), [])
  else
    match json_body req with
    | None => (inl (Error (syntaxErrorMessage env)), [])
    | Some JNull => (inl (Error (typeErrorMessage env)), [])
    | Some body =>
        match get body (Name "email") with
        | None => (inr (failure 400 "Email is required"), [])
        | Some email =>
            if negb (truthy email)
            then (inr (failure 400 "Email is required"), [])
            else if negb (test email)
            then (inr (failure 400 "Invalid email format"), [])
            else
              match listUsers env with
              | Rejected msg => (inl (Error msg), [ListUsers])
              | Failed _ =>
                  (inr (failure 500 "Failed to check user status"), [ListUsers])
              | Data users =>
                  match List.find (fun u => same_email u email) users with
                  | None => (inr (failure 404 "User not found"), [ListUsers])
                  | Some user =>
                      if truthy_str (email_confirmed_at user)
                      then (inr (failure 400 "Email is already confirmed"),
                            [ListUsers])
                      else
                        match generateLink env email with
                        | Rejected msg =>
                            (inl (Error msg), [ListUsers; GenerateLink email])
                        | Failed msg =>
                            (inr (failure 500 msg), [ListUsers; GenerateLink email])
                        | Data action_link =>
                            let calls :=
                              [ListUsers; GenerateLink email;
                               InviteUserByEmail email action_link] in
                            match inviteUserByEmail env email action_link with
                            | Rejected msg => (inl (Error msg), calls)
                            | Failed msg => (inr (failure 500 msg), calls)
                            | Data _ =>
                                (inr {| status := 200; ok := true; error := None;
                                        message :=
                                          Some "Confirmation email sent successfully" |},
                                 calls)
                            end
                        end
                  end
              end
        end
    end.

(** [e.message || String(e)] *)
Definition errorMessage (e : Exn) : string :=
  if String.eqb (Runtime.message e) EmptyString then "Error" else Runtime.message e.

Definition handler (env : Env) (req : Request) : Response * list Call :=
  match serve env req with
  | (inr response, calls) => (response, calls)
  | (inl e, calls) => (failure 500 (errorMessage e), calls)
  end.

End Resend.

(** ** The function that syncs a subscription with RevenueCat

    The RPC [sync_user_subscription] it ends with is not part of the
    sources: what it answers is the environment's. *)

Module Sync.
Import Js Json Runtime.

(** *** JavaScript values of this handler *)

(** [a || b] *)
Definition or_else (a : jsval) (b : jsval) : jsval :=
  match a with
  | Some v => if truthy v then a else b
  | None => b
  end.

Definition truthy_js (v : jsval) : bool :=
  match v with
  | Some j => truthy j
  | None => false
  end.

(** [Object.values(v)] for a value that is not [null]: the values of an
    object, the elements of an array, the characters of a string,
    nothing of a number or a boolean. *)
Definition object_values (v : json) : list json :=
  match v with
  | JObj props => values props
  | JArr items => items
  | JStr s => map (fun c => JStr (text [c])) (chars s)
  | _ => []
  end.

(** [String.prototype.toLowerCase] on the letters A to Z; no other
    character becomes one of the letters the handler looks for. *)
Definition toLowerCase (s : string) : string :=
  text (map (fun c => if (65 <=? code c) && (code c <=? 90)
                      then char_of (code c + 32) else c) (chars s)).

(** [v?.toLowerCase().includes('pro')]: [None] is the [TypeError] of a
    value without the method; a missing or null [v] gives [undefined],
    which is falsy. *)
Definition names_pro (v : jsval) : option bool :=
  match v with
  | None | Some JNull => Some false
  | Some (JStr s) => Some (includes (toLowerCase s) "pro")
  | Some _ => None
  end.

(** The predicate of [find]:
    [ent.identifier?.toLowerCase().includes('pro') ||
     ent.product_identifier?.toLowerCase().includes('pro')];
    [None] is a [TypeError]. *)
Definition is_pro_entitlement (ent : json) : option bool :=
  match ent with
  | JNull => None
  | _ =>
      match names_pro (get ent (Name "identifier")) with
      | None => None
      | Some true => Some true
      | Some false => names_pro (get ent (Name "product_identifier"))
      end
  end.

(** [Array.prototype.find]: the first element the predicate holds of;
    [None] when the predicate throws first. *)
Fixpoint find (l : list json) : option jsval :=
  match l with
  | [] => Some None
  | ent :: r =>
      match is_pro_entitlement ent with
      | None => None
      | Some true => Some (Some ent)
      | Some false => find r
      end
  end.

(** The pro entitlement of the subscriber data; [None] is a
    [TypeError]. *)
Definition proEntitlement (revenueCatData : json) : option jsval :=
  match revenueCatData with
  | JNull => None
  | _ =>
      let subscriber := get revenueCatData (Name "subscriber") in
      let entitlements := opt_get subscriber (Name "entitlements") in
      let named :=
        or_else (opt_get entitlements (Name "pro"))
          (or_else (opt_get entitlements (Name "Pro"))
             (opt_get entitlements (Name "PRO"))) in
      if truthy_js named then Some named
      else
        match or_else (opt_get entitlements (Name "active")) (Some (JObj [])) with
        | Some active => find (object_values active)
        | None => Some None
        end
  end.

(** [v.will_renew === true || v.will_renew === 'true'] *)
Definition willRenew (v : json) : bool :=
  match get v (Name "will_renew") with
  | Some (JBool true) => true
  | Some (JStr s) => String.eqb s "true"
  | _ => false
  end.

(** *** Environment, requests and responses *)

Inductive Call : Type :=
| FetchSubscriber (url : string)
| SyncUserSubscription
    (revenue_cat_customer_id : json) (revenue_cat_subscription_id : json)
    (is_pro_active : bool).

Record Env : Type := {
  getUser : string -> option string;
  REVENUECAT_SECRET_KEY : option string;
  revenueCat : string -> HttpResult;          (* the answer to a fetch of a URL *)
  sync_user_subscription : json -> json -> bool -> Api.ApiResult json;
  (* the time value of [new Date(v)]; [None] is an invalid date *)
  date_value : json -> option Z;
  now : Z;                                    (* new Date() *)
  syntaxErrorMessage : string;
  typeErrorMessage : string
}.

Record Request : Type := {
  method : string;
  authorization : option string;
  json_body : option json
}.

Record Response : Type := {
  status : Z;
  ok : bool;
  error : option string;
  data : option json
}.

Definition failure (st : Z) (msg : string) : Response :=
  {| status := st; ok := false; error := Some msg; data := None |}.

(** [expirationDate ? new Date(expirationDate) > now : false] *)
Definition isNotExpired (env : Env) (expirationDate : jsval) : bool :=
  match expirationDate with
  | Some v =>
      truthy v &&
      match date_value env v with
      | Some t => now env <? t
      | None => false
      end
  | None => false
  end.

(** What the client says of itself: used when RevenueCat is not asked
    or does not answer. *)
Definition from_entitlement_data (env : Env) (entitlement_data : jsval) : bool :=
  match entitlement_data with
  | Some v =>
      truthy v &&
      (willRenew v || isNotExpired env (get v (Name "expiration_date")))
  | None => false
  end.

(** The [try] around the RevenueCat request: [None] is what lands in its
    [catch]. *)
Definition verified (env : Env) (res : HttpResult) (entitlement_data : jsval)
  : option bool :=
  match res with
  | FetchFailed _ => None
  | Responded st body =>
      if ok_status st then
        match JSON_parse body with
        | None => None
        | Some revenueCatData =>
            match proEntitlement revenueCatData with
            | None => None
            | Some found =>
                match found with
                | Some ent =>
                    if truthy ent
                    then Some (willRenew ent
                               || isNotExpired env (get ent (Name "expires_date")))
                    else Some false
                | None => Some false
                end
            end
        end
      else Some (from_entitlement_data env entitlement_data)
  end.

Definition subscriber_url (revenue_cat_customer_id : json) : string :=
  "https://api.revenuecat.com/v1/subscribers/" +:+ ToString revenue_cat_customer_id.

(** [isProActive] and the request made for it. *)
Definition isProActive (env : Env) (revenue_cat_customer_id : json)
    (entitlement_data : jsval) : bool * list Call :=
  if truthy_str (REVENUECAT_SECRET_KEY env) then
    let url := subscriber_url revenue_cat_customer_id in
    (match verified env (revenueCat env url) entitlement_data with
     | Some b => b
     | None => from_entitlement_data env entitlement_data
     end, [FetchSubscriber url])
  else (from_entitlement_data env entitlement_data, []).

(** [{ ...target, ...source }] for a [source] that is not an object
    literal: its own enumerable properties, in order. *)
Definition own_properties (source : json) : list (string * json) :=
  match source with
  | JObj props => props
  | JArr items =>
      (fix indexed (l : list json) (i : Z) : list (string * json) :=
         match l with
         | [] => []
         | x :: r => (pretty i, x) :: indexed r (i + 1)
         end) items 0
  | JStr s =>
      (fix indexed (l : list ascii) (i : Z) : list (string * json) :=
         match l with
         | [] => []
         | c :: r => (pretty i, JStr (text [c])) :: indexed r (i + 1)
         end) (chars s) 0
  | _ => []
  end.

Definition spread (target : list (string * json)) (source : json)
  : list (string * json) :=
  fold_left (fun acc kv => obj_set acc (fst kv) (snd kv)) (own_properties source) target.

(** The body of the handler's [try]. *)
Definition serve (env : Env) (req : Request) : (Exn + Response) * list Call :=
  if negb (String.eqb (method req) "POST")
  then (inr (failure 405 "Method not allowed"), [])
  else
    match authorization req with
    | None => (inr (failure 401 "Unauthorized: Missing or invalid token"), [])
    | Some authHeader =>
        if negb (startsWith authHeader "Bearer ")
        then (inr (failure 401 "Unauthorized: Missing or invalid token"), [])
        else
          match getUser env (replace authHeader "Bearer " EmptyString) with
          | None => (inr (failure 401 "Unauthorized: Invalid token"), [])
          | Some _ =>
              match json_body req with
              | None => (inl (Error (syntaxErrorMessage env)), [])
              | Some JNull => (inl (Error (typeErrorMessage env)), [])
              | Some body =>
                  let revenue_cat_customer_id :=
                    get body (Name "revenue_cat_customer_id") in
                  let revenue_cat_subscription_id :=
                    get body (Name "revenue_cat_subscription_id") in
                  let entitlement_data := get body (Name "entitlement_data") in
                  match revenue_cat_customer_id with
                  | None =>
                      (inr (failure 400 "revenue_cat_customer_id is required"), [])
                  | Some customer =>
                      if negb (truthy customer)
                      then (inr (failure 400 "revenue_cat_customer_id is required"),
                            [])
                      else
                        let '(pro, fetched) :=
                          isProActive env customer entitlement_data in
                        let subscription :=
                          match or_else revenue_cat_subscription_id (Some JNull) with
                          | Some v => v
                          | None => JNull
                          end in
                        let calls :=
                          fetched ++ [SyncUserSubscription customer subscription pro] in
                        match sync_user_subscription env customer subscription pro with
                        | Api.Rejected msg => (inl (Error msg), calls)
                        | Api.Failed msg =>
                            (inr (failure 500 ("Failed to sync subscription: " +:+ msg)),
                             calls)
                        | Api.Data rpcData =>
                            (inr {| status := 200; ok := true; error := None;
                                    data :=
                                      Some (JObj
                                        (spread
                                           [("plan_type",
                                             JStr (if pro then "pro" else "free"));
                                            ("status",
                                             JStr (if pro then "active" else "cancelled"))]
                                           rpcData)) |},
                             calls)
                        end
                  end
              end
          end
    end.

(** [e.message || "An unexpected error occurred. Please try again later."] *)
Definition errorMessage (e : Exn) : string :=
  if String.eqb (Runtime.message e) EmptyString
  then "An unexpected error occurred. Please try again later."
  else Runtime.message e.

Definition handler (env : Env) (req : Request) : Response * list Call :=
  match serve env req with
  | (inr response, calls) => (response, calls)
  | (inl e, calls) => (failure 500 (errorMessage e), calls)
  end.

End Sync.

(** ** More notions used to state the properties *)

Module Answers.
Import Js Json Runtime.

(** An answer that is neither a failure status nor a usable payload: the
    fetch itself failed, or the status is a success and the body is not
    JSON or is the JSON [null]. *)
Definition garbled (res : HttpResult) : bool :=
  match res with
  | FetchFailed _ => true
  | Responded st body =>
      ok_status st &&
      match JSON_parse body with
      | None | Some JNull => true
      | Some _ => false
      end
  end.

(** The message of the error a client throws for a garbled answer. *)
Definition garbled_message (env : Env) (res : HttpResult) : string :=
  match res with
  | FetchFailed msg => msg
  | Responded _ body =>
      match JSON_parse body with
      | None => syntaxErrorMessage env
      | Some _ => typeErrorMessage env
      end
  end.

(** The request of the Gemini text client. *)
Definition gemini_request (textContent prompt : string) : FetchReq :=
  {| url := Gemini.GEMINI_URL;
     content := prompt +:+ nl +:+ nl +:+ "STUDY MATERIAL:" +:+ nl +:+ textContent;
     inlineData := None |}.

End Answers.

Module Paths.
Import Js Json Runtime.

(** The request the Groq handler of [index.ts] sends for a request body. *)
Definition groq_request_of (req : Http.Request) : option FetchReq :=
  match Http.json_body req with
  | Some body =>
      Some (Groq.request_for (Groq.material_of body)
              (Groq.prompt (default 20 (Http.mcq_count body))))
  | None => None
  end.

(** The request the Groq handler with quota sends. *)
Definition quota_request_of (req : Http.Request) : option FetchReq :=
  match Http.json_body req with
  | Some body =>
      Some (Groq.request_for (Groq.material_of body) GroqQuota.staticPrompt)
  | None => None
  end.

(** The tables and the module state of two worlds are the same. *)
Definition same_state (w w' : World) : Prop :=
  user_usage_stats w' = user_usage_stats w /\
  user_subscriptions w' = user_subscriptions w /\
  mcqCache w' = mcqCache w /\
  globalUsageCount w' = globalUsageCount w /\
  globalUsageResetTime w' = globalUsageResetTime w.

End Paths.

Module Material.
Import Js Json Runtime.

(** A string of white space only. *)
Definition blank (s : string) : bool := forallb is_space (chars s).

(** A body without study material: the text is missing or blank, and so
    is every chunk. *)
Definition blank_body (body : Http.Body) : bool :=
  match Http.text_content body with
  | Some s => blank s
  | None => true
  end
  && match Http.text_chunks body with
     | Some l => forallb blank l
     | None => true
     end.

(** Text of ASCII characters only: its bytes are its UTF-16 code units,
    and its white space is the white space of JavaScript. *)
Definition ascii_text (s : string) : bool :=
  forallb (fun c => code c <? 128) (chars s).

(** A body whose text and chunks are ASCII. *)
Definition ascii_body (body : Http.Body) : bool :=
  match Http.text_content body with
  | Some s => ascii_text s
  | None => true
  end
  && match Http.text_chunks body with
     | Some l => forallb ascii_text l
     | None => true
     end.

(** A digit of base 36: [0-9a-z]. *)
Definition is_base36 (c : ascii) : bool :=
  let n := code c in
  ((48 <=? n) && (n <=? 57)) || ((97 <=? n) && (n <=? 122)).

End Material.

Module SimpleAnswers.
Import Js Json Runtime.

(** What a pass of the first Groq handler's loop returns for an answer,
    when it returns. *)
Definition simple_answer (res : HttpResult) : option json :=
  match res with
  | Responded st body =>
      if ok_status st then
        match JSON_parse body with
        | None | Some JNull => None
        | Some data => Some (Groq.completion_content data)
        end
      else None
  | FetchFailed _ => None
  end.

(** What the [try] block of a pass throws otherwise. *)
Definition simple_failure (env : Env) (res : HttpResult) : Exn :=
  match res with
  | FetchFailed msg => Error msg
  | Responded st body =>
      if ok_status st then
        match JSON_parse body with
        | None => Error (syntaxErrorMessage env)
        | _ => Error (typeErrorMessage env)
        end
      else Error ("Groq API failed: " +:+ body)
  end.

(** The request the first Groq handler sends for a request body. *)
Definition simple_request_of (req : Http.Request) : option FetchReq :=
  match Http.json_body req with
  | Some body =>
      match Http.text_content body with
      | Some textContent =>
          Some (GroqSimple.request_for textContent
                  (GroqSimple.prompt (GroqSimple.count_of (Http.mcq_count body))))
      | None => None
      end
  | None => None
  end.

End SimpleAnswers.

(** ** More concrete cases *)

Module Samples.
Import Js Json Runtime Stages Fixtures Cases.

(** The environment [down] with database calls that fail as [f] says. *)
Definition failing (f : DbCall -> Fault) : Env :=
  {| getUser := getUser down;
     provider := provider down;
     db_fault := f;
     isDevelopment := false;
     GROQ_API_KEY := GROQ_API_KEY down;
     syntaxErrorMessage := syntaxErrorMessage down;
     typeErrorMessage := typeErrorMessage down |}.

(** The usage RPC rejects. *)
Definition unreadable : Env :=
  failing (fun c => match c with
                    | RpcGetUsageStats => Rejects "connection refused"
                    | _ => Works
                    end).

(** The RPCs resolve with an error: the fallback queries are used. *)
Definition without_rpc : Env :=
  failing (fun c => match c with
                    | RpcGetUsageStats | RpcIncrementUploadCount => ReturnsError
                    | _ => Works
                    end).

(** The provider answers 200 with a page that is not JSON. *)
Definition garbling : Env := answering "<html>oops</html>".

(** The provider answers with one good question. *)
Definition generating : Env := answering (gemini_envelope good_mcqs).

(** The world after the provider call of [generating] on [fresh_world]. *)
Definition generated_world : World :=
  (Gemini.provider_call generating (text_body notes) fresh_world).2.

(** A database without users, and with [user-2] signed up at [t0]. *)
Definition no_users : Schema.Database :=
  {| Schema.user_usage_stats := ∅; Schema.user_subscriptions := ∅ |}.

Definition signed_up : Schema.Database :=
  Schema.create_user_subscription_and_stats t0 "user-2" no_users.

(** The world a minute later, as the edge functions see this database. *)
Definition world_of (db : Schema.Database) : World :=
  {| clock := t0 + 60000;
     globalUsageCount := 0;
     globalUsageResetTime := t0 + Gemini.GLOBAL_WINDOW;
     mcqCache := ∅;
     user_usage_stats := Schema.usage_view <$> Schema.user_usage_stats db;
     user_subscriptions := Schema.subscription_view <$> Schema.user_subscriptions db;
     fetches := [];
     timers := [] |}.

(** The same user after five uploads on the day of [t0]. *)
Definition used_up : Schema.Database :=
  {| Schema.user_usage_stats :=
       Schema.run "user-2"
         [(t0 + 1, Schema.Upload); (t0 + 2, Schema.Upload); (t0 + 3, Schema.Upload);
          (t0 + 4, Schema.Upload); (t0 + 5, Schema.Upload)]
         (Schema.user_usage_stats signed_up);
     Schema.user_subscriptions := Schema.user_subscriptions signed_up |}.

(** Two days of calls: two uploads before midnight, three calls after
    it, two of them uploads. *)
Definition two_days : list (Z * Schema.Op) :=
  [(t0 + 1, Schema.Upload); (t0 + 2, Schema.Read); (t0 + 3, Schema.Upload);
   (midnight + 5, Schema.Upload); (midnight + 6, Schema.Login);
   (midnight + 7, Schema.Upload)].

(** A request body with a small file and no text. *)
Definition file_body : Http.Body :=
  {| Http.file_data := Some "JVBERi0xLjQK"; Http.mime_type := Some "application/pdf";
     Http.text_content := None; Http.content_type := None;
     Http.llm_provider := None; Http.mcq_count := None;
     Http.text_chunks := None |}.

(** *** The subscription sync *)

Definition sync_env (key : option string) (answer : HttpResult)
    (rpc : Api.ApiResult json) : Sync.Env :=
  {| Sync.getUser := fun t => if String.eqb t "token-1" then Some "user-1" else None;
     Sync.REVENUECAT_SECRET_KEY := key;
     Sync.revenueCat := fun _ => answer;
     Sync.sync_user_subscription := fun _ _ _ => rpc;
     Sync.date_value := fun _ => None;
     Sync.now := t0;
     Sync.syntaxErrorMessage := "Unexpected token in JSON";
     Sync.typeErrorMessage := "Cannot read properties of null" |}.

Definition sync_request (body : json) : Sync.Request :=
  {| Sync.method := "POST";
     Sync.authorization := Some "Bearer token-1";
     Sync.json_body := Some body |}.

(** The client says its subscription renews. *)
Definition renewing : json := JObj [("will_renew", JBool true)].

Definition renewing_claim : json :=
  JObj [("revenue_cat_customer_id", JStr "cust-1"); ("entitlement_data", renewing)].

(** What the RPC answers for a user it keeps on the free plan. *)
Definition kept_free : list (string * json) :=
  [("plan_type", JStr "free"); ("status", JStr "expired")].

End Samples.

Import Js Json Runtime Stages Fixtures Cases.

(** * Properties *)

(** ** The embedding on concrete inputs *)

Example JSON_parse_array : JSON_parse good_mcqs = Some (JArr [good_mcq]).
Proof. vm_compute. reflexivity. Qed.

Example JSON_parse_wrapper :
  JSON_parse (dq "{'mcqs': []}") = Some (JObj [("mcqs", JArr [])]).
Proof. vm_compute. reflexivity. Qed.

(** Integer-like keys come first and a repeated key keeps its place. *)
Example JSON_parse_key_order :
  JSON_parse (dq "{'a': 1, 'b': [true, null], '2': 0, 'a': 2}")
  = Some (JObj [("2", JNum 0 0); ("a", JNum 2 0);
                ("b", JArr [JBool true; JNull])]).
Proof. vm_compute. reflexivity. Qed.

Example JSON_parse_garbage : JSON_parse "<html>oops</html>" = None.
Proof. vm_compute. reflexivity. Qed.

Example array_pattern_finds_array :
  Regex.re_match "x [ {1} ] y" Regex.array_pattern
  = Some {| Regex.whole := "[ {1} ]"; Regex.group1 := None |}.
Proof. vm_compute. reflexivity. Qed.

Example generateFileHash_abc : Gemini.generateFileHash "abc" = "22ci".
Proof. vm_compute. reflexivity. Qed.

Example next_midnight_t0 : Sql.next_midnight t0 = midnight.
Proof. vm_compute. reflexivity. Qed.

(** The Gemini normalizer takes a bare array and a fenced one, and has no
    strategy for a wrapper object. *)
Example gemini_normalize_array :
  Gemini.normalize (Some (JStr good_mcqs)) = inr [good_mcq].
Proof. vm_compute. reflexivity. Qed.

Example gemini_normalize_fenced :
  Gemini.normalize (Some (JStr fenced_mcqs)) = inr [good_mcq].
Proof. vm_compute. reflexivity. Qed.

Example gemini_normalize_wrapper :
  exists e, Gemini.normalize (Some (JStr wrapped_mcqs)) = inl e.
Proof. eexists. vm_compute. reflexivity. Qed.

(** The Groq normalizer takes a bare array and a wrapper object; a fenced
    array is found by the fallback pattern. *)
Example groq_normalize_array :
  Groq.normalize (env_with (always 200 "x")) (JStr good_mcqs) = inr [good_mcq].
Proof. vm_compute. reflexivity. Qed.

Example groq_normalize_wrapper :
  Groq.normalize (env_with (always 200 "x")) (JStr wrapped_mcqs)
  = inr [good_mcq].
Proof. vm_compute. reflexivity. Qed.

Example groq_normalize_fenced :
  Groq.normalize (env_with (always 200 "x")) (JStr fenced_mcqs)
  = inr [good_mcq].
Proof. vm_compute. reflexivity. Qed.

Example groq_normalize_garbage :
  exists e,
    Groq.normalize (env_with (always 200 "x")) (JStr "<html>oops</html>")
    = inl e.
Proof. eexists. vm_compute. reflexivity. Qed.

(** ** The monad *)

Ltac monad_unfold :=
  unfold Date_now, sleep, bind, ret, throw, try_catch, gets, modify, lift in *;
  cbv beta iota zeta in *.

(** Case analysis on the scrutinee of the first [match] of the goal. *)
Ltac break_match :=
  match goal with
  | |- context [match ?x with _ => _ end] =>
      lazymatch x with
      | context [match _ with _ => _ end] => fail
      | _ => destruct x eqn:?
      end
  end.

Lemma set_usage_same (w : World) : set_usage w (user_usage_stats w) = w.
Proof. by destruct w. Qed.

Lemma set_cache_same (w : World) : set_cache w (mcqCache w) = w.
Proof. by destruct w. Qed.

Lemma set_global_same (w : World) :
  set_global w (globalUsageCount w) (globalUsageResetTime w) = w.
Proof. by destruct w. Qed.

Lemma db_call_works {A} env c (run : World -> A * World) w :
  db_fault env c = Works ->
  db_call env c run w = (Ret (Some (fst (run w))), snd (run w)).
Proof. intros H. unfold db_call. rewrite H. by destruct (run w). Qed.

Lemma db_call_cases {A} env c (run : World -> A * World) w :
  (db_fault env c = Works /\
   db_call env c run w = (Ret (Some (fst (run w))), snd (run w))) \/
  (db_call env c run w = (Ret None, w)) \/
  (exists e, db_call env c run w = (Throw e, w)).
Proof.
  unfold db_call. destruct (db_fault env c) eqn:E.
  - left. split; [done|]. by destruct (run w).
  - right; left. done.
  - right; right. eauto.
Qed.

(** ** Subscription and quota *)

Lemma getUserSubscription_total env userId w :
  exists s, Quota.getUserSubscription env userId w = (Ret s, w).
Proof.
  unfold Quota.getUserSubscription. monad_unfold.
  destruct (db_call_cases env SelectSubscription
              (Quota.select_active_subscription userId) w) as [[_ E]|[E|[e E]]];
    rewrite E; simpl; eauto.
  unfold Quota.select_active_subscription.
  repeat (break_match; simpl; eauto).
Qed.

Lemma usage_of_total up reset w :
  exists usage, Quota.usage_of up reset w = (Ret usage, w) /\
                Quota.uploads_today usage = Quota.or_zero up.
Proof. unfold Quota.usage_of. monad_unfold. eauto. Qed.

Lemma default_usage_total w :
  exists usage, Quota.default_usage w = (Ret usage, w) /\
                Quota.uploads_today usage = 0.
Proof. unfold Quota.default_usage. monad_unfold. eauto. Qed.

(** What the lazy reset of [get_user_usage_stats] does to the table. *)
Lemma get_user_usage_stats_rows now userId (t : gmap string Sql.UsageRow) v :
  Stages.untouched_or_reset now (t !! v)
    ((Sql.get_user_usage_stats now userId t).2 !! v).
Proof.
  unfold Sql.get_user_usage_stats, Stages.untouched_or_reset; cbn [snd].
  destruct (Sql.reset_due now (t !! userId)) eqn:Edue; [|by left].
  unfold Sql.update_row. destruct (t !! userId) as [row|] eqn:Erow; [|by left].
  destruct (decide (userId = v)) as [->|Hne].
  - right. rewrite lookup_insert_eq, Erow. done.
  - left. by rewrite lookup_insert_ne.
Qed.

(** After the read the user's counter is not due for a reset. *)
Lemma get_user_usage_stats_fresh now userId (t : gmap string Sql.UsageRow) row :
  (Sql.get_user_usage_stats now userId t).2 !! userId = Some row ->
  Sql.reset_due now (Some row) = false.
Proof.
  unfold Sql.get_user_usage_stats; cbn [snd].
  destruct (Sql.reset_due now (t !! userId)) eqn:Edue.
  - unfold Sql.update_row. destruct (t !! userId) as [row0|] eqn:Erow.
    + rewrite lookup_insert_eq. intros [= <-]. unfold Sql.reset_due.
      apply Z.leb_gt. unfold Sql.next_midnight, Sql.DAY_MS.
      pose proof (Z.mod_pos_bound now (24 * 60 * 60 * 1000) ltac:(lia)).
      pose proof (Z.div_mod now (24 * 60 * 60 * 1000) ltac:(lia)). lia.
    + rewrite Erow. discriminate.
  - intros E. by rewrite E in Edue.
Qed.

(** A lazy reset does not change what a snapshot read reports, then or
    later. *)
Lemma untouched_or_reset_view t before after now :
  untouched_or_reset t before after ->
  t <= now ->
  snapshot_view now after = snapshot_view now before.
Proof.
  intros [->|[Hdue ->]] Hnow; [done|]. unfold snapshot_view.
  assert (Sql.reset_due now before = true) as ->.
  { unfold Sql.reset_due in *. destruct before as [[up [r|]]|]; try done.
    apply Z.leb_le in Hdue. apply Z.leb_le. lia. }
  by destruct (Sql.reset_due now _).
Qed.

(** What [get_user_usage_stats] returns for the user is the view of the
    stored row. *)
Lemma get_user_usage_stats_view now userId (t : gmap string Sql.UsageRow) :
  snapshot_uploads ((Sql.get_user_usage_stats now userId t).2 !! userId)
  = snapshot_view now (t !! userId).
Proof.
  unfold snapshot_view, Sql.get_user_usage_stats; cbn [snd].
  destruct (Sql.reset_due now (t !! userId)) eqn:Edue; [|done].
  unfold Sql.update_row. destruct (t !! userId) as [row|] eqn:Erow.
  - by rewrite lookup_insert_eq.
  - by rewrite Erow.
Qed.

(** The snapshot read always returns.  It leaves the table alone, or the
    RPC worked: then the table is the one [get_user_usage_stats] left
    and the snapshot holds the user's counter in it. *)
Lemma getUserUsageStatsFromDB_total env userId w :
  exists usage t,
    Quota.getUserUsageStatsFromDB env userId w = (Ret usage, set_usage w t) /\
    (t = user_usage_stats w \/
     (t = (Sql.get_user_usage_stats (clock w) userId (user_usage_stats w)).2 /\
      Quota.uploads_today usage = snapshot_uploads (t !! userId))).
Proof.
  unfold Quota.getUserUsageStatsFromDB.
  unfold try_catch, bind at 1.
  destruct (db_call_cases env RpcGetUsageStats
              (Quota.rpc_get_user_usage_stats userId) w) as [[_ E]|[E|[e E]]];
    rewrite E; clear E; cbn beta iota.
  - unfold Quota.rpc_get_user_usage_stats.
    pose proof (eq_refl (Sql.get_user_usage_stats (clock w) userId (user_usage_stats w))) as Esql.
    unfold Sql.get_user_usage_stats at 2 in Esql.
    destruct (Sql.get_user_usage_stats (clock w) userId (user_usage_stats w))
      as [rows t]. cbn [fst snd].
    injection Esql as Erows Et.
    destruct rows as [|[up reset] rows].
    + eexists _, t. split; [reflexivity|]. right. split; [done|].
      rewrite <- Et in Erows. by destruct (t !! userId).
    + eexists _, t. split; [reflexivity|]. right. split; [done|].
      rewrite <- Et in Erows. destruct (t !! userId); [|done].
      by injection Erows as -> _.
  - unfold bind.
    destruct (db_call_cases env SelectUsageStats (Quota.select_usage userId) w)
      as [[_ E]|[E|[e E]]]; rewrite E; clear E; cbn beta iota.
    + unfold Quota.select_usage; cbn [fst snd].
      destruct (user_usage_stats w !! userId) as [row|].
      * destruct (usage_of_total (Sql.uploads_today row) (Sql.daily_reset_at row) w)
          as (usage & -> & _).
        exists usage, (user_usage_stats w). rewrite set_usage_same. auto.
      * destruct (default_usage_total w) as (usage & -> & _).
        exists usage, (user_usage_stats w). rewrite set_usage_same. auto.
    + destruct (default_usage_total w) as (usage & -> & _).
      exists usage, (user_usage_stats w). rewrite set_usage_same. auto.
    + destruct (default_usage_total w) as (usage & -> & _).
      exists usage, (user_usage_stats w). rewrite set_usage_same. auto.
  - destruct (default_usage_total w) as (usage & -> & _).
    exists usage, (user_usage_stats w). rewrite set_usage_same. auto.
Qed.

Lemma getUserUsageStatsFromDB_works env userId w :
  db_fault env RpcGetUsageStats = Works ->
  exists usage,
    Quota.getUserUsageStatsFromDB env userId w
    = (Ret usage,
       set_usage w (Sql.get_user_usage_stats (clock w) userId (user_usage_stats w)).2) /\
    Quota.uploads_today usage
    = snapshot_uploads
        ((Sql.get_user_usage_stats (clock w) userId (user_usage_stats w)).2 !! userId).
Proof.
  intros Hworks. unfold Quota.getUserUsageStatsFromDB.
  unfold try_catch, bind at 1. rewrite db_call_works by done.
  unfold Quota.rpc_get_user_usage_stats.
  pose proof (eq_refl (Sql.get_user_usage_stats (clock w) userId (user_usage_stats w)))
    as Esql.
  unfold Sql.get_user_usage_stats at 2 in Esql.
  destruct (Sql.get_user_usage_stats (clock w) userId (user_usage_stats w))
    as [rows t]. cbn [fst snd].
  injection Esql as Erows Et. rewrite <- Et in Erows.
  destruct rows as [|[up reset] rows].
  - eexists. split; [reflexivity|]. by destruct (t !! userId).
  - eexists. split; [reflexivity|]. destruct (t !! userId); [|done].
    by injection Erows as -> _.
Qed.

Lemma incrementUserUsage_works env userId w :
  db_fault env RpcIncrementUploadCount = Works ->
  Quota.incrementUserUsage env userId w
  = (Ret tt, set_usage w (Sql.increment_upload_count (clock w) userId
                            (user_usage_stats w))).
Proof.
  intros Hworks. unfold Quota.incrementUserUsage.
  unfold try_catch, bind at 1. by rewrite db_call_works by done.
Qed.

Lemma checkUserLimits_total env userId sub w :
  exists usage t,
    Quota.getUserUsageStatsFromDB env userId w = (Ret usage, set_usage w t) /\
    Quota.checkUserLimits env userId sub w
    = (Ret (Quota.limits_of sub usage), set_usage w t).
Proof.
  destruct (getUserUsageStatsFromDB_total env userId w) as (usage & t & E & _).
  exists usage, t. split; [done|].
  unfold Quota.checkUserLimits, bind, ret. by rewrite E.
Qed.

Lemma limits_of_allowed sub usage :
  Quota.allowed (Quota.limits_of sub usage) = false
  <-> Quota.daily_limit sub <= Quota.uploads_today usage.
Proof.
  unfold Quota.limits_of.
  destruct (Quota.daily_limit sub <=? Quota.uploads_today usage) eqn:E; cbn.
  - apply Z.leb_le in E. tauto.
  - apply Z.leb_gt in E. split; [discriminate | lia].
Qed.

(** A rejection writes nothing: a reset would have left a zero counter,
    which is below every limit. *)
Lemma checkUserLimits_rejected env userId sub w limits w' :
  Quota.checkUserLimits env userId sub w = (Ret limits, w') ->
  Quota.allowed limits = false ->
  w' = w.
Proof.
  destruct (getUserUsageStatsFromDB_total env userId w) as (usage & t & E & Ht).
  unfold Quota.checkUserLimits, bind, ret. rewrite E. intros [= <- <-] Hrej.
  apply limits_of_allowed in Hrej.
  destruct Ht as [->|[Ht Hup]]; [apply set_usage_same|].
  assert (t = user_usage_stats w) as ->; [|apply set_usage_same].
  pose proof (get_user_usage_stats_rows (clock w) userId (user_usage_stats w) userId)
    as [Hsame|[_ Hreset]]; rewrite <- Ht in *.
  - subst t. unfold Sql.get_user_usage_stats in *; cbn [snd] in *.
    destruct (Sql.reset_due (clock w) (user_usage_stats w !! userId)); [|done].
    unfold Sql.update_row in *.
    destruct (user_usage_stats w !! userId) as [row|] eqn:Erow; [|done].
    rewrite lookup_insert_eq in Hsame. injection Hsame as <-.
    by apply insert_id.
  - rewrite Hreset in Hup. cbn in Hup. rewrite Hup in Hrej.
    destruct sub; cbn in Hrej; lia.
Qed.

(** The snapshot read of a user who has a row, when the RPC works. *)
Lemma getUserUsageStatsFromDB_row env userId w up reset :
  db_fault env RpcGetUsageStats = Works ->
  user_usage_stats w !! userId
  = Some {| Sql.uploads_today := up; Sql.daily_reset_at := Some reset |} ->
  Quota.getUserUsageStatsFromDB env userId w =
  if reset <=? clock w
  then (Ret {| Quota.uploads_today := 0;
               Quota.daily_reset_at := Sql.next_midnight (clock w) |},
        set_usage w
          (<[userId := {| Sql.uploads_today := Some 0;
                          Sql.daily_reset_at := Some (Sql.next_midnight (clock w)) |}]>
             (user_usage_stats w)))
  else (Ret {| Quota.uploads_today := Sql.coalesce up 0;
               Quota.daily_reset_at := reset |}, w).
Proof.
  intros Hworks Hrow. unfold Quota.getUserUsageStatsFromDB.
  unfold try_catch, bind at 1. rewrite db_call_works by done.
  unfold Quota.rpc_get_user_usage_stats, Sql.get_user_usage_stats.
  rewrite Hrow. cbn [Sql.reset_due Sql.daily_reset_at].
  destruct (reset <=? clock w); cbn [fst snd].
  - unfold Sql.update_row. rewrite Hrow, lookup_insert_eq. cbn.
    unfold Quota.usage_of. monad_unfold. reflexivity.
  - rewrite Hrow. cbn. unfold Quota.usage_of. monad_unfold.
    rewrite set_usage_same. by destruct up.
Qed.

(** C1, as the code has it.  For every user and both tiers (FREE = 5,
    PRO = 50), when the snapshot read [get_user_usage_stats] works,
    [checkUserLimits] rejects exactly when the stored [uploads_today],
    read as 0 once its daily reset is due, is at least the tier's daily
    limit.  One below the limit it admits with
    [remaining = limit - uploads_today]; at the limit it rejects with
    [remaining = 0], the limit type daily and the reset time of the
    stored [daily_reset_at], and writes nothing. *)
Theorem checkUserLimits_boundary env userId sub w :
  db_fault env RpcGetUsageStats = Works ->
  let stored := snapshot_view (clock w) (user_usage_stats w !! userId) in
  exists limits w',
    Quota.checkUserLimits env userId sub w = (Ret limits, w') /\
    Quota.daily_limit Quota.FREE = 5 /\ Quota.daily_limit Quota.PRO = 50 /\
    (Quota.allowed limits = false <-> Quota.daily_limit sub <= stored) /\
    (Quota.allowed limits = true ->
     Quota.remaining limits = Quota.daily_limit sub - stored) /\
    (stored = Quota.daily_limit sub - 1 ->
     Quota.allowed limits = true /\ Quota.remaining limits = 1) /\
    (stored = Quota.daily_limit sub -> Quota.allowed limits = false) /\
    (Quota.allowed limits = false ->
     Quota.remaining limits = 0 /\ Quota.limitType limits = Some "daily" /\
     w' = w /\
     exists row,
       user_usage_stats w !! userId = Some row /\
       Sql.uploads_today row = Some stored /\
       Sql.daily_reset_at row = Some (Quota.resetTime limits) /\
       clock w < Quota.resetTime limits).
Proof.
  intros Hworks. cbv zeta.
  destruct (checkUserLimits_total env userId sub w) as (usage & t & Eread & Echeck).
  assert (Hstored : Quota.uploads_today usage
                    = snapshot_view (clock w) (user_usage_stats w !! userId)).
  { destruct (getUserUsageStatsFromDB_works env userId w Hworks) as (usage' & E & Hup).
    rewrite Eread in E. injection E as -> _.
    rewrite Hup. apply get_user_usage_stats_view. }
  exists (Quota.limits_of sub usage), (set_usage w t). split; [exact Echeck|].
  split; [reflexivity|]. split; [reflexivity|].
  rewrite <- Hstored.
  split; [apply limits_of_allowed|].
  split.
  { unfold Quota.limits_of.
    by destruct (Quota.daily_limit sub <=? Quota.uploads_today usage). }
  split.
  { intros Hone. unfold Quota.limits_of.
    destruct (Quota.daily_limit sub <=? Quota.uploads_today usage) eqn:E; cbn.
    - apply Z.leb_le in E. lia.
    - split; [done|]. lia. }
  split.
  { intros Hat. apply limits_of_allowed. lia. }
  intros Hrej.
  pose proof (checkUserLimits_rejected _ _ _ _ _ _ Echeck Hrej) as Hsame.
  pose proof (proj1 (limits_of_allowed sub usage) Hrej) as Hfull.
  assert (Hpos : 0 < Quota.daily_limit sub) by (destruct sub; cbn; lia).
  split.
  { unfold Quota.limits_of in *.
    by destruct (Quota.daily_limit sub <=? Quota.uploads_today usage). }
  split.
  { unfold Quota.limits_of in *.
    by destruct (Quota.daily_limit sub <=? Quota.uploads_today usage). }
  split; [exact Hsame|].
  destruct (user_usage_stats w !! userId) as [[up [reset|]]|] eqn:Erow.
  - rewrite (getUserUsageStatsFromDB_row env userId w up reset Hworks Erow) in Eread.
    unfold snapshot_view in Hstored. cbn [Sql.reset_due] in Hstored.
    destruct (reset <=? clock w) eqn:Edue.
    + rewrite Hstored in Hfull. lia.
    + injection Eread as <- _. apply Z.leb_gt in Edue.
      cbn [Quota.uploads_today] in *.
      eexists. split; [reflexivity|]. cbn [Sql.uploads_today Sql.daily_reset_at].
      unfold Quota.limits_of. cbn [Quota.uploads_today Quota.daily_reset_at].
      destruct up as [n|]; cbn [Sql.coalesce] in *; [|lia].
      split; [done|].
      by destruct (Quota.daily_limit sub <=? n).
  - unfold snapshot_view in Hstored. cbn [Sql.reset_due] in Hstored.
    rewrite Hstored in Hfull. lia.
  - unfold snapshot_view in Hstored. cbn [Sql.reset_due] in Hstored.
    rewrite Hstored in Hfull. lia.
Qed.

(** ** The retry loops *)

(** One pass of the Groq loop: it returns the answer's payload, or fails;
    a failure before the last pass waits [2000 * attempt] ms and goes on,
    whatever the status, and the last one rethrows. *)
Lemma groq_attempt_once env r attempt maxRetries w :
  Groq.attempt_once env r attempt maxRetries w =
  match groq_answer (next_answer env w) with
  | Some c => (Ret (Groq.Return c), log_fetch w r)
  | None =>
      if attempt =? maxRetries
      then (Throw (groq_rethrown (groq_failure env (next_answer env w))), log_fetch w r)
      else (Ret Groq.Continue, retried w r (2000 * attempt))
  end.
Proof.
  unfold Groq.attempt_once, next_answer, groq_answer, groq_failure, groq_rethrown,
    retried, fetch.
  monad_unfold.
  destruct (provider env (List.length (fetches w))) as [msg|st body]; cbn.
  - destruct (attempt =? maxRetries); [|done].
    by repeat (break_match; cbn).
  - destruct (ok_status st); cbn.
    + destruct (JSON_parse body) as [[]|]; cbn; try done;
        destruct (attempt =? maxRetries); try done;
        by repeat (break_match; cbn).
    + destruct ((500 <=? st) && (attempt <? maxRetries)) eqn:E; cbn.
      * apply andb_true_iff in E as [_ E]. apply Z.ltb_lt in E.
        destruct (attempt =? maxRetries) eqn:E'; [apply Z.eqb_eq in E'; lia|done].
      * destruct (attempt =? maxRetries); [|done].
        by repeat (break_match; cbn).
Qed.

Lemma gemini_attempt_once env r attempt maxRetries w :
  Gemini.attempt_once env r attempt maxRetries w =
  match gemini_answer (next_answer env w) with
  | Some v => (Ret (Gemini.Return v), log_fetch w r)
  | None =>
      if attempt =? maxRetries
      then (Throw (gemini_failure env (next_answer env w)), log_fetch w r)
      else (Ret Gemini.Continue, retried w r (2000 * attempt))
  end.
Proof.
  unfold Gemini.attempt_once, next_answer, gemini_answer, gemini_failure,
    retried, fetch.
  monad_unfold.
  destruct (provider env (List.length (fetches w))) as [msg|st body]; cbn.
  - by destruct (attempt =? maxRetries).
  - destruct (ok_status st); cbn.
    + destruct (JSON_parse body) as [[]|]; cbn; try done;
        by destruct (attempt =? maxRetries).
    + destruct ((500 <=? st) && (attempt <? maxRetries)) eqn:E; cbn.
      * apply andb_true_iff in E as [_ E]. apply Z.ltb_lt in E.
        destruct (attempt =? maxRetries) eqn:E'; [apply Z.eqb_eq in E'; lia|done].
      * by destruct (attempt =? maxRetries).
Qed.

Lemma length_fetches_retried w r d :
  List.length (fetches (retried w r d)) = S (List.length (fetches w)).
Proof. cbn. rewrite length_app. cbn. lia. Qed.

Lemma next_answer_retried env w r d :
  next_answer env (retried w r d) = provider env (S (List.length (fetches w))).
Proof.
  unfold next_answer, retried. cbn. rewrite length_app. cbn.
  f_equal. lia.
Qed.

(** The Groq loop for [maxRetries = 3], pass by pass. *)
Lemma groq_three_passes env r after w :
  Groq.retry_loop env r 3 1 3 after w =
  match groq_answer (next_answer env w) with
  | Some c => (Ret (Some c), log_fetch w r)
  | None =>
      let w1 := retried w r 2000 in
      match groq_answer (next_answer env w1) with
      | Some c => (Ret (Some c), log_fetch w1 r)
      | None =>
          let w2 := retried w1 r 4000 in
          match groq_answer (next_answer env w2) with
          | Some c => (Ret (Some c), log_fetch w2 r)
          | None =>
              (Throw (groq_rethrown (groq_failure env (next_answer env w2))),
               log_fetch w2 r)
          end
      end
  end.
Proof.
  cbn [Groq.retry_loop]. unfold bind, ret.
  change (1 + 1 + 1) with 3. change (1 + 1) with 2.
  rewrite groq_attempt_once. change (2000 * 1) with 2000.
  destruct (groq_answer (next_answer env w)); [done|]. cbn [Z.eqb Pos.eqb].
  rewrite groq_attempt_once. change (2000 * 2) with 4000.
  destruct (groq_answer (next_answer env (retried w r 2000))); [done|].
  cbn [Z.eqb Pos.eqb].
  rewrite groq_attempt_once.
  by destruct (groq_answer (next_answer env (retried (retried w r 2000) r 4000))).
Qed.

Lemma gemini_three_passes env r w :
  Gemini.retry_loop env r 3 1 3 w =
  match gemini_answer (next_answer env w) with
  | Some v => (Ret v, log_fetch w r)
  | None =>
      let w1 := retried w r 2000 in
      match gemini_answer (next_answer env w1) with
      | Some v => (Ret v, log_fetch w1 r)
      | None =>
          let w2 := retried w1 r 4000 in
          match gemini_answer (next_answer env w2) with
          | Some v => (Ret v, log_fetch w2 r)
          | None => (Throw (gemini_failure env (next_answer env w2)), log_fetch w2 r)
          end
      end
  end.
Proof.
  cbn [Gemini.retry_loop]. unfold bind, ret.
  change (1 + 1 + 1) with 3. change (1 + 1) with 2.
  rewrite gemini_attempt_once. change (2000 * 1) with 2000.
  destruct (gemini_answer (next_answer env w)); [done|]. cbn [Z.eqb Pos.eqb].
  rewrite gemini_attempt_once. change (2000 * 2) with 4000.
  destruct (gemini_answer (next_answer env (retried w r 2000))); [done|].
  cbn [Z.eqb Pos.eqb].
  rewrite gemini_attempt_once.
  by destruct (gemini_answer (next_answer env (retried (retried w r 2000) r 4000))).
Qed.

Lemma callGroqWithText_loop env textContent prompt w :
  truthy_str (GROQ_API_KEY env) = true ->
  Groq.callGroqWithText env textContent prompt 3 w
  = Groq.retry_loop env (Groq.request_for textContent prompt) 3 1 3 (ret None) w.
Proof. intros H. unfold Groq.callGroqWithText. by rewrite H. Qed.

Lemma groq_answer_5xx st body : 500 <= st -> groq_answer (Responded st body) = None.
Proof.
  intros H. unfold groq_answer, ok_status.
  destruct (st <=? 299) eqn:E; [apply Z.leb_le in E; lia|].
  by rewrite andb_false_r.
Qed.

Lemma gemini_answer_5xx st body : 500 <= st -> gemini_answer (Responded st body) = None.
Proof.
  intros H. unfold gemini_answer, ok_status.
  destruct (st <=? 299) eqn:E; [apply Z.leb_le in E; lia|].
  by rewrite andb_false_r.
Qed.

Lemma groq_answer_4xx st body :
  400 <= st < 500 -> groq_answer (Responded st body) = None.
Proof.
  intros H. unfold groq_answer, ok_status.
  destruct (st <=? 299) eqn:E; [apply Z.leb_le in E; lia|].
  by rewrite andb_false_r.
Qed.

Lemma gemini_answer_4xx st body :
  400 <= st < 500 -> gemini_answer (Responded st body) = None.
Proof.
  intros H. unfold gemini_answer, ok_status.
  destruct (st <=? 299) eqn:E; [apply Z.leb_le in E; lia|].
  by rewrite andb_false_r.
Qed.

(** C3, as the code has it: a 4xx answer does not end the call.  The
    [throw] for it sits inside the [try] of the loop, so the [catch]
    waits 2000 ms and the loop issues a second request, for the Groq
    client and for the Gemini client alike. *)
Theorem client_retries_4xx env textContent prompt w st body :
  truthy_str (GROQ_API_KEY env) = true ->
  400 <= st < 500 ->
  next_answer env w = Responded st body ->
  (exists out w',
     Groq.callGroqWithText env textContent prompt 3 w = (out, w') /\
     exists more rest,
       fetches w' = fetches w ++ Groq.request_for textContent prompt
                                 :: Groq.request_for textContent prompt :: more /\
       timers w' = timers w ++ 2000 :: rest) /\
  (exists out w',
     Gemini.callGeminiWithText env textContent prompt 3 w = (out, w') /\
     exists r more rest,
       fetches w' = fetches w ++ r :: r :: more /\
       timers w' = timers w ++ 2000 :: rest).
Proof.
  intros Hkey Hst Hfirst. split.
  - rewrite callGroqWithText_loop by done. rewrite groq_three_passes.
    rewrite Hfirst, groq_answer_4xx by done. cbn zeta.
    set (r := Groq.request_for textContent prompt).
    destruct (groq_answer (next_answer env (retried w r 2000))).
    + eexists _, _. split; [reflexivity|]. exists [], []. cbn.
      by rewrite <- app_assoc.
    + destruct (groq_answer (next_answer env (retried (retried w r 2000) r 4000)));
        (eexists _, _; split; [reflexivity|]); exists [r], [4000]; cbn;
        by rewrite <- !app_assoc.
  - unfold Gemini.callGeminiWithText. cbn [Z.to_nat Pos.to_nat Pos.iter_op Nat.add].
    rewrite gemini_three_passes.
    rewrite Hfirst, gemini_answer_4xx by done. cbn zeta.
    match goal with |- context [retried w ?x 2000] => set (r := x) end.
    destruct (gemini_answer (next_answer env (retried w r 2000))).
    + eexists _, _. split; [reflexivity|]. exists r, [], []. cbn.
      by rewrite <- app_assoc.
    + destruct (gemini_answer (next_answer env (retried (retried w r 2000) r 4000)));
        (eexists _, _; split; [reflexivity|]); exists r, [r], [4000]; cbn;
        by rewrite <- !app_assoc.
Qed.

Lemma groq_answer_ok body data :
  JSON_parse body = Some data -> data <> JNull ->
  groq_answer (Responded 200 body)
  = Some {| Groq.content := Groq.completion_content data;
            Groq.usage := Groq.nullish_default (get data (Name "usage")) (JObj []) |}.
Proof.
  intros H Hnull. unfold groq_answer. change (ok_status 200) with true.
  cbn iota. rewrite H. by destruct data.
Qed.

Lemma gemini_answer_ok body data :
  JSON_parse body = Some data -> data <> JNull ->
  gemini_answer (Responded 200 body) = Some (Gemini.gemini_text data).
Proof.
  intros H Hnull. unfold gemini_answer. change (ok_status 200) with true.
  cbn iota. rewrite H. by destruct data.
Qed.

(** No call makes more than three requests. *)
Lemma groq_at_most_three env textContent prompt w :
  (List.length (fetches (Groq.callGroqWithText env textContent prompt 3 w).2)
   <= List.length (fetches w) + 3)%nat.
Proof.
  unfold Groq.callGroqWithText.
  destruct (truthy_str (GROQ_API_KEY env)); [|cbn; lia].
  rewrite groq_three_passes. cbn zeta.
  repeat (break_match; cbn [snd]); cbn; rewrite ?length_app; cbn; lia.
Qed.

Lemma gemini_at_most_three env textContent prompt w :
  (List.length (fetches (Gemini.callGeminiWithText env textContent prompt 3 w).2)
   <= List.length (fetches w) + 3)%nat.
Proof.
  unfold Gemini.callGeminiWithText. cbn [Z.to_nat Pos.to_nat Pos.iter_op Nat.add].
  rewrite gemini_three_passes. cbn zeta.
  repeat (break_match; cbn [snd]); cbn; rewrite ?length_app; cbn; lia.
Qed.

Lemma three_passes_log w r :
  let w3 := log_fetch (retried (retried w r 2000) r 4000) r in
  fetches w3 = fetches w ++ [r; r; r] /\
  timers w3 = timers w ++ [2000; 2000 * 2] /\
  clock w3 = clock w + 2000 * 1 + 2000 * 2.
Proof. cbn. by rewrite <- !app_assoc. Qed.

(** C7. Both clients make up to 3 attempts and wait [2000 * attempt] ms
    after a failed one.  When the provider answers 500, 500 and then 200
    with a JSON envelope, the call succeeds on the third attempt and
    returns the payload of that envelope: for Groq the value at
    [choices[0].message.content], for Gemini the value at
    [candidates[0].content.parts[0].text], and the text of an empty
    array where Gemini's envelope has none.  When the provider answers
    500 three times, the call throws after the third attempt.  Either
    way exactly three requests are sent and the waits are 2000 and
    4000 ms. *)
Theorem retry_three_attempts env textContent prompt w b1 b2 b3 :
  truthy_str (GROQ_API_KEY env) = true ->
  provider env (List.length (fetches w)) = Responded 500 b1 ->
  provider env (S (List.length (fetches w))) = Responded 500 b2 ->
  let third := provider env (S (S (List.length (fetches w)))) in
  let done_ r := log_fetch (retried (retried w r 2000) r 4000) r in
  let groq := Groq.request_for textContent prompt in
  let gemini :=
    {| url := Gemini.GEMINI_URL;
       content := prompt +:+ nl +:+ nl +:+ "STUDY MATERIAL:" +:+ nl +:+ textContent;
       inlineData := None |} in
  (forall data,
     third = Responded 200 b3 -> JSON_parse b3 = Some data -> data <> JNull ->
     Groq.callGroqWithText env textContent prompt 3 w
     = (Ret (Some {| Groq.content := Groq.completion_content data;
                     Groq.usage := Groq.nullish_default (get data (Name "usage"))
                                     (JObj []) |}), done_ groq) /\
     Gemini.callGeminiWithText env textContent prompt 3 w
     = (Ret (Gemini.gemini_text data), done_ gemini)) /\
  (forall data v,
     third = Responded 200 b3 -> JSON_parse b3 = Some data ->
     opt_get (opt_get (opt_get (get data (Name "choices")) (Index 0))
                (Name "message")) (Name "content") = Some v ->
     v <> JNull ->
     exists usage,
       Groq.callGroqWithText env textContent prompt 3 w
       = (Ret (Some {| Groq.content := v; Groq.usage := usage |}), done_ groq)) /\
  (forall data,
     third = Responded 200 b3 -> JSON_parse b3 = Some data -> data <> JNull ->
     let text :=
       opt_get (opt_get (opt_get (opt_get (opt_get
         (get data (Name "candidates")) (Index 0)) (Name "content"))
         (Name "parts")) (Index 0)) (Name "text") in
     Gemini.callGeminiWithText env textContent prompt 3 w
     = (Ret match text with
            | Some JNull | None => Some (JStr "[]")
            | Some v => Some v
            end, done_ gemini)) /\
  (third = Responded 500 b3 ->
     (exists e,
        Groq.callGroqWithText env textContent prompt 3 w = (Throw e, done_ groq) /\
        message e = "Groq API failed: " +:+ b3 /\ statusCode e = Some 500) /\
     Gemini.callGeminiWithText env textContent prompt 3 w
     = (Throw (Error ("Gemini API failed: " +:+ b3)), done_ gemini)) /\
  (forall r, fetches (done_ r) = fetches w ++ [r; r; r] /\
             timers (done_ r) = timers w ++ [2000; 2000 * 2]) /\
  (List.length (fetches (Groq.callGroqWithText env textContent prompt 3 w).2)
   <= List.length (fetches w) + 3)%nat /\
  (List.length (fetches (Gemini.callGeminiWithText env textContent prompt 3 w).2)
   <= List.length (fetches w) + 3)%nat.
Proof.
  intros Hkey H1 H2 third done_ groq gemini.
  assert (Hg : forall after,
             Groq.retry_loop env groq 3 1 3 after w =
             match groq_answer third with
             | Some c => (Ret (Some c), done_ groq)
             | None => (Throw (groq_rethrown (groq_failure env third)), done_ groq)
             end).
  { intros after. rewrite groq_three_passes. unfold next_answer at 1.
    rewrite H1, groq_answer_5xx by lia. cbn zeta.
    rewrite next_answer_retried, H2, groq_answer_5xx by lia.
    by rewrite next_answer_retried, length_fetches_retried. }
  assert (Hm : Gemini.retry_loop env gemini 3 1 3 w =
               match gemini_answer third with
               | Some v => (Ret v, done_ gemini)
               | None => (Throw (gemini_failure env third), done_ gemini)
               end).
  { rewrite gemini_three_passes. unfold next_answer at 1.
    rewrite H1, gemini_answer_5xx by lia. cbn zeta.
    rewrite next_answer_retried, H2, gemini_answer_5xx by lia.
    by rewrite next_answer_retried, length_fetches_retried. }
  split; [|split; [|split; [|split; [|split; [|split]]]]].
  - intros data H3 Hparse Hnull. split.
    + rewrite callGroqWithText_loop, Hg, H3 by done.
      by rewrite (groq_answer_ok _ data).
    + change (Gemini.callGeminiWithText env textContent prompt 3 w)
        with (Gemini.retry_loop env gemini 3 1 3 w).
      rewrite Hm, H3. by rewrite (gemini_answer_ok _ data).
  - intros data v H3 Hparse Hpath Hv.
    assert (Hnull : data <> JNull) by (intros ->; discriminate Hpath).
    eexists. rewrite callGroqWithText_loop, Hg, H3 by done.
    rewrite (groq_answer_ok _ data) by done.
    unfold Groq.completion_content, Groq.message_content, Groq.nullish_default.
    rewrite Hpath. by destruct v.
  - intros data H3 Hparse Hnull. cbv zeta.
    change (Gemini.callGeminiWithText env textContent prompt 3 w)
      with (Gemini.retry_loop env gemini 3 1 3 w).
    rewrite Hm, H3, (gemini_answer_ok _ data) by done.
    unfold Gemini.gemini_text.
    by destruct (opt_get _ (Name "text")) as [[]|].
  - intros H3. split.
    + rewrite callGroqWithText_loop, Hg, H3, groq_answer_5xx by (done || lia).
      eexists. split; [reflexivity|].
      unfold groq_rethrown, groq_failure. cbn.
      by repeat (break_match; cbn).
    + change (Gemini.callGeminiWithText env textContent prompt 3 w)
        with (Gemini.retry_loop env gemini 3 1 3 w).
      by rewrite Hm, H3, gemini_answer_5xx by lia.
  - intros r. by destruct (three_passes_log w r) as (? & ? & _).
  - apply groq_at_most_three.
  - apply gemini_at_most_three.
Qed.

(** ** The cache *)

(** [cacheMCQs] returns and leaves the new entry in the cache: the
    clean-up only deletes entries older than the one just stored. *)
Lemma cacheMCQs_total fileHash l w :
  exists c,
    Gemini.cacheMCQs fileHash l w = (Ret tt, set_cache w c) /\
    c !! fileHash = Some {| mcqs := l; timestamp := clock w |}.
Proof.
  unfold Gemini.cacheMCQs. monad_unfold. cbn [mcqCache set_cache clock].
  match goal with |- context [(Gemini.CACHE_CEILING <? ?n)%nat] =>
    destruct (Gemini.CACHE_CEILING <? n)%nat end.
  - eexists. split; [reflexivity|].
    apply map_lookup_filter_Some. split; [apply lookup_insert_eq|].
    cbn. unfold Gemini.CACHE_DURATION. lia.
  - eexists. split; [reflexivity|]. apply lookup_insert_eq.
Qed.

Lemma getCachedMCQs_hit fileHash entry w :
  mcqCache w !! fileHash = Some entry ->
  clock w - timestamp entry < Gemini.CACHE_DURATION ->
  Gemini.getCachedMCQs fileHash w = (Ret (Some (mcqs entry)), w).
Proof.
  intros Hentry Hlive. unfold Gemini.getCachedMCQs. monad_unfold.
  rewrite Hentry. apply Z.ltb_lt in Hlive. by rewrite Hlive.
Qed.

Lemma getCachedMCQs_expired fileHash entry w :
  mcqCache w !! fileHash = Some entry ->
  Gemini.CACHE_DURATION <= clock w - timestamp entry ->
  Gemini.getCachedMCQs fileHash w
  = (Ret None, set_cache w (delete fileHash (mcqCache w))).
Proof.
  intros Hentry Hold. unfold Gemini.getCachedMCQs. monad_unfold.
  rewrite Hentry. apply Z.ltb_ge in Hold. by rewrite Hold.
Qed.

Lemma getCachedMCQs_total fileHash w :
  exists r c, Gemini.getCachedMCQs fileHash w = (Ret r, set_cache w c).
Proof.
  unfold Gemini.getCachedMCQs. monad_unfold.
  destruct (mcqCache w !! fileHash) as [entry|].
  - destruct (clock w - timestamp entry <? Gemini.CACHE_DURATION).
    + exists (Some (mcqs entry)), (mcqCache w). by rewrite set_cache_same.
    + by eexists _, _.
  - exists None, (mcqCache w). by rewrite set_cache_same.
Qed.

(** C8. After [cacheMCQs f m], a [getCachedMCQs f] made less than 30
    minutes later returns exactly [m] and changes nothing; made 30
    minutes later or more it returns [null] and deletes the entry. *)
Theorem cache_round_trip (w : World) (f : string) (m : list json) (t1 : Z) :
  Gemini.CACHE_DURATION = 30 * 60 * 1000 /\
  exists w1,
    Gemini.cacheMCQs f m w = (Ret tt, w1) /\
    (t1 - clock w < Gemini.CACHE_DURATION ->
     Gemini.getCachedMCQs f (set_clock w1 t1) = (Ret (Some m), set_clock w1 t1)) /\
    (Gemini.CACHE_DURATION <= t1 - clock w ->
     exists w2,
       Gemini.getCachedMCQs f (set_clock w1 t1) = (Ret None, w2) /\
       mcqCache w2 !! f = None).
Proof.
  split; [done|].
  destruct (cacheMCQs_total f m w) as (c & Estore & Hentry).
  exists (set_cache w c). split; [done|]. split.
  - intros Hlive.
    by apply (getCachedMCQs_hit f {| mcqs := m; timestamp := clock w |}).
  - intros Hold. eexists. split.
    + by apply (getCachedMCQs_expired f {| mcqs := m; timestamp := clock w |}).
    + cbn. apply lookup_delete_eq.
Qed.

(** ** The Gemini handler, path by path *)

(** The global check returns; it writes at most its own lazy reset. *)
Lemma checkGlobalUsage_total w :
  exists g count reset,
    Gemini.checkGlobalUsage w = (Ret g, set_global w count reset) /\
    ((count = globalUsageCount w /\ reset = globalUsageResetTime w) \/
     (globalUsageResetTime w < clock w /\ count = 0 /\
      reset = clock w + Gemini.GLOBAL_WINDOW)) /\
    Gemini.allowed g = negb (Gemini.MAX_GLOBAL_USAGE <=? count).
Proof.
  unfold Gemini.checkGlobalUsage. monad_unfold.
  destruct (globalUsageResetTime w <? clock w) eqn:E; cbn.
  - apply Z.ltb_lt in E.
    eexists _, 0, (clock w + Gemini.GLOBAL_WINDOW).
    split; [reflexivity|]. split; [right; done|done].
  - destruct (Gemini.MAX_GLOBAL_USAGE <=? globalUsageCount w) eqn:Emax;
      eexists _, (globalUsageCount w), (globalUsageResetTime w);
      rewrite set_global_same; (split; [reflexivity|]);
      (split; [by left|by rewrite Emax]).
Qed.

(** Recording usage returns; it writes the usage table only. *)
Lemma incrementUserUsage_total env userId w :
  exists t, Quota.incrementUserUsage env userId w = (Ret tt, set_usage w t).
Proof.
  unfold Quota.incrementUserUsage.
  unfold try_catch, bind at 1.
  destruct (db_call_cases env RpcIncrementUploadCount
              (Quota.rpc_increment_upload_count userId) w) as [[_ E]|[E|[e E]]];
    rewrite E; clear E; cbn beta iota.
  - unfold Quota.rpc_increment_upload_count, ret; cbn [fst snd]. by eexists.
  - unfold bind at 1.
    destruct (db_call_cases env SelectCurrentUsage (Quota.select_usage userId) w)
      as [[_ E]|[E|[e E]]]; rewrite E; clear E; cbn beta iota.
    + unfold Quota.select_usage; cbn [fst snd].
      destruct (user_usage_stats w !! userId) as [current|];
        [|exists (user_usage_stats w); by rewrite set_usage_same].
      unfold bind, Date_now, gets, ret.
      destruct (Quota.or_zero (Sql.daily_reset_at current) <=? clock w).
      * match goal with |- context [db_call env UpdateUsage ?f w] =>
          destruct (db_call_cases env UpdateUsage f w) as [[_ E]|[E|[e E]]];
            rewrite E; clear E; cbn beta iota
        end.
        -- unfold Quota.update_usage; cbn [fst snd]. by eexists.
        -- exists (user_usage_stats w). by rewrite set_usage_same.
        -- exists (user_usage_stats w). by rewrite set_usage_same.
      * match goal with |- context [db_call env UpdateUsage ?f w] =>
          destruct (db_call_cases env UpdateUsage f w) as [[_ E]|[E|[e E]]];
            rewrite E; clear E; cbn beta iota
        end.
        -- unfold Quota.update_usage; cbn [fst snd]. by eexists.
        -- exists (user_usage_stats w). by rewrite set_usage_same.
        -- exists (user_usage_stats w). by rewrite set_usage_same.
    + exists (user_usage_stats w). by rewrite set_usage_same.
    + exists (user_usage_stats w). by rewrite set_usage_same.
  - exists (user_usage_stats w). by rewrite set_usage_same.
Qed.

Lemma commit_total env userId contentHash l w :
  exists w', Gemini.commit env userId contentHash l w = (Ret tt, w').
Proof.
  unfold Gemini.commit, Gemini.incrementGlobalUsage.
  unfold bind at 1. unfold modify at 1. unfold bind at 1.
  match goal with |- context [Quota.incrementUserUsage env userId ?w1] =>
    destruct (incrementUserUsage_total env userId w1) as (t & ->)
  end.
  match goal with |- context [Gemini.cacheMCQs contentHash l ?w2] =>
    destruct (cacheMCQs_total contentHash l w2) as (c & -> & _)
  end.
  by eexists.
Qed.

Lemma token_user_none_cases env req :
  token_user env req = None ->
  Http.authorization req = None \/
  (exists h, Http.authorization req = Some h /\ startsWith h "Bearer " = false) \/
  (exists h, Http.authorization req = Some h /\ startsWith h "Bearer " = true /\
             getUser env (replace h "Bearer " EmptyString) = None).
Proof.
  unfold token_user. destruct (Http.authorization req) as [h|]; [|by left].
  destruct (startsWith h "Bearer ") eqn:E; right; [right|left]; eauto.
Qed.

Lemma has_input_false body :
  Gemini.has_input body = false ->
  (negb (truthy_str (Http.file_data body))
   && negb (truthy_str (Http.text_content body)) = true) \/
  (negb (truthy_str (Http.file_data body))
   && negb (truthy_str (Http.text_content body)) = false /\
   truthy_str (Http.file_data body)
   && negb (truthy_str (Http.mime_type body)) = true).
Proof.
  unfold Gemini.has_input.
  destruct (truthy_str (Http.file_data body)), (truthy_str (Http.text_content body)),
    (truthy_str (Http.mime_type body)); cbn; intros; try discriminate; auto.
Qed.

(** The handler never throws, and each request takes one of the paths of
    [GeminiRun]. *)
Lemma gemini_handler_run env req w :
  exists resp w',
    Gemini.handler env req w = (Ret resp, w') /\ GeminiRun env req w resp w'.
Proof.
  unfold Gemini.handler, try_catch, Gemini.serve.
  destruct (String.eqb (Http.method req) "POST") eqn:Hmethod; cbn [negb].
  2:{ apply String.eqb_neq in Hmethod. eexists _, _. split; [reflexivity|].
      by constructor. }
  apply String.eqb_eq in Hmethod.
  unfold bind at 1.
  destruct (checkGlobalUsage_total w) as (g & count & reset & Eg & _ & _).
  rewrite Eg. set (w1 := set_global w count reset) in *.
  destruct (Gemini.allowed g) eqn:Hg; cbn [negb].
  2:{ eexists _, _. split; [reflexivity|]. by eapply Run503. }
  destruct (token_user env req) as [userId|] eqn:Htoken.
  2:{ destruct (token_user_none_cases env req Htoken)
        as [Ha|[(h & Ha & Hs)|(h & Ha & Hs & Hu)]];
        rewrite Ha, ?Hs, ?Hu; (eexists _, _; split; [reflexivity|]);
        by eapply Run401. }
  unfold token_user in Htoken.
  destruct (Http.authorization req) as [h|] eqn:Ha; [|done].
  destruct (startsWith h "Bearer ") eqn:Hs; [|done].
  rewrite Htoken.
  unfold bind at 1.
  destruct (getUserSubscription_total env userId w1) as (sub & Esub). rewrite Esub.
  unfold bind at 1.
  destruct (checkUserLimits_total env userId sub w1) as (usage & t & _ & Elim).
  rewrite Elim. set (limits := Quota.limits_of sub usage) in *.
  set (w2 := set_usage w1 t) in *.
  assert (Hchecked : checked env req w g userId sub limits w2).
  { split; [done|]. exists w1. unfold token_user. by rewrite Ha, Hs. }
  destruct (Quota.allowed limits) eqn:Hlim; cbn [negb].
  2:{ eexists _, _. split; [reflexivity|]. by eapply Run429. }
  unfold Gemini.generate.
  destruct (Http.json_body req) as [body|] eqn:Hbody.
  2:{ eexists _, _. split; [reflexivity|]. by eapply RunNoBody. }
  destruct (Gemini.has_input body) eqn:Hinput.
  2:{ destruct (has_input_false body Hinput) as [H1|[H1 H2]];
        rewrite H1, ?H2; (eexists _, _; split; [reflexivity|]);
        by eapply Run400. }
  assert (negb (truthy_str (Http.file_data body))
          && negb (truthy_str (Http.text_content body)) = false) as ->.
  { unfold Gemini.has_input in Hinput.
    by destruct (negb (truthy_str (Http.file_data body))
                 && negb (truthy_str (Http.text_content body))). }
  assert (truthy_str (Http.file_data body)
          && negb (truthy_str (Http.mime_type body)) = false) as ->.
  { unfold Gemini.has_input in Hinput.
    destruct (truthy_str (Http.file_data body)
              && negb (truthy_str (Http.mime_type body))); [|done].
    by rewrite andb_false_r in Hinput. }
  cbv zeta. unfold bind at 1.
  destruct (getCachedMCQs_total
              (Gemini.generateFileHash (Gemini.material_of body)) w2)
    as (cachedMCQs & c & Ecache).
  rewrite Ecache. set (w3 := set_cache w2 c) in *.
  destruct cachedMCQs as [l|].
  { eexists _, _. split; [reflexivity|]. by eapply RunCached. }
  assert (Hreach : reaches_provider env req w g userId sub limits body w2 w3)
    by done.
  unfold bind at 1.
  destruct (Gemini.provider_call env body w3) as [[raw|e] w4] eqn:Ecall.
  2:{ eexists _, _. split; [reflexivity|]. by eapply RunThrows. }
  unfold bind at 1, lift.
  destruct (Gemini.normalize raw) as [e|l] eqn:Enorm.
  { eexists _, _. split; [reflexivity|]. by eapply RunMalformed. }
  unfold ret at 1. unfold bind at 1.
  destruct (commit_total env userId
              (Gemini.generateFileHash (Gemini.material_of body)) l w4)
    as (w5 & Ecommit).
  rewrite Ecommit.
  eexists _, _. split; [reflexivity|]. by eapply RunGenerated.
Qed.

(** *** What each step leaves alone *)

Lemma checkGlobalUsage_inv w g w1 :
  Gemini.checkGlobalUsage w = (Ret g, w1) ->
  user_usage_stats w1 = user_usage_stats w /\ mcqCache w1 = mcqCache w /\
  clock w1 = clock w /\ fetches w1 = fetches w /\ timers w1 = timers w /\
  (globalUsageCount w1 = globalUsageCount w \/ globalUsageCount w1 = 0) /\
  Gemini.allowed g = negb (Gemini.MAX_GLOBAL_USAGE <=? globalUsageCount w1).
Proof.
  destruct (checkGlobalUsage_total w) as (g' & count & reset & -> & Hc & Ha).
  intros [= <- <-]. cbn. repeat split; try done.
  destruct Hc as [[-> _]|(_ & -> & _)]; auto.
Qed.

Lemma checkUserLimits_inv env userId sub w limits w2 :
  Quota.checkUserLimits env userId sub w = (Ret limits, w2) ->
  mcqCache w2 = mcqCache w /\ clock w2 = clock w /\
  fetches w2 = fetches w /\ timers w2 = timers w /\
  globalUsageCount w2 = globalUsageCount w /\
  forall v, untouched_or_reset (clock w) (user_usage_stats w !! v)
              (user_usage_stats w2 !! v).
Proof.
  destruct (getUserUsageStatsFromDB_total env userId w) as (usage & t & E & Ht).
  unfold Quota.checkUserLimits, bind, ret. rewrite E. intros [= <- <-]. cbn.
  repeat split; try done. intros v.
  destruct Ht as [->|[-> _]]; [by left|]. apply get_user_usage_stats_rows.
Qed.

Lemma getCachedMCQs_inv fileHash w r w3 :
  Gemini.getCachedMCQs fileHash w = (Ret r, w3) ->
  user_usage_stats w3 = user_usage_stats w /\ clock w3 = clock w /\
  fetches w3 = fetches w /\ timers w3 = timers w /\
  globalUsageCount w3 = globalUsageCount w.
Proof.
  destruct (getCachedMCQs_total fileHash w) as (r' & c & ->).
  by intros [= <- <-].
Qed.

(** The provider call touches neither counter nor the cache. *)
Lemma provider_call_frame env body w out w' :
  Gemini.provider_call env body w = (out, w') ->
  user_usage_stats w' = user_usage_stats w /\
  globalUsageCount w' = globalUsageCount w /\
  mcqCache w' = mcqCache w.
Proof.
  unfold Gemini.provider_call, Gemini.callGeminiWithText,
    Gemini.callGeminiWithFileData.
  change (Z.to_nat 3) with 3%nat.
  destruct (truthy_str (Http.text_content body)).
  - rewrite gemini_three_passes. cbv zeta.
    repeat break_match; by intros [= <- <-].
  - destruct (_ <? _); [by intros [= <- <-]|].
    rewrite gemini_three_passes. cbv zeta.
    repeat break_match; by intros [= <- <-].
Qed.

(** *** The handler on a request that passed the checks *)

Lemma serve_checked env req w g userId sub limits w2 :
  checked env req w g userId sub limits w2 ->
  Gemini.serve env req w =
  if Quota.allowed limits
  then Gemini.generate env req userId sub limits g w2
  else (Ret (Gemini.response429 sub limits (clock w2)), w2).
Proof.
  intros (Hmethod & w1 & Eg & Hg & Htoken & Esub & Elim).
  unfold Gemini.serve. rewrite Hmethod.
  change (negb ("POST" =? "POST")%string) with false. cbv iota.
  unfold bind at 1. rewrite Eg, Hg. cbn [negb].
  unfold token_user in Htoken.
  destruct (Http.authorization req) as [h|]; [|done].
  destruct (startsWith h "Bearer "); [|done].
  rewrite Htoken. unfold bind at 1. rewrite Esub.
  unfold bind at 1. rewrite Elim.
  by destruct (Quota.allowed limits).
Qed.

Lemma generate_with_input env req userId sub limits g body w2 :
  Http.json_body req = Some body ->
  Gemini.has_input body = true ->
  Gemini.generate env req userId sub limits g w2 =
  let contentHash := Gemini.generateFileHash (Gemini.material_of body) in
  match Gemini.getCachedMCQs contentHash w2 with
  | (Ret (Some l), w3) =>
      (Ret (Gemini.okResponse l true sub limits g (Quota.remaining limits)
              (Gemini.remaining g) (clock w3)), w3)
  | (Ret None, w3) =>
      match Gemini.provider_call env body w3 with
      | (Ret raw, w4) =>
          match Gemini.normalize raw with
          | inr l =>
              match Gemini.commit env userId contentHash l w4 with
              | (Ret _, w5) =>
                  (Ret (Gemini.okResponse l false sub limits g
                          (Quota.remaining limits - 1) (Gemini.remaining g - 1)
                          (clock w5)), w5)
              | (Throw e, w5) => (Throw e, w5)
              end
          | inl e => (Throw e, w4)
          end
      | (Throw e, w4) => (Throw e, w4)
      end
  | (Throw e, w3) => (Throw e, w3)
  end.
Proof.
  intros Hbody Hinput. unfold Gemini.generate. rewrite Hbody.
  unfold Gemini.has_input in Hinput.
  destruct (negb (truthy_str (Http.file_data body))
            && negb (truthy_str (Http.text_content body))); [done|].
  destruct (truthy_str (Http.file_data body)
            && negb (truthy_str (Http.mime_type body))); [done|].
  cbv zeta. unfold bind at 1.
  destruct (Gemini.getCachedMCQs _ w2) as [[[l|]|e] w3]; try done.
  unfold bind at 1.
  destruct (Gemini.provider_call env body w3) as [[raw|e] w4]; [|done].
  unfold bind at 1, lift.
  destruct (Gemini.normalize raw) as [e|l]; [done|].
  unfold ret at 1, bind at 1.
  by destruct (Gemini.commit _ _ _ _ w4) as [[[]|e] w5].
Qed.

(** C6. An authenticated, admitted request with a usable body whose
    content hash has an unexpired cache entry is answered 200 with
    [ok: true], [cached: true] and the cached list.  The provider is not
    called, no timer is awaited, the global counter is what the global
    check left (the stored count, or 0 after its monthly reset), and
    every usage row is what the snapshot read left: untouched, or reset
    when it was stale.  Neither counter is incremented. *)
Theorem cache_hit_costs_nothing env req w g userId sub limits w2 body entry :
  checked env req w g userId sub limits w2 ->
  Quota.allowed limits = true ->
  Http.json_body req = Some body ->
  Gemini.has_input body = true ->
  mcqCache w !! Gemini.generateFileHash (Gemini.material_of body) = Some entry ->
  clock w - timestamp entry < Gemini.CACHE_DURATION ->
  exists resp,
    Gemini.handler env req w = (Ret resp, w2) /\
    Http.status resp = 200 /\ Http.ok resp = true /\
    Http.cached resp = Some true /\
    Http.mcqs resp = Some (mcqs entry) /\
    Http.count resp = Some (Z.of_nat (List.length (mcqs entry))) /\
    fetches w2 = fetches w /\ timers w2 = timers w /\
    (globalUsageCount w2 = globalUsageCount w \/ globalUsageCount w2 = 0) /\
    (forall v, untouched_or_reset (clock w) (user_usage_stats w !! v)
                 (user_usage_stats w2 !! v)).
Proof.
  intros Hchecked Hallowed Hbody Hinput Hentry Hlive.
  pose proof Hchecked as (_ & w1 & Eg & _ & _ & _ & Elim).
  apply checkGlobalUsage_inv in Eg as (Ht1 & Hc1 & Hk1 & Hf1 & Hs1 & Hn1 & _).
  apply checkUserLimits_inv in Elim as (Hc2 & Hk2 & Hf2 & Hs2 & Hn2 & Ht2).
  assert (Ehit : Gemini.getCachedMCQs
                   (Gemini.generateFileHash (Gemini.material_of body)) w2
                 = (Ret (Some (mcqs entry)), w2)).
  { apply getCachedMCQs_hit; [by rewrite Hc2, Hc1|by rewrite Hk2, Hk1]. }
  eexists. split.
  - unfold Gemini.handler, try_catch.
    rewrite (serve_checked env req w g userId sub limits w2 Hchecked), Hallowed.
    rewrite (generate_with_input env req userId sub limits g body w2 Hbody Hinput).
    cbv zeta. rewrite Ehit. reflexivity.
  - cbn. split; [done|]. split; [done|]. split; [done|]. split; [done|].
    split; [done|]. split; [congruence|]. split; [congruence|]. split.
    + rewrite Hn2. destruct Hn1; auto.
    + intros v. rewrite <- Ht1, <- Hk1. apply Ht2.
Qed.

Lemma authenticate_no_user env req :
  Http.method req = "POST" ->
  token_user env req = None ->
  exists msg, Groq.authenticate env req = inl (Http.failure 401 msg).
Proof.
  intros Hmethod Htoken. unfold Groq.authenticate. rewrite Hmethod.
  change (negb ("POST" =? "POST")%string) with false. cbv iota.
  destruct (token_user_none_cases env req Htoken)
    as [Ha|[(h & Ha & Hs)|(h & Ha & Hs & Hu)]]; rewrite Ha, ?Hs, ?Hu; eauto.
Qed.

(** C5, as the code has it.  The Gemini handler checks the global
    ceiling first and authenticates second: a POST request whose bearer
    token is missing or not accepted is answered 503 when the ceiling is
    reached and 401 otherwise, and in both cases nothing but the global
    check has run (no usage row is touched, no request is sent).  The two
    Groq handlers have no global check and answer such a request 401. *)
Theorem global_check_precedes_auth env req w :
  Http.method req = "POST" ->
  token_user env req = None ->
  (exists g w1 resp,
     Gemini.checkGlobalUsage w = (Ret g, w1) /\
     Gemini.handler env req w = (Ret resp, w1) /\
     Http.ok resp = false /\
     Http.status resp = (if Gemini.allowed g then 401 else 503) /\
     user_usage_stats w1 = user_usage_stats w /\ fetches w1 = fetches w) /\
  (exists resp, Groq.handler env req w = (Ret resp, w) /\
                Http.ok resp = false /\ Http.status resp = 401) /\
  (exists resp, GroqQuota.handler env req w = (Ret resp, w) /\
                Http.ok resp = false /\ Http.status resp = 401).
Proof.
  intros Hmethod Htoken. split; [|split].
  - destruct (checkGlobalUsage_total w) as (g & count & reset & Eg & _ & _).
    exists g, (set_global w count reset).
    unfold Gemini.handler, try_catch, Gemini.serve. rewrite Hmethod.
    change (negb ("POST" =? "POST")%string) with false. cbv iota.
    unfold bind at 1. rewrite Eg.
    destruct (Gemini.allowed g); cbn [negb].
    + destruct (token_user_none_cases env req Htoken)
        as [Ha|[(h & Ha & Hs)|(h & Ha & Hs & Hu)]]; rewrite Ha, ?Hs, ?Hu;
        by eexists.
    + by eexists.
  - destruct (authenticate_no_user env req Hmethod Htoken) as (msg & E).
    unfold Groq.handler, try_catch, Groq.serve. rewrite E. by eexists.
  - destruct (authenticate_no_user env req Hmethod Htoken) as (msg & E).
    unfold GroqQuota.handler, try_catch, GroqQuota.serve. rewrite E. by eexists.
Qed.

(** C2.  The handler always answers, and a request that ends in an
    error response consumes no quota: the counter of every user, as a
    snapshot read then or later reports it, is what it would have been
    without the request (the one write such a request can make is the
    lazy reset of a counter already due, which every read applies), and
    a 429 leaves the table unchanged.  When the provider call throws, or
    no MCQ array can be extracted from what it returned, the answer is a
    500 and the usage table is the one the quota check left: usage is
    committed only after the normalisation has succeeded. *)
Theorem failure_commits_no_usage env req w :
  exists resp w',
    Gemini.handler env req w = (Ret resp, w') /\
    (Http.ok resp = false ->
     forall v,
       untouched_or_reset (clock w) (user_usage_stats w !! v)
         (user_usage_stats w' !! v) /\
       forall now, clock w <= now ->
         snapshot_view now (user_usage_stats w' !! v)
         = snapshot_view now (user_usage_stats w !! v)) /\
    (Http.status resp = 429 -> user_usage_stats w' = user_usage_stats w) /\
    (forall g userId sub limits body w2 w3 out w4 e,
       reaches_provider env req w g userId sub limits body w2 w3 ->
       Gemini.provider_call env body w3 = (out, w4) ->
       out = Throw e \/ (exists raw, out = Ret raw /\ Gemini.normalize raw = inl e) ->
       resp = Http.failure 500 (Gemini.userMessage env e) /\ w' = w4 /\
       Http.ok resp = false /\
       user_usage_stats w' = user_usage_stats w2).
Proof.
  destruct (gemini_handler_run env req w) as (resp & w' & Ehandler & Hrun).
  exists resp, w'. split; [done|]. split; [|split].
  - intros Hfail v.
    cut (untouched_or_reset (clock w) (user_usage_stats w !! v)
           (user_usage_stats w' !! v)).
    { intros H. split; [done|]. intros now Hnow.
      by apply (untouched_or_reset_view (clock w)). }
    assert (Hchecked : forall g userId sub limits w2,
               checked env req w g userId sub limits w2 ->
               untouched_or_reset (clock w) (user_usage_stats w !! v)
                 (user_usage_stats w2 !! v)).
    { intros g userId sub limits w2 (_ & w1 & Eg & _ & _ & _ & Elim).
      apply checkGlobalUsage_inv in Eg as (Ht1 & _ & Hk1 & _).
      apply checkUserLimits_inv in Elim as (_ & _ & _ & _ & _ & Ht2).
      rewrite <- Ht1, <- Hk1. apply Ht2. }
    assert (Hreach : forall g userId sub limits body w2 w3 out w4,
               reaches_provider env req w g userId sub limits body w2 w3 ->
               Gemini.provider_call env body w3 = (out, w4) ->
               untouched_or_reset (clock w) (user_usage_stats w !! v)
                 (user_usage_stats w4 !! v)).
    { intros g userId sub limits body w2 w3 out w4 (Hc & _ & _ & _ & Ecache) Ecall.
      apply getCachedMCQs_inv in Ecache as (Ht3 & _).
      apply provider_call_frame in Ecall as (Ht4 & _).
      rewrite Ht4, Ht3. eauto. }
    destruct Hrun; try (by left); eauto.
    + apply checkGlobalUsage_inv in H0 as (-> & _). by left.
    + apply checkGlobalUsage_inv in H0 as (-> & _). by left.
  - intros H429. destruct Hrun; try discriminate.
    destruct H as (_ & w1 & Eg & _ & _ & _ & Elim).
    apply checkGlobalUsage_inv in Eg as (<- & _).
    by rewrite (checkUserLimits_rejected _ _ _ _ _ _ Elim H0).
  - intros g userId sub limits body w2 w3 out w4 e Hreach Ecall Hout.
    pose proof Hreach as (Hc & Hallowed & Hbody & Hinput & Ecache).
    unfold Gemini.handler, try_catch in Ehandler.
    rewrite (serve_checked env req w g userId sub limits w2 Hc), Hallowed in Ehandler.
    rewrite (generate_with_input env req userId sub limits g body w2 Hbody Hinput)
      in Ehandler.
    cbv zeta in Ehandler. rewrite Ecache, Ecall in Ehandler.
    apply getCachedMCQs_inv in Ecache as (Ht3 & _).
    apply provider_call_frame in Ecall as (Ht4 & _).
    destruct Hout as [->|(raw & -> & Enorm)]; [|rewrite Enorm in Ehandler];
      injection Ehandler as <- <-; repeat split; congruence.
Qed.

(** ** The Groq handlers *)

(** The handler once the client has returned a completion: the response
    is decided by the normaliser alone. *)
Lemma groq_handler_after_call env req w userId body c w1 :
  Groq.authenticate env req = inr userId ->
  Http.json_body req = Some body ->
  Groq.no_material body = false ->
  Groq.callGroqWithText env (Groq.material_of body)
    (Groq.prompt (default 20 (Http.mcq_count body))) 3 w = (Ret (Some c), w1) ->
  Groq.handler env req w =
  (Ret match Groq.normalize env (Groq.content c) with
       | inr l => Groq.okResponse l (Groq.usage c) (clock w1)
       | inl e => Groq.errorResponse env e
       end, w1).
Proof.
  intros Hauth Hbody Hmat Ecall.
  unfold Groq.handler, try_catch, Groq.serve. rewrite Hauth, Hbody, Hmat.
  cbv zeta. unfold bind at 1. rewrite Ecall.
  unfold bind at 1, lift.
  by destruct (Groq.normalize env (Groq.content c)).
Qed.

Lemma authenticate_failure env req r :
  Groq.authenticate env req = inl r -> Http.ok r = false.
Proof.
  unfold Groq.authenticate. repeat break_match; by intros [= <-].
Qed.

(** An [ok: true] answer of the Groq handler carries what the normaliser
    returned for the content of the completion that the client returned
    in this request. *)
Lemma groq_handler_ok env req w :
  exists resp w',
    Groq.handler env req w = (Ret resp, w') /\
    (Http.ok resp = true ->
     exists body c l,
       Http.json_body req = Some body /\
       Groq.callGroqWithText env (Groq.material_of body)
         (Groq.prompt (default 20 (Http.mcq_count body))) 3 w = (Ret (Some c), w') /\
       Groq.normalize env (Groq.content c) = inr l /\
       Http.mcqs resp = Some l /\
       Http.count resp = Some (Z.of_nat (List.length l))).
Proof.
  unfold Groq.handler, try_catch, Groq.serve.
  destruct (Groq.authenticate env req) as [r|userId] eqn:Hauth.
  { eexists _, _. split; [reflexivity|].
    intros Hok. by rewrite (authenticate_failure _ _ _ Hauth) in Hok. }
  destruct (Http.json_body req) as [body|]; [|by eexists _, _].
  destruct (Groq.no_material body); [by eexists _, _|].
  cbv zeta. unfold bind at 1.
  destruct (Groq.callGroqWithText _ _ _ _ w) as [[[c|]|e] w1] eqn:Ecall;
    try by eexists _, _.
  unfold bind at 1, lift.
  destruct (Groq.normalize env (Groq.content c)) as [e|l] eqn:Enorm;
    [by eexists _, _|].
  eexists _, _. split; [reflexivity|]. intros _. by exists body, c, l.
Qed.

Lemma obj_lookup_values props k v :
  obj_lookup props k = Some v -> In v (values props).
Proof.
  induction props as [|[k' v'] props IH]; [done|]. cbn.
  destruct (String.eqb k k'); [intros [= ->]; by left|].
  intros H. right. by apply IH.
Qed.

Lemma first_keyed_array_values props keys l :
  Groq.first_keyed_array props keys = Some l -> In (JArr l) (values props).
Proof.
  induction keys as [|k keys IH]; [done|]. cbn.
  destruct (obj_lookup props k) as [v|] eqn:E; [|done].
  destruct v; try done. intros [= ->]. by eapply obj_lookup_values.
Qed.

Lemma first_array_In vals l :
  Groq.first_array vals = Some l -> In (JArr l) vals.
Proof.
  induction vals as [|v vals IH]; [done|]. cbn.
  destruct v; try (intros H; right; by apply IH).
  intros [= ->]. by left.
Qed.

(** The wrapper search finds nothing in an object whose arrays are all
    empty. *)
Lemma parse_direct_empty_wrapper env raw props :
  JSON_parse raw = Some (JObj props) ->
  arrays_empty (values props) ->
  Groq.parse_direct env (JStr raw)
  = inl (Groq.raw_error "Could not find MCQ array in JSON object response" (JStr raw)).
Proof.
  intros Hparse Hempty. unfold Groq.parse_direct, JSON_parse_value.
  cbn [ToString]. rewrite Hparse.
  assert (default [] (Groq.first_keyed_array props Groq.possibleKeys) = []) as ->.
  { destruct (Groq.first_keyed_array props Groq.possibleKeys) as [l|] eqn:E; [|done].
    apply first_keyed_array_values in E. by apply Hempty. }
  cbn [Groq.is_nil].
  assert (default [] (Groq.first_array (values props)) = []) as ->.
  { destruct (Groq.first_array (values props)) as [l|] eqn:E; [|done].
    apply first_array_In in E. by apply Hempty. }
  done.
Qed.

Lemma normalize_empty_wrapper env raw props :
  JSON_parse raw = Some (JObj props) ->
  arrays_empty (values props) ->
  (no_rescue raw ->
   Groq.normalize env (JStr raw)
   = inl (Groq.raw_error "Groq did not return valid JSON" (JStr raw))) /\
  (forall f l,
     Regex.re_match raw Regex.array_pattern = Some f ->
     JSON_parse (Regex.whole f) = Some (JArr l) ->
     Groq.normalize env (JStr raw) = inr l).
Proof.
  intros Hparse Hempty. unfold Groq.normalize.
  rewrite (parse_direct_empty_wrapper env raw props Hparse Hempty).
  unfold Groq.parse_fallback, match_js, no_rescue. split.
  - destruct (Regex.re_match raw Regex.array_pattern) as [f|]; [|done].
    by intros ->.
  - intros f l -> ->. done.
Qed.

Lemma completion_content_missing data :
  nullish (Groq.message_content data) = true ->
  Groq.completion_content data = JStr "[]".
Proof.
  unfold Groq.completion_content.
  destruct (Groq.message_content data) as [[]|]; try done.
Qed.

(** A first answer that is successful and has a JSON envelope ends the
    call at once. *)
Lemma groq_first_answer env r after w st text data :
  next_answer env w = Responded st text ->
  ok_status st = true ->
  JSON_parse text = Some data -> data <> JNull ->
  Groq.retry_loop env r 3 1 3 after w
  = (Ret (Some {| Groq.content := Groq.completion_content data;
                  Groq.usage := Groq.nullish_default (get data (Name "usage"))
                                  (JObj []) |}), log_fetch w r).
Proof.
  intros Hnext Hok Hparse Hnull. rewrite groq_three_passes, Hnext.
  unfold groq_answer. rewrite Hok, Hparse. by destruct data.
Qed.

(** Incrementing a counter that is not due for a reset adds one. *)
Lemma increment_upload_count_fresh now userId (t : gmap string Sql.UsageRow) row :
  t !! userId = Some row ->
  Sql.reset_due now (Some row) = false ->
  Sql.uploads_today <$> (Sql.increment_upload_count now userId t !! userId)
  = Some (Some (snapshot_uploads (Some row) + 1)).
Proof.
  intros Hrow Hfresh. unfold Sql.increment_upload_count, Sql.update_row.
  rewrite Hrow, Hfresh, lookup_insert_eq. done.
Qed.

(** The quota handler once its checks have passed and the client has
    returned a completion. *)
Lemma quota_handler_after_call env req w userId sub limits w2 body c w3 :
  Groq.authenticate env req = inr userId ->
  Quota.getUserSubscription env userId w = (Ret sub, w) ->
  Quota.checkUserLimits env userId sub w = (Ret limits, w2) ->
  Quota.allowed limits = true ->
  Http.json_body req = Some body ->
  Groq.no_material body = false ->
  GroqQuota.callGroqWithText env (Groq.material_of body) GroqQuota.staticPrompt 3 w2
  = (Ret (Some c), w3) ->
  GroqQuota.handler env req w =
  match Groq.normalize env (Groq.content c) with
  | inr l =>
      let w4 := (Quota.incrementUserUsage env userId w3).2 in
      (Ret (Http.with_user_limits (Groq.okResponse l (Groq.usage c) (clock w4))
              {| Http.subscription := sub; Http.limit_type := None;
                 Http.remaining := Quota.remaining limits - 1;
                 Http.reset_time := Quota.resetTime limits |}), w4)
  | inl e => (Ret (Groq.errorResponse env e), w3)
  end.
Proof.
  intros Hauth Esub Elim Hallowed Hbody Hmat Ecall.
  unfold GroqQuota.handler, try_catch, GroqQuota.serve. rewrite Hauth.
  unfold bind at 1. rewrite Esub. unfold bind at 1. rewrite Elim, Hallowed.
  cbn [negb]. rewrite Hbody, Hmat. cbv zeta.
  unfold bind at 1. rewrite Ecall.
  unfold bind at 1, lift.
  destruct (Groq.normalize env (Groq.content c)); [done|].
  unfold ret at 1, bind at 1.
  destruct (incrementUserUsage_total env userId w3) as (t & ->). done.
Qed.

(** C9. When the provider's successful response has a JSON envelope
    without the content field, the client returns the literal string of
    an empty array and the request ends 200 with [ok: true], an empty
    [mcqs] and [count = 0].  In the handler with the quota, the upload is
    recorded all the same: [incrementUserUsage] runs, and with a working
    database and a usage row for the user, [uploads_today] ends one above
    the snapshot the quota check read. *)
Theorem missing_content_yields_empty_result env req w userId body st text data :
  Groq.authenticate env req = inr userId ->
  Http.json_body req = Some body ->
  Groq.no_material body = false ->
  truthy_str (GROQ_API_KEY env) = true ->
  next_answer env w = Responded st text ->
  ok_status st = true ->
  JSON_parse text = Some data -> data <> JNull ->
  nullish (Groq.message_content data) = true ->
  Groq.completion_content data = JStr "[]" /\
  (exists resp w',
     Groq.handler env req w = (Ret resp, w') /\
     Http.status resp = 200 /\ Http.ok resp = true /\
     Http.mcqs resp = Some [] /\ Http.count resp = Some 0) /\
  (forall sub limits w2,
     Quota.getUserSubscription env userId w = (Ret sub, w) ->
     Quota.checkUserLimits env userId sub w = (Ret limits, w2) ->
     Quota.allowed limits = true ->
     exists resp w3 w',
       GroqQuota.handler env req w = (Ret resp, w') /\
       Http.status resp = 200 /\ Http.ok resp = true /\
       Http.mcqs resp = Some [] /\ Http.count resp = Some 0 /\
       fetches w3 = fetches w ++ [Groq.request_for (Groq.material_of body)
                                    GroqQuota.staticPrompt] /\
       user_usage_stats w3 = user_usage_stats w2 /\
       Quota.incrementUserUsage env userId w3 = (Ret tt, w') /\
       (db_works env ->
        forall row, user_usage_stats w !! userId = Some row ->
        exists usage,
          Quota.getUserUsageStatsFromDB env userId w = (Ret usage, w2) /\
          Sql.uploads_today <$> (user_usage_stats w' !! userId)
          = Some (Some (Quota.uploads_today usage + 1)))).
Proof.
  intros Hauth Hbody Hmat Hkey Hnext Hok Hparse Hnull Hmissing.
  pose proof (completion_content_missing data Hmissing) as Hcontent.
  assert (Hnorm : Groq.normalize env (JStr "[]") = inr []) by reflexivity.
  split; [done|]. split.
  - eexists _, _. split.
    + eapply groq_handler_after_call; try done.
      unfold Groq.callGroqWithText. rewrite Hkey.
      by eapply groq_first_answer.
    + cbn [Groq.content Groq.usage]. rewrite Hcontent, Hnorm. done.
  - intros sub limits w2 Esub Elim Hallowed.
    pose proof Elim as Hinv.
    apply checkUserLimits_inv in Hinv as (_ & Hk2 & Hf2 & _).
    assert (Ecall : GroqQuota.callGroqWithText env (Groq.material_of body)
                      GroqQuota.staticPrompt 3 w2
                    = (Ret (Some {| Groq.content := Groq.completion_content data;
                                    Groq.usage := Groq.nullish_default
                                                    (get data (Name "usage")) (JObj []) |}),
                       log_fetch w2 (Groq.request_for (Groq.material_of body)
                                       GroqQuota.staticPrompt))).
    { unfold GroqQuota.callGroqWithText. rewrite Hkey.
      eapply groq_first_answer; try done.
      unfold next_answer. by rewrite Hf2. }
    pose proof (quota_handler_after_call env req w userId sub limits w2 body _ _
                  Hauth Esub Elim Hallowed Hbody Hmat Ecall) as Ehandler.
    cbn [Groq.content Groq.usage] in Ehandler.
    rewrite Hcontent, Hnorm in Ehandler. cbv zeta in Ehandler.
    set (w3 := log_fetch w2 _) in *.
    eexists _, w3, (Quota.incrementUserUsage env userId w3).2.
    split; [exact Ehandler|].
    split; [done|]. split; [done|]. split; [done|]. split; [done|].
    split; [cbn; by rewrite Hf2|]. split; [done|]. split.
    { destruct (incrementUserUsage_total env userId w3) as (t & ->). done. }
    intros Hdb row Hrow.
    destruct (getUserUsageStatsFromDB_works env userId w (Hdb _)) as (usage & Eread & Hup).
    exists usage.
    assert (w2 = set_usage w (Sql.get_user_usage_stats (clock w) userId
                                (user_usage_stats w)).2) as Hw2.
    { unfold Quota.checkUserLimits, bind, ret in Elim. rewrite Eread in Elim.
      by injection Elim as _ <-. }
    split; [by rewrite Hw2|].
    rewrite incrementUserUsage_works by apply Hdb. cbn [snd user_usage_stats set_usage].
    change (user_usage_stats w3) with (user_usage_stats w2).
    change (clock w3) with (clock w2). rewrite Hk2, Hup, Hw2.
    cbn [user_usage_stats set_usage].
    destruct ((Sql.get_user_usage_stats (clock w) userId (user_usage_stats w)).2
                !! userId) as [row2|] eqn:Erow2.
    + apply increment_upload_count_fresh; [done|].
      by eapply get_user_usage_stats_fresh.
    + pose proof (get_user_usage_stats_rows (clock w) userId (user_usage_stats w) userId)
        as [Hsame|[_ Hreset]]; congruence.
Qed.

(** C10, as the code has it.  With the provider's content [raw]: for the
    text of an empty array the request ends 200 with an empty list and
    count 0.  For the text of an object whose array values are all empty
    the wrapper search finds nothing; the request then ends 500 when the
    fallback pattern finds no bracketed array of objects in the text, or
    one that does not parse, and it ends 200 with the array the fallback
    parsed otherwise. *)
Theorem empty_wrapper_rejected_unless_rescued env req w userId body c w1 raw :
  Groq.authenticate env req = inr userId ->
  Http.json_body req = Some body ->
  Groq.no_material body = false ->
  Groq.callGroqWithText env (Groq.material_of body)
    (Groq.prompt (default 20 (Http.mcq_count body))) 3 w = (Ret (Some c), w1) ->
  Groq.content c = JStr raw ->
  (raw = "[]" ->
   exists resp,
     Groq.handler env req w = (Ret resp, w1) /\
     Http.status resp = 200 /\ Http.ok resp = true /\
     Http.mcqs resp = Some [] /\ Http.count resp = Some 0) /\
  (forall props,
     JSON_parse raw = Some (JObj props) ->
     arrays_empty (values props) ->
     Groq.parse_direct env (JStr raw)
     = inl (Groq.raw_error "Could not find MCQ array in JSON object response"
              (JStr raw)) /\
     (no_rescue raw ->
      exists resp,
        Groq.handler env req w = (Ret resp, w1) /\
        Http.status resp = 500 /\ Http.ok resp = false /\
        Http.mcqs resp = None) /\
     (forall f l,
        Regex.re_match raw Regex.array_pattern = Some f ->
        JSON_parse (Regex.whole f) = Some (JArr l) ->
        exists resp,
          Groq.handler env req w = (Ret resp, w1) /\
          Http.status resp = 200 /\ Http.ok resp = true /\
          Http.mcqs resp = Some l)).
Proof.
  intros Hauth Hbody Hmat Ecall Hraw.
  pose proof (groq_handler_after_call env req w userId body c w1
                Hauth Hbody Hmat Ecall) as Ehandler.
  rewrite Hraw in Ehandler. split.
  - intros ->. eexists. split; [exact Ehandler|].
    by replace (Groq.normalize env (JStr "[]")) with (@inr Exn _ (@nil json))
      by reflexivity.
  - intros props Hparse Hempty.
    split; [by apply (parse_direct_empty_wrapper env raw props)|].
    destruct (normalize_empty_wrapper env raw props Hparse Hempty) as [Hrej Hacc].
    split.
    + intros Hno. eexists. split; [exact Ehandler|]. by rewrite Hrej.
    + intros f l Hf Hl. eexists. split; [exact Ehandler|].
      by rewrite (Hacc f l Hf Hl).
Qed.

(** Any JSON array in the provider's text is taken whole by both
    normalisers. *)
Lemma normalizers_take_any_array env raw l :
  JSON_parse raw = Some (JArr l) ->
  Gemini.normalize (Some (JStr raw)) = inr l /\
  Groq.normalize env (JStr raw) = inr l.
Proof.
  intros Hparse. split.
  - unfold Gemini.normalize, Gemini.extract, JSON_parse_js. cbn [ToString_js ToString].
    by rewrite Hparse.
  - unfold Groq.normalize, Groq.parse_direct, JSON_parse_value. cbn [ToString].
    by rewrite Hparse.
Qed.

Lemma getCachedMCQs_some_inv fileHash w l w' :
  Gemini.getCachedMCQs fileHash w = (Ret (Some l), w') ->
  exists entry, mcqCache w !! fileHash = Some entry /\ mcqs entry = l.
Proof.
  unfold Gemini.getCachedMCQs. monad_unfold.
  destruct (mcqCache w !! fileHash) as [entry|]; [|done].
  destruct (clock w - timestamp entry <? Gemini.CACHE_DURATION); [|done].
  intros [= <- _]. by exists entry.
Qed.

Lemma gemini_normalize_extract raw l :
  Gemini.normalize raw = inr l -> Gemini.extract raw = inr (JArr l).
Proof.
  unfold Gemini.normalize. destruct (Gemini.extract raw) as [e|[]]; try done.
  by intros [= ->].
Qed.

(** C4, as the code has it.  Neither handler validates the elements of
    the list it returns.  An [ok: true] response carries the array that
    the normaliser extracted, whole, and [count] is its length: for the
    Gemini handler the cached list or the array extracted from what the
    provider returned, for the Groq handler the array extracted from the
    content of the completion its client returned for this request.  The one check is that the value is an array:
    whatever JSON array the provider's text parses to is accepted as it
    is, with no element dropped and no batch rejected for its options or
    its answer index. *)
Theorem ok_response_is_not_validated env req w :
  (exists resp w',
     Gemini.handler env req w = (Ret resp, w') /\
     (Http.ok resp = true ->
      exists l,
        Http.mcqs resp = Some l /\
        Http.count resp = Some (Z.of_nat (List.length l)) /\
        ((Http.cached resp = Some true /\
          exists body entry,
            Http.json_body req = Some body /\
            mcqCache w !! Gemini.generateFileHash (Gemini.material_of body)
            = Some entry /\
            l = mcqs entry) \/
         (Http.cached resp = Some false /\
          exists g userId sub limits body w2 w3 raw w4,
            reaches_provider env req w g userId sub limits body w2 w3 /\
            Gemini.provider_call env body w3 = (Ret raw, w4) /\
            Gemini.extract raw = inr (JArr l))))) /\
  (exists resp w',
     Groq.handler env req w = (Ret resp, w') /\
     (Http.ok resp = true ->
      exists body c l,
        Http.json_body req = Some body /\
        Groq.callGroqWithText env (Groq.material_of body)
          (Groq.prompt (default 20 (Http.mcq_count body))) 3 w = (Ret (Some c), w') /\
        Groq.normalize env (Groq.content c) = inr l /\
        Http.mcqs resp = Some l /\
        Http.count resp = Some (Z.of_nat (List.length l)))) /\
  (forall raw l,
     JSON_parse raw = Some (JArr l) ->
     Gemini.normalize (Some (JStr raw)) = inr l /\
     Groq.normalize env (JStr raw) = inr l).
Proof.
  split; [|split; [apply groq_handler_ok|apply normalizers_take_any_array]].
  destruct (gemini_handler_run env req w) as (resp & w' & Ehandler & Hrun).
  exists resp, w'. split; [done|]. intros Hok.
  destruct Hrun; try discriminate.
  - exists l. split; [done|]. split; [done|]. left. split; [done|].
    match goal with H : Gemini.getCachedMCQs _ _ = _ |- _ =>
      apply getCachedMCQs_some_inv in H as (entry & Hentry & <-) end.
    exists body, entry. split; [done|]. split; [|done].
    match goal with H : checked _ _ _ _ _ _ _ _ |- _ =>
      destruct H as (_ & w1 & Eg & _ & _ & _ & Elim) end.
    apply checkGlobalUsage_inv in Eg as (_ & Hc1 & _).
    apply checkUserLimits_inv in Elim as (Hc2 & _).
    by rewrite <- Hc1, <- Hc2.
  - exists l. split; [done|]. split; [done|]. right. split; [done|].
    exists g, userId, sub, limits, body, w2, w3, raw, w4.
    split; [done|]. split; [done|]. by apply gemini_normalize_extract.
Qed.

(** ** The claims on concrete requests *)

(** The lazy reset at work in a failing request.  The user's counter is
    stale (3 uploads in a window that has ended) and the provider
    answers 400.  The request gets as far as the provider, the provider
    call throws and the handler answers 500.  The stored column goes
    from 3 to 0, the reset that was due, and the counter a read reports
    is 0 before and after. *)
Lemma stale_counter_reset_by_failing_request :
  reaches_provider rejecting (post bearer notes) stale_world open_global
    "user-1" Quota.FREE reset_limits (text_body notes) stale_checked stale_checked /\
  (exists e, Gemini.provider_call rejecting (text_body notes) stale_checked
             = (Throw e, stale_called)) /\
  (exists resp,
     Gemini.handler rejecting (post bearer notes) stale_world = (Ret resp, stale_called) /\
     Http.ok resp = false /\ Http.status resp = 500) /\
  Sql.uploads_today <$> (user_usage_stats stale_world !! "user-1") = Some (Some 3) /\
  Sql.uploads_today <$> (user_usage_stats stale_called !! "user-1") = Some (Some 0) /\
  snapshot_view (clock stale_world) (user_usage_stats stale_world !! "user-1") = 0 /\
  snapshot_view (clock stale_world) (user_usage_stats stale_called !! "user-1") = 0.
Proof.
  split.
  { split; [|repeat split; vm_compute; reflexivity].
    split; [reflexivity|]. exists stale_world.
    repeat split; vm_compute; reflexivity. }
  split; [eexists; vm_compute; reflexivity|].
  split; [eexists; split; [vm_compute; reflexivity|split; reflexivity]|].
  repeat split; vm_compute; reflexivity.
Qed.

(** C1, counterexample.  The user's stored counter is 5, the limit of
    the free plan, in a window that has not ended, and the usage RPC
    rejects: the check admits the user with five uploads remaining. *)
Lemma exhausted_user_is_admitted_when_the_read_fails :
  Sql.uploads_today <$> (user_usage_stats exhausted_world !! "user-1")
  = Some (Some 5) /\
  Sql.reset_due (clock exhausted_world) (user_usage_stats exhausted_world !! "user-1")
  = false /\
  Quota.daily_limit Quota.FREE = 5 /\
  Quota.checkUserLimits Samples.unreadable "user-1" Quota.FREE exhausted_world
  = (Ret {| Quota.allowed := true; Quota.limitType := None; Quota.remaining := 5;
            Quota.resetTime := t0 + Sql.DAY_MS |}, exhausted_world).
Proof. repeat split; vm_compute; reflexivity. Qed.

(** C4, counterexample.  The provider returns an array whose one
    question has two options and answer index 7.  Both handlers answer
    [ok: true] with that question in [mcqs]. *)
Lemma malformed_mcq_is_served :
  valid_mcq malformed_mcq = false /\
  four_options malformed_mcq = false /\ answer_in_range malformed_mcq = false /\
  (exists resp w',
     Gemini.handler (answering (gemini_envelope malformed_mcqs)) (post bearer notes)
       fresh_world = (Ret resp, w') /\
     Http.ok resp = true /\ Http.mcqs resp = Some [malformed_mcq]) /\
  (exists resp w',
     Groq.handler (answering (groq_envelope malformed_mcqs)) (post bearer notes)
       fresh_world = (Ret resp, w') /\
     Http.ok resp = true /\ Http.mcqs resp = Some [malformed_mcq]).
Proof.
  split; [reflexivity|]. split; [reflexivity|]. split; [reflexivity|].
  split; eexists _, _; (split; [vm_compute; reflexivity|split; reflexivity]).
Qed.

(** C5, counterexample.  The global ceiling is reached and the request
    has no Authorization header: the Gemini handler answers 503, not
    401. *)
Lemma unauthenticated_at_ceiling_gets_503 :
  token_user rejecting (post None notes) = None /\
  exists resp w',
    Gemini.handler rejecting (post None notes) full_world = (Ret resp, w') /\
    Http.status resp = 503.
Proof.
  split; [reflexivity|].
  eexists _, _. split; [vm_compute; reflexivity|reflexivity].
Qed.

(** C10, counterexample.  The provider's content is a wrapper object
    whose only array value is empty; a string value of it holds a
    bracketed array.  The wrapper search finds nothing, the fallback
    pattern finds the bracketed array, and the request ends 200 with
    one element. *)
Lemma wrapper_with_empty_array_is_accepted :
  JSON_parse rescued_wrapper
  = Some (JObj [("mcqs", JArr []); ("note", JStr "[{}]")]) /\
  arrays_empty (values [("mcqs", JArr []); ("note", JStr "[{}]")]) /\
  exists resp w',
    Groq.handler (answering (groq_envelope rescued_wrapper)) (post bearer notes)
      fresh_world = (Ret resp, w') /\
    Http.status resp = 200 /\ Http.ok resp = true /\
    Http.mcqs resp = Some [JObj []] /\ Http.count resp = Some 1.
Proof.
  split; [vm_compute; reflexivity|]. split.
  - intros l [H|[H|[]]]; [by injection H|discriminate].
  - eexists _, _. split; [vm_compute; reflexivity|]. repeat split.
Qed.

(** *** Witnesses *)

(** At the limit of the free plan, with a working database. *)
Lemma checkUserLimits_boundary_witness :
  let stored :=
    snapshot_view (clock exhausted_world)
      (user_usage_stats exhausted_world !! "user-1") in
  exists limits w',
    Quota.checkUserLimits rejecting "user-1" Quota.FREE exhausted_world
    = (Ret limits, w') /\
    Quota.daily_limit Quota.FREE = 5 /\ Quota.daily_limit Quota.PRO = 50 /\
    (Quota.allowed limits = false <-> Quota.daily_limit Quota.FREE <= stored) /\
    (Quota.allowed limits = true ->
     Quota.remaining limits = Quota.daily_limit Quota.FREE - stored) /\
    (stored = Quota.daily_limit Quota.FREE - 1 ->
     Quota.allowed limits = true /\ Quota.remaining limits = 1) /\
    (stored = Quota.daily_limit Quota.FREE -> Quota.allowed limits = false) /\
    (Quota.allowed limits = false ->
     Quota.remaining limits = 0 /\ Quota.limitType limits = Some "daily" /\
     w' = exhausted_world /\
     exists row,
       user_usage_stats exhausted_world !! "user-1" = Some row /\
       Sql.uploads_today row = Some stored /\
       Sql.daily_reset_at row = Some (Quota.resetTime limits) /\
       clock exhausted_world < Quota.resetTime limits).
Proof.
  apply (checkUserLimits_boundary rejecting "user-1" Quota.FREE exhausted_world).
  reflexivity.
Defined.

(** The two sides of the boundary evaluated: four uploads admit with one
    remaining, five reject until the stored reset time. *)
Example checkUserLimits_at_four_and_five :
  Quota.checkUserLimits rejecting "user-1" Quota.FREE (world 0 (usage_row 4 midnight) ∅)
  = (Ret {| Quota.allowed := true; Quota.limitType := None; Quota.remaining := 1;
            Quota.resetTime := midnight |}, world 0 (usage_row 4 midnight) ∅) /\
  Quota.checkUserLimits rejecting "user-1" Quota.FREE exhausted_world
  = (Ret {| Quota.allowed := false; Quota.limitType := Some "daily";
            Quota.remaining := 0; Quota.resetTime := midnight |}, exhausted_world).
Proof. split; vm_compute; reflexivity. Qed.

Lemma client_retries_4xx_witness :
  (exists out w',
     Groq.callGroqWithText rejecting notes "prompt" 3 fresh_world = (out, w') /\
     exists more rest,
       fetches w' = fetches fresh_world ++ Groq.request_for notes "prompt"
                                 :: Groq.request_for notes "prompt" :: more /\
       timers w' = timers fresh_world ++ 2000 :: rest) /\
  (exists out w',
     Gemini.callGeminiWithText rejecting notes "prompt" 3 fresh_world = (out, w') /\
     exists r more rest,
       fetches w' = fetches fresh_world ++ r :: r :: more /\
       timers w' = timers fresh_world ++ 2000 :: rest).
Proof.
  apply (client_retries_4xx rejecting notes "prompt" fresh_world 400 "bad request");
    [reflexivity | lia | reflexivity].
Defined.

(** The same call evaluated: three requests, waits of 2000 and 4000 ms,
    and the error of the third answer with the provider's body. *)
Example rejecting_provider_is_called_three_times :
  exists w',
    Groq.callGroqWithText rejecting notes "prompt" 3 fresh_world
    = (Throw {| message := "Groq API failed: bad request";
                rawResponse := Some (JStr "bad request");
                statusCode := Some 400 |}, w') /\
    List.length (fetches w') = 3%nat /\ timers w' = [2000; 4000].
Proof. eexists. split; [vm_compute; reflexivity|split; reflexivity]. Qed.

Lemma global_check_precedes_auth_witness :
  (exists g w1 resp,
     Gemini.checkGlobalUsage fresh_world = (Ret g, w1) /\
     Gemini.handler rejecting (post None notes) fresh_world = (Ret resp, w1) /\
     Http.ok resp = false /\
     Http.status resp = (if Gemini.allowed g then 401 else 503) /\
     user_usage_stats w1 = user_usage_stats fresh_world /\
     fetches w1 = fetches fresh_world) /\
  (exists resp, Groq.handler rejecting (post None notes) fresh_world
                = (Ret resp, fresh_world) /\
                Http.ok resp = false /\ Http.status resp = 401) /\
  (exists resp, GroqQuota.handler rejecting (post None notes) fresh_world
                = (Ret resp, fresh_world) /\
                Http.ok resp = false /\ Http.status resp = 401).
Proof.
  apply (global_check_precedes_auth rejecting (post None notes) fresh_world);
    reflexivity.
Defined.

Lemma cached_world_checked :
  checked rejecting (post bearer notes) cached_world open_global "user-1"
    Quota.FREE admitted_limits cached_world.
Proof.
  split; [reflexivity|]. exists cached_world.
  repeat split; vm_compute; reflexivity.
Defined.

Lemma cache_hit_costs_nothing_witness :
  exists resp,
    Gemini.handler rejecting (post bearer notes) cached_world = (Ret resp, cached_world) /\
    Http.status resp = 200 /\ Http.ok resp = true /\
    Http.cached resp = Some true /\
    Http.mcqs resp = Some [good_mcq] /\
    Http.count resp = Some 1 /\
    fetches cached_world = fetches cached_world /\
    timers cached_world = timers cached_world /\
    (globalUsageCount cached_world = globalUsageCount cached_world \/
     globalUsageCount cached_world = 0) /\
    (forall v, untouched_or_reset (clock cached_world)
                 (user_usage_stats cached_world !! v)
                 (user_usage_stats cached_world !! v)).
Proof.
  apply (cache_hit_costs_nothing rejecting (post bearer notes) cached_world
           open_global "user-1" Quota.FREE admitted_limits cached_world
           (text_body notes) {| mcqs := [good_mcq]; timestamp := t0 - 60000 |});
    [apply cached_world_checked | reflexivity | reflexivity | reflexivity
    | vm_compute; reflexivity | vm_compute; reflexivity].
Defined.

Lemma retry_three_attempts_witness :
  (exists w',
     Groq.callGroqWithText (recovering (groq_envelope good_mcqs)) notes "prompt" 3
       fresh_world
     = (Ret (Some {| Groq.content := JStr good_mcqs;
                     Groq.usage := JObj [("completion_tokens", JNum 12 0)] |}), w') /\
     fetches w' = [Groq.request_for notes "prompt"; Groq.request_for notes "prompt";
                   Groq.request_for notes "prompt"] /\
     timers w' = [2000; 4000]) /\
  (exists w',
     Gemini.callGeminiWithText (recovering (gemini_envelope good_mcqs)) notes
       "prompt" 3 fresh_world
     = (Ret (Some (JStr good_mcqs)), w') /\
     List.length (fetches w') = 3%nat /\ timers w' = [2000; 4000]) /\
  (exists e w',
     Groq.callGroqWithText down notes "prompt" 3 fresh_world = (Throw e, w') /\
     message e = "Groq API failed: overloaded" /\ statusCode e = Some 500 /\
     fetches w' = [Groq.request_for notes "prompt"; Groq.request_for notes "prompt";
                   Groq.request_for notes "prompt"] /\
     timers w' = [2000; 4000]) /\
  (exists w',
     Gemini.callGeminiWithText down notes "prompt" 3 fresh_world
     = (Throw (Error "Gemini API failed: overloaded"), w') /\
     List.length (fetches w') = 3%nat /\ timers w' = [2000; 4000]).
Proof.
  pose proof (retry_three_attempts (recovering (groq_envelope good_mcqs)) notes
                "prompt" fresh_world "overloaded" "overloaded"
                (groq_envelope good_mcqs) eq_refl eq_refl eq_refl) as Hup.
  pose proof (retry_three_attempts (recovering (gemini_envelope good_mcqs)) notes
                "prompt" fresh_world "overloaded" "overloaded"
                (gemini_envelope good_mcqs) eq_refl eq_refl eq_refl) as Hgem.
  pose proof (retry_three_attempts down notes "prompt" fresh_world "overloaded"
                "overloaded" "overloaded" eq_refl eq_refl eq_refl) as Hdown.
  cbv zeta in Hup, Hgem, Hdown.
  destruct Hup as (Hok & _ & _ & _ & Hlog & _).
  destruct Hgem as (_ & _ & Htext & _ & Hlog2 & _).
  destruct Hdown as (_ & _ & _ & Hthrow & Hlog' & _).
  split; [|split; [|split]].
  - destruct (Hok (default JNull (JSON_parse (groq_envelope good_mcqs))))
      as [Egroq _]; [reflexivity | vm_compute; reflexivity | vm_compute; discriminate |].
    eexists. split; [exact Egroq|].
    destruct (Hlog (Groq.request_for notes "prompt")) as [-> ->]. by split.
  - eexists. split.
    + apply (Htext (default JNull (JSON_parse (gemini_envelope good_mcqs))));
        [reflexivity | vm_compute; reflexivity | vm_compute; discriminate].
    + match goal with |- context [fetches ?w3] =>
        destruct (Hlog2 {| url := Gemini.GEMINI_URL;
                           content := "prompt" +:+ nl +:+ nl +:+ "STUDY MATERIAL:"
                                      +:+ nl +:+ notes;
                           inlineData := None |}) as [-> ->] end.
      by split.
  - destruct (Hthrow eq_refl) as [(e & Egroq & Hmsg & Hcode) _].
    exists e. eexists. split; [exact Egroq|]. split; [exact Hmsg|].
    split; [exact Hcode|].
    destruct (Hlog' (Groq.request_for notes "prompt")) as [-> ->]. by split.
  - destruct (Hthrow eq_refl) as [_ Egem].
    eexists. split; [exact Egem|].
    destruct (Hlog' {| url := Gemini.GEMINI_URL;
                       content := "prompt" +:+ nl +:+ nl +:+ "STUDY MATERIAL:"
                                  +:+ nl +:+ notes;
                       inlineData := None |}) as [-> ->].
    by split.
Defined.

Lemma cache_round_trip_witness :
  exists w1,
    Gemini.cacheMCQs "22ci" [good_mcq] fresh_world = (Ret tt, w1) /\
    Gemini.getCachedMCQs "22ci" (set_clock w1 (t0 + 1799999))
    = (Ret (Some [good_mcq]), set_clock w1 (t0 + 1799999)) /\
    exists w2,
      Gemini.getCachedMCQs "22ci" (set_clock w1 (t0 + 1800000)) = (Ret None, w2) /\
      mcqCache w2 !! "22ci" = None.
Proof.
  destruct (cache_round_trip fresh_world "22ci" [good_mcq] (t0 + 1799999))
    as (_ & w1 & Estore & Hlive & _).
  destruct (cache_round_trip fresh_world "22ci" [good_mcq] (t0 + 1800000))
    as (_ & w1' & Estore' & _ & Hold).
  rewrite Estore in Estore'. injection Estore' as <-.
  exists w1. split; [exact Estore|]. split.
  - apply Hlive. vm_compute. reflexivity.
  - apply Hold. vm_compute. discriminate.
Defined.

Lemma missing_content_yields_empty_result_witness :
  Groq.completion_content bare_data = JStr "[]" /\
  (exists resp w',
     Groq.handler (answering bare_envelope) (post bearer notes) fresh_world
     = (Ret resp, w') /\
     Http.status resp = 200 /\ Http.ok resp = true /\
     Http.mcqs resp = Some [] /\ Http.count resp = Some 0) /\
  (exists resp w',
     GroqQuota.handler (answering bare_envelope) (post bearer notes) fresh_world
     = (Ret resp, w') /\
     Http.status resp = 200 /\ Http.ok resp = true /\
     Http.mcqs resp = Some [] /\ Http.count resp = Some 0 /\
     Sql.uploads_today <$> (user_usage_stats fresh_world !! "user-1") = Some (Some 3) /\
     Sql.uploads_today <$> (user_usage_stats w' !! "user-1") = Some (Some 4)).
Proof.
  destruct (missing_content_yields_empty_result (answering bare_envelope)
              (post bearer notes) fresh_world "user-1" (text_body notes) 200
              bare_envelope bare_data)
    as (Hcontent & Hplain & Hquota);
    [reflexivity | reflexivity | reflexivity | reflexivity | reflexivity
    | reflexivity | vm_compute; reflexivity | discriminate | reflexivity |].
  split; [exact Hcontent|]. split; [exact Hplain|].
  destruct (Hquota Quota.FREE admitted_limits fresh_world)
    as (resp & w3 & w' & Ehandler & Hst & Hok & Hmcqs & Hcount & _ & _ & _ & Hup);
    [vm_compute; reflexivity | vm_compute; reflexivity | reflexivity |].
  exists resp, w'. split; [exact Ehandler|].
  split; [exact Hst|]. split; [exact Hok|]. split; [exact Hmcqs|].
  split; [exact Hcount|]. split; [reflexivity|].
  destruct (Hup (fun _ => eq_refl) (usage_row 3 midnight) eq_refl)
    as (usage & Eread & ->).
  assert (usage = {| Quota.uploads_today := 3; Quota.daily_reset_at := midnight |})
    as ->; [|reflexivity].
  vm_compute in Eread. by injection Eread as <-.
Defined.

Lemma empty_wrapper_rejected_witness :
  exists resp,
    Groq.handler (answering (groq_envelope empty_wrapper)) (post bearer notes)
      fresh_world
    = (Ret resp, log_fetch fresh_world (groq_request (Groq.prompt 20))) /\
    Http.status resp = 500 /\ Http.ok resp = false /\ Http.mcqs resp = None.
Proof.
  destruct (empty_wrapper_rejected_unless_rescued
              (answering (groq_envelope empty_wrapper)) (post bearer notes)
              fresh_world "user-1" (text_body notes) wrapper_completion
              (log_fetch fresh_world (groq_request (Groq.prompt 20))) empty_wrapper)
    as (_ & Hwrapper);
    [reflexivity | reflexivity | reflexivity | vm_compute; reflexivity
    | reflexivity |].
  destruct (Hwrapper [("mcqs", JArr [])]) as (_ & Hrejected & _).
  - vm_compute. reflexivity.
  - intros l [H|[]]. by injection H.
  - apply Hrejected. vm_compute. exact I.
Defined.

(** * Further properties *)

Import Answers Paths Material SimpleAnswers Api Samples.

(** ** The tier and the quota when database calls fail *)

(** X1.  [getUserSubscription] never throws and leaves the world as it
    is.  It answers PRO exactly when the query works and the user's row
    has the status active and the plan pro: a failed query, a missing
    row, an inactive row and any other plan are all FREE. *)
Theorem subscription_is_pro_only_when_active env userId w :
  exists s,
    Quota.getUserSubscription env userId w = (Ret s, w) /\
    (s = Quota.PRO <->
     db_fault env SelectSubscription = Works /\
     exists row, user_subscriptions w !! userId = Some row /\
                 Sql.status row = "active" /\ Sql.plan_type row = "pro").
Proof.
  unfold Quota.getUserSubscription, try_catch, bind, db_call.
  destruct (db_fault env SelectSubscription) eqn:Efault; cbn.
  - unfold Quota.select_active_subscription.
    destruct (user_subscriptions w !! userId) as [row|] eqn:Erow.
    + destruct (String.eqb (Sql.status row) "active") eqn:Estatus.
      * destruct (String.eqb (Sql.plan_type row) "pro") eqn:Eplan.
        -- eexists; split; [reflexivity|]. split; [|done].
           intros _. split; [done|]. exists row.
           by apply String.eqb_eq in Estatus, Eplan.
        -- eexists; split; [reflexivity|]. split; [done|].
           intros (_ & row' & [= <-] & _ & Hplan).
           apply String.eqb_neq in Eplan. done.
      * eexists; split; [reflexivity|]. split; [done|].
        intros (_ & row' & [= <-] & Hstatus & _).
        apply String.eqb_neq in Estatus. done.
    + eexists; split; [reflexivity|]. split; [done|].
      by intros (_ & row' & [=] & _).
  - eexists; split; [reflexivity|]. split; [done|]. by intros [[=] _].
  - eexists; split; [reflexivity|]. split; [done|]. by intros [[=] _].
Qed.

Lemma update_row_missing user f (t : gmap string Sql.UsageRow) :
  t !! user = None -> Sql.update_row user f t = t.
Proof. intros H. unfold Sql.update_row. by rewrite H. Qed.

Lemma get_user_usage_stats_missing now user (t : gmap string Sql.UsageRow) :
  t !! user = None -> Sql.get_user_usage_stats now user t = ([], t).
Proof.
  intros H. unfold Sql.get_user_usage_stats.
  rewrite H. cbn [Sql.reset_due]. rewrite update_row_missing by done. by rewrite H.
Qed.

Lemma increment_upload_count_missing now user (t : gmap string Sql.UsageRow) :
  t !! user = None -> Sql.increment_upload_count now user t = t.
Proof.
  intros H. unfold Sql.increment_upload_count.
  rewrite H. cbn [Sql.reset_due]. by rewrite update_row_missing.
Qed.

(** The limits computed from the default snapshot. *)
Lemma limits_of_default sub now :
  Quota.limits_of sub {| Quota.uploads_today := 0; Quota.daily_reset_at := now + Sql.DAY_MS |}
  = {| Quota.allowed := true; Quota.limitType := None;
       Quota.remaining := Quota.daily_limit sub;
       Quota.resetTime := now + Sql.DAY_MS |}.
Proof.
  unfold Quota.limits_of. cbn [Quota.uploads_today Quota.daily_reset_at].
  destruct sub; cbn; reflexivity.
Qed.

Lemma checkUserLimits_no_row env userId sub w :
  user_usage_stats w !! userId = None ->
  Quota.checkUserLimits env userId sub w
  = (Ret {| Quota.allowed := true; Quota.limitType := None;
            Quota.remaining := Quota.daily_limit sub;
            Quota.resetTime := clock w + Sql.DAY_MS |}, w).
Proof.
  intros Hrow.
  unfold Quota.checkUserLimits, Quota.getUserUsageStatsFromDB.
  unfold bind at 1. unfold try_catch, bind at 1. unfold db_call at 1.
  destruct (db_fault env RpcGetUsageStats).
  - unfold Quota.rpc_get_user_usage_stats.
    rewrite get_user_usage_stats_missing by done. rewrite set_usage_same.
    unfold Quota.default_usage. monad_unfold. by rewrite limits_of_default.
  - unfold bind at 1. unfold db_call.
    destruct (db_fault env SelectUsageStats); unfold Quota.select_usage;
      rewrite ?Hrow; unfold Quota.default_usage; monad_unfold;
      by rewrite limits_of_default.
  - unfold Quota.default_usage. monad_unfold. by rewrite limits_of_default.
Qed.

Lemma incrementUserUsage_no_row env userId w :
  user_usage_stats w !! userId = None ->
  Quota.incrementUserUsage env userId w = (Ret tt, w).
Proof.
  intros Hrow. unfold Quota.incrementUserUsage.
  unfold try_catch, bind at 1. unfold db_call at 1.
  destruct (db_fault env RpcIncrementUploadCount).
  - unfold Quota.rpc_increment_upload_count.
    rewrite increment_upload_count_missing by done. by rewrite set_usage_same.
  - unfold bind at 1. unfold db_call.
    destruct (db_fault env SelectCurrentUsage); unfold Quota.select_usage;
      rewrite ?Hrow; done.
  - done.
Qed.

(** X2.  A user without a row in [user_usage_stats] is never limited:
    whatever the database calls do, the quota check admits them with the
    full daily limit and a reset time a day ahead, and the increment
    after a generation changes nothing. *)
Theorem user_without_usage_row_is_never_limited env userId sub w :
  user_usage_stats w !! userId = None ->
  Quota.checkUserLimits env userId sub w
  = (Ret {| Quota.allowed := true; Quota.limitType := None;
            Quota.remaining := Quota.daily_limit sub;
            Quota.resetTime := clock w + Sql.DAY_MS |}, w) /\
  Quota.incrementUserUsage env userId w = (Ret tt, w).
Proof.
  intros Hrow. split;
    [by apply checkUserLimits_no_row | by apply incrementUserUsage_no_row].
Qed.

Lemma user_without_usage_row_witness :
  Quota.checkUserLimits down "user-2" Quota.FREE fresh_world
  = (Ret {| Quota.allowed := true; Quota.limitType := None;
            Quota.remaining := 5;
            Quota.resetTime := t0 + Sql.DAY_MS |}, fresh_world) /\
  Quota.incrementUserUsage down "user-2" fresh_world = (Ret tt, fresh_world).
Proof.
  apply (user_without_usage_row_is_never_limited down "user-2" Quota.FREE fresh_world).
  vm_compute. reflexivity.
Defined.

(** X3.  When the usage RPC rejects, or resolves with an error and the
    fallback query fails too, the quota check admits the user with the
    full daily limit, whatever the table holds, and writes nothing. *)
Theorem unreadable_usage_admits env userId sub w :
  (exists msg, db_fault env RpcGetUsageStats = Rejects msg) \/
  (db_fault env RpcGetUsageStats = ReturnsError /\
   (db_fault env SelectUsageStats = ReturnsError \/
    exists msg, db_fault env SelectUsageStats = Rejects msg)) ->
  Quota.checkUserLimits env userId sub w
  = (Ret {| Quota.allowed := true; Quota.limitType := None;
            Quota.remaining := Quota.daily_limit sub;
            Quota.resetTime := clock w + Sql.DAY_MS |}, w).
Proof.
  intros H.
  unfold Quota.checkUserLimits, Quota.getUserUsageStatsFromDB.
  unfold bind at 1. unfold try_catch, bind at 1. unfold db_call at 1.
  destruct H as [[msg ->]|[-> H]].
  - unfold Quota.default_usage. monad_unfold. by rewrite limits_of_default.
  - unfold bind at 1. unfold db_call.
    destruct H as [->|[msg ->]]; unfold Quota.default_usage; monad_unfold;
      by rewrite limits_of_default.
Qed.

(** X4.  When the usage RPC resolves with an error and the fallback
    query works, the limits are those of the stored row as it is: the
    counter is compared with the daily limit without the daily reset,
    nothing is written, and the reset time reported is the stored one,
    even when it has passed. *)
Theorem fallback_snapshot_skips_reset env userId sub w row :
  db_fault env RpcGetUsageStats = ReturnsError ->
  db_fault env SelectUsageStats = Works ->
  user_usage_stats w !! userId = Some row ->
  exists limits,
    Quota.checkUserLimits env userId sub w = (Ret limits, w) /\
    (Quota.allowed limits = false
     <-> Quota.daily_limit sub <= Quota.or_zero (Sql.uploads_today row)) /\
    (Quota.allowed limits = true ->
     Quota.remaining limits
     = Quota.daily_limit sub - Quota.or_zero (Sql.uploads_today row)) /\
    Quota.resetTime limits
    = match Sql.daily_reset_at row with
      | Some r => r
      | None => clock w + Sql.DAY_MS
      end.
Proof.
  intros Hrpc Hsel Hrow.
  unfold Quota.checkUserLimits, Quota.getUserUsageStatsFromDB.
  unfold bind at 1. unfold try_catch, bind at 1. unfold db_call at 1.
  rewrite Hrpc. unfold bind at 1. unfold db_call. rewrite Hsel.
  unfold Quota.select_usage. rewrite Hrow.
  unfold Quota.usage_of. monad_unfold.
  eexists. split; [reflexivity|].
  split; [apply limits_of_allowed|].
  unfold Quota.limits_of. cbn [Quota.uploads_today Quota.daily_reset_at].
  destruct (Quota.daily_limit sub <=? Quota.or_zero (Sql.uploads_today row));
    cbn; split; done.
Qed.


(** ** The content fingerprint *)

Lemma to_int32_range z : - 2 ^ 31 <= Gemini.to_int32 z < 2 ^ 31.
Proof.
  unfold Gemini.to_int32.
  pose proof (Z.mod_pos_bound (z + 2 ^ 31) (2 ^ 32) ltac:(lia)). lia.
Qed.

Lemma to_int32_wraps z : exists k, Gemini.to_int32 z = z + k * 2 ^ 32.
Proof.
  exists (- ((z + 2 ^ 31) / 2 ^ 32)). unfold Gemini.to_int32.
  pose proof (Z.div_mod (z + 2 ^ 31) (2 ^ 32) ltac:(lia)). lia.
Qed.

Lemma to_int32_congr a b k :
  a = b + k * 2 ^ 32 -> Gemini.to_int32 a = Gemini.to_int32 b.
Proof.
  intros ->. unfold Gemini.to_int32.
  replace (b + k * 2 ^ 32 + 2 ^ 31) with (b + 2 ^ 31 + k * 2 ^ 32) by lia.
  by rewrite Z_mod_plus_full.
Qed.

(** One round of the loop is [31 * hash + char], wrapped to 32 bits. *)
Lemma hash_step_31 h c : Gemini.hash_step h c = Gemini.to_int32 (31 * h + code c).
Proof.
  unfold Gemini.hash_step.
  destruct (to_int32_wraps (h * 32)) as [k ->].
  apply (to_int32_congr _ _ k). lia.
Qed.

Lemma hash_step_twice h c d :
  Gemini.hash_step (Gemini.hash_step h c) d
  = Gemini.to_int32 (961 * h + 31 * code c + code d).
Proof.
  rewrite !hash_step_31.
  destruct (to_int32_wraps (31 * h + code c)) as [k ->].
  apply (to_int32_congr _ _ (31 * k)). lia.
Qed.

Lemma fold_hash_range l h :
  - 2 ^ 31 <= h < 2 ^ 31 ->
  - 2 ^ 31 <= fold_left Gemini.hash_step l h < 2 ^ 31.
Proof.
  revert h. induction l as [|c l IH]; intros h Hh; [done|].
  cbn [fold_left]. apply IH. unfold Gemini.hash_step. apply to_int32_range.
Qed.

Lemma chars_app a b : chars (a +:+ b) = chars a ++ chars b.
Proof.
  unfold chars, String.app. induction a as [|c a IH]; [done|].
  cbn. by rewrite IH.
Qed.

Lemma base36_length fuel : forall k n acc,
  (1 <= k)%nat -> 0 <= n < 36 ^ Z.of_nat k ->
  (List.length (Gemini.base36 fuel n acc) <= k + List.length acc)%nat.
Proof.
  induction fuel as [|f IH]; intros k n acc Hk Hn; cbn [Gemini.base36]; [lia|].
  destruct (n <? 36) eqn:E; [cbn [List.length]; lia|].
  apply Z.ltb_ge in E.
  destruct k as [|[|k]]; [lia| change (36 ^ Z.of_nat 1) with 36 in Hn; lia |].
  etransitivity; [apply (IH (S k) (n / 36) (Gemini.digit36 (n mod 36) :: acc))|cbn [List.length]; lia]; [lia|].
  split; [apply Z.div_pos; lia|].
  apply Z.div_lt_upper_bound; [lia|].
  replace (Z.of_nat (S (S k))) with (Z.succ (Z.of_nat (S k))) in Hn by lia.
  rewrite Z.pow_succ_r in Hn by lia. lia.
Qed.

Lemma base36_nonempty fuel n acc :
  (1 <= List.length (Gemini.base36 (S fuel) n acc))%nat.
Proof.
  revert n acc. induction fuel as [|f IH]; intros n acc.
  - cbn. destruct (n <? 36); cbn; lia.
  - change (Gemini.base36 (S (S f)) n acc)
      with (if n <? 36 then Gemini.digit36 n :: acc
            else Gemini.base36 (S f) (n / 36) (Gemini.digit36 (n mod 36) :: acc)).
    destruct (n <? 36); [cbn; lia|]. apply IH.
Qed.

Lemma digit36_base36 d : 0 <= d < 36 -> is_base36 (Gemini.digit36 d) = true.
Proof.
  intros Hd. unfold Gemini.digit36.
  assert (d = 0 \/ d = 1 \/ d = 2 \/ d = 3 \/ d = 4 \/ d = 5 \/ d = 6 \/ d = 7 \/
          d = 8 \/ d = 9 \/ d = 10 \/ d = 11 \/ d = 12 \/ d = 13 \/ d = 14 \/
          d = 15 \/ d = 16 \/ d = 17 \/ d = 18 \/ d = 19 \/ d = 20 \/ d = 21 \/
          d = 22 \/ d = 23 \/ d = 24 \/ d = 25 \/ d = 26 \/ d = 27 \/ d = 28 \/
          d = 29 \/ d = 30 \/ d = 31 \/ d = 32 \/ d = 33 \/ d = 34 \/ d = 35)
    as H by lia.
  repeat (destruct H as [->|H]; [vm_compute; reflexivity|]).
  subst. vm_compute. reflexivity.
Qed.

Lemma base36_digits fuel : forall n acc,
  0 <= n ->
  forallb is_base36 acc = true ->
  forallb is_base36 (Gemini.base36 fuel n acc) = true.
Proof.
  induction fuel as [|f IH]; intros n acc Hn Hacc; cbn [Gemini.base36]; [done|].
  destruct (n <? 36) eqn:E.
  - apply Z.ltb_lt in E. cbn [forallb]. rewrite digit36_base36 by lia. done.
  - apply IH; [apply Z.div_pos; lia|].
    cbn [forallb]. rewrite digit36_base36; [done|].
    apply Z.mod_pos_bound. lia.
Qed.

Lemma chars_text l : chars (text l) = l.
Proof. apply list_ascii_of_string_of_list_ascii. Qed.

Lemma text_chars s : text (chars s) = s.
Proof. apply string_of_list_ascii_of_string. Qed.

(** X6.  The content fingerprint that keys the cache has one to six
    characters, each a digit of base 36, whatever the length of the
    content. *)
Theorem fingerprint_is_short (fileData : string) :
  let h := chars (Gemini.generateFileHash fileData) in
  (1 <= List.length h <= 6)%nat /\ forallb is_base36 h = true.
Proof.
  cbn zeta. unfold Gemini.generateFileHash, Gemini.toString36.
  rewrite chars_text.
  pose proof (fold_hash_range (chars fileData) 0 ltac:(lia)) as Hr.
  set (n := Z.abs _) in *.
  assert (0 <= n <= 2 ^ 31) as Hn by (subst n; lia).
  split; [split|].
  - apply base36_nonempty.
  - etransitivity; [apply (base36_length _ 6%nat)|cbn [List.length]; lia]; [lia|].
    change (36 ^ Z.of_nat 6) with 2176782336. change (2 ^ 31) with 2147483648 in Hn. lia.
  - apply base36_digits; [lia|done].
Qed.

(** X7.  Different contents can have the same fingerprint, the only key
    of the cache: replacing an [Aa] by [BB] anywhere in a text never
    changes it. *)
Theorem fingerprint_collides (before after : string) :
  Gemini.generateFileHash (before +:+ "Aa" +:+ after)
  = Gemini.generateFileHash (before +:+ "BB" +:+ after).
Proof.
  unfold Gemini.generateFileHash.
  rewrite !chars_app, !fold_left_app.
  change (chars "Aa") with ["A"%char; "a"%char].
  change (chars "BB") with ["B"%char; "B"%char].
  cbn [fold_left]. rewrite !hash_step_twice.
  change (code "A") with 65. change (code "a") with 97. change (code "B") with 66.
  set (h := fold_left Gemini.hash_step (chars before) 0).
  replace (961 * h + 31 * 65 + 97) with (961 * h + 31 * 66 + 66) by lia.
  reflexivity.
Qed.

(** ** The cache and the counters of a generated request *)

(** X8.  [cacheMCQs] always stores the new entry.  The clean-up only
    runs when more than 1000 entries are held, only removes entries
    older than the cache duration, and removes all of those; when no
    entry is that old the cache keeps growing past 1000. *)
Theorem cache_cleanup_spares_live_entries fileHash l w :
  let stored := <[fileHash := {| mcqs := l; timestamp := clock w |}]> (mcqCache w) in
  exists w',
    Gemini.cacheMCQs fileHash l w = (Ret tt, w') /\
    mcqCache w' !! fileHash = Some {| mcqs := l; timestamp := clock w |} /\
    (forall k e, mcqCache w' !! k = Some e -> stored !! k = Some e) /\
    (forall k e, stored !! k = Some e ->
                 clock w - timestamp e <= Gemini.CACHE_DURATION ->
                 mcqCache w' !! k = Some e) /\
    ((size stored <= 1000)%nat -> mcqCache w' = stored) /\
    ((1000 < size stored)%nat ->
     forall k e, mcqCache w' !! k = Some e ->
                 clock w - timestamp e <= Gemini.CACHE_DURATION) /\
    ((forall k e, mcqCache w !! k = Some e ->
                  clock w - timestamp e <= Gemini.CACHE_DURATION) ->
     mcqCache w' = stored).
Proof.
  cbn zeta. unfold Gemini.cacheMCQs. monad_unfold. cbn [mcqCache set_cache clock].
  set (stored := <[fileHash := {| mcqs := l; timestamp := clock w |}]> (mcqCache w)).
  unfold Gemini.CACHE_CEILING.
  destruct (1000 <? size stored)%nat eqn:Esize.
  - apply Nat.ltb_lt in Esize.
    eexists. split; [reflexivity|]. cbn [mcqCache set_cache].
    split; [|split; [|split; [|split; [|split]]]].
    + apply map_lookup_filter_Some. split; [apply lookup_insert_eq|].
      cbn. unfold Gemini.CACHE_DURATION. lia.
    + intros k e H. by apply map_lookup_filter_Some in H as [H _].
    + intros k e H Hlive. by apply map_lookup_filter_Some.
    + lia.
    + intros _ k e H. by apply map_lookup_filter_Some in H as [_ H].
    + intros Hall. apply map_filter_id. intros k e H. cbn.
      subst stored. destruct (decide (k = fileHash)) as [->|Hne].
      * rewrite lookup_insert_eq in H. injection H as <-. cbn.
        unfold Gemini.CACHE_DURATION. lia.
      * rewrite lookup_insert_ne in H by done. by apply (Hall k).
  - apply Nat.ltb_ge in Esize.
    eexists. split; [reflexivity|]. cbn [mcqCache set_cache].
    split; [apply lookup_insert_eq|].
    split; [done|]. split; [done|]. split; [done|]. split; [lia|done].
Qed.

Lemma checkGlobalUsage_remaining w g w1 :
  Gemini.checkGlobalUsage w = (Ret g, w1) ->
  Gemini.allowed g = true ->
  Gemini.remaining g = Gemini.MAX_GLOBAL_USAGE - globalUsageCount w1 /\
  Gemini.resetTime g = globalUsageResetTime w1.
Proof.
  unfold Gemini.checkGlobalUsage. monad_unfold.
  destruct (globalUsageResetTime w <? clock w); cbn [globalUsageCount globalUsageResetTime set_global].
  - destruct (Gemini.MAX_GLOBAL_USAGE <=? 0); intros [= <- <-]; cbn; done.
  - destruct (Gemini.MAX_GLOBAL_USAGE <=? globalUsageCount w);
      intros [= <- <-]; cbn; done.
Qed.

(** The snapshot the quota check hands on when the RPC works. *)
Lemma checkUserLimits_works env userId sub w limits w2 :
  db_fault env RpcGetUsageStats = Works ->
  Quota.checkUserLimits env userId sub w = (Ret limits, w2) ->
  Quota.allowed limits = true ->
  Quota.remaining limits
  = Quota.daily_limit sub - snapshot_uploads (user_usage_stats w2 !! userId).
Proof.
  intros Hworks Echeck Hallowed.
  destruct (getUserUsageStatsFromDB_works env userId w Hworks) as (usage & E & Hup).
  unfold Quota.checkUserLimits, bind, ret in Echeck. rewrite E in Echeck.
  injection Echeck as <- <-.
  transitivity (Quota.daily_limit sub - Quota.uploads_today usage);
    [|f_equal; exact Hup].
  unfold Quota.limits_of in *.
  by destruct (Quota.daily_limit sub <=? Quota.uploads_today usage).
Qed.

(** X9.  Provided the increment RPC works, a request that reaches the
    provider and gets a usable answer is answered 200 with the
    questions, not flagged as cached; the global counter goes up by one,
    the user's row is the one [increment_upload_count] leaves, and the
    questions are cached under the fingerprint of the material.  The
    remaining uploads reported are those of the quota check minus one:
    with a working snapshot read that is the daily limit minus the
    stored counter, unless the daily reset fell due between the check
    and the commit, when the stored counter restarts at 1 and the
    response still counts from the snapshot. *)
Theorem generated_request_commits_once
    env req w g userId sub limits body w2 w3 raw w4 l :
  reaches_provider env req w g userId sub limits body w2 w3 ->
  Gemini.provider_call env body w3 = (Ret raw, w4) ->
  Gemini.normalize raw = inr l ->
  db_fault env RpcIncrementUploadCount = Works ->
  exists resp w5,
    Gemini.handler env req w = (Ret resp, w5) /\
    Http.status resp = 200 /\ Http.ok resp = true /\
    Http.cached resp = Some false /\ Http.mcqs resp = Some l /\
    globalUsageCount w5 = globalUsageCount w2 + 1 /\
    Http.global_remaining <$> Http.global_usage resp
    = Some (Gemini.MAX_GLOBAL_USAGE - globalUsageCount w5) /\
    user_usage_stats w5
    = Sql.increment_upload_count (clock w4) userId (user_usage_stats w2) /\
    mcqCache w5 !! Gemini.generateFileHash (Gemini.material_of body)
    = Some {| mcqs := l; timestamp := clock w4 |} /\
    (db_fault env RpcGetUsageStats = Works ->
     forall row,
       user_usage_stats w2 !! userId = Some row ->
       Sql.reset_due (clock w4) (Some row) = false ->
       exists uploads,
         Sql.uploads_today <$> (user_usage_stats w5 !! userId) = Some (Some uploads) /\
         Http.remaining <$> Http.user_limits resp
         = Some (Quota.daily_limit sub - uploads)) /\
    Http.remaining <$> Http.user_limits resp = Some (Quota.remaining limits - 1) /\
    (db_fault env RpcGetUsageStats = Works ->
     forall row,
       user_usage_stats w2 !! userId = Some row ->
       Sql.reset_due (clock w4) (Some row) = true ->
       Sql.uploads_today <$> (user_usage_stats w5 !! userId) = Some (Some 1) /\
       Http.remaining <$> Http.user_limits resp
       = Some (Quota.daily_limit sub - snapshot_uploads (Some row) - 1)).
Proof.
  intros Hreach Ecall Enorm Hinc.
  pose proof Hreach as (Hchecked & Hallowed & Hbody & Hinput & Emiss).
  pose proof Hchecked as (_ & w1 & Eg & Hg & _ & _ & Elim).
  destruct (checkGlobalUsage_remaining _ _ _ Eg Hg) as (Hrem & _).
  pose proof (checkUserLimits_inv _ _ _ _ _ _ Elim) as (_ & _ & _ & _ & Hn2 & _).
  pose proof (getCachedMCQs_inv _ _ _ _ Emiss) as (Ht3 & _ & _ & _ & Hn3).
  pose proof (provider_call_frame _ _ _ _ _ Ecall) as (Ht4 & Hn4 & _).
  set (hash := Gemini.generateFileHash (Gemini.material_of body)) in *.
  set (w4' := set_global w4 (globalUsageCount w4 + 1) (globalUsageResetTime w4)).
  set (w4'' := set_usage w4' (Sql.increment_upload_count (clock w4') userId
                               (user_usage_stats w4'))).
  destruct (cacheMCQs_total hash l w4'') as (c & Estore & Hentry).
  assert (Ecommit : Gemini.commit env userId hash l w4 = (Ret tt, set_cache w4'' c)).
  { unfold Gemini.commit, Gemini.incrementGlobalUsage.
    unfold bind at 1. unfold modify at 1. unfold bind at 1.
    fold w4'. rewrite (incrementUserUsage_works env userId w4' Hinc).
    fold w4''. exact Estore. }
  eexists _, (set_cache w4'' c). split.
  - unfold Gemini.handler, try_catch.
    rewrite (serve_checked env req w g userId sub limits w2 Hchecked), Hallowed.
    rewrite (generate_with_input env req userId sub limits g body w2 Hbody Hinput).
    cbv zeta. fold hash. rewrite Emiss, Ecall, Enorm, Ecommit. reflexivity.
  - cbn [Http.status Http.ok Http.cached Http.mcqs Http.global_usage
         Http.user_limits Gemini.okResponse Http.success].
    split; [done|]. split; [done|]. split; [done|]. split; [done|].
    assert (Hcount : globalUsageCount (set_cache w4'' c) = globalUsageCount w2 + 1).
    { cbn [globalUsageCount set_cache set_usage set_global w4'' w4']. congruence. }
    split; [exact Hcount|]. split.
    { cbn [fmap option_fmap option_map Http.global_remaining].
      rewrite Hcount, Hrem. f_equal. lia. }
    assert (Htable : user_usage_stats (set_cache w4'' c)
                     = Sql.increment_upload_count (clock w4) userId
                         (user_usage_stats w2)).
    { cbn [user_usage_stats clock set_cache set_usage set_global w4'' w4'].
      congruence. }
    split; [exact Htable|]. split; [exact Hentry|].
    split; [|split; [reflexivity|]].
    + intros Hget row Hrow Hlive.
      exists (snapshot_uploads (Some row) + 1). split.
      * rewrite Htable. by apply increment_upload_count_fresh.
      * cbn [fmap option_fmap option_map Http.remaining]. f_equal.
        rewrite (checkUserLimits_works env userId sub w1 limits w2 Hget Elim Hallowed).
        rewrite Hrow. lia.
    + intros Hget row Hrow Hdue. split.
      * rewrite Htable. unfold Sql.increment_upload_count.
        rewrite Hrow, Hdue. unfold Sql.update_row.
        by rewrite Hrow, lookup_insert_eq.
      * cbn [fmap option_fmap option_map Http.remaining]. f_equal.
        rewrite (checkUserLimits_works env userId sub w1 limits w2 Hget Elim Hallowed).
        by rewrite Hrow.
Qed.

(** ** Retries and error responses *)

Lemma garbled_groq_answer env res :
  garbled res = true ->
  groq_answer res = None /\
  message (groq_failure env res) = garbled_message env res.
Proof.
  destruct res as [msg|st body]; cbn; [done|].
  destruct (ok_status st); [|done]. cbn.
  by destruct (JSON_parse body) as [[]|].
Qed.

Lemma garbled_gemini_answer env res :
  garbled res = true ->
  gemini_answer res = None /\
  message (gemini_failure env res) = garbled_message env res.
Proof.
  destruct res as [msg|st body]; cbn; [done|].
  destruct (ok_status st); [|done]. cbn.
  by destruct (JSON_parse body) as [[]|].
Qed.

Lemma groq_rethrown_message e : message (groq_rethrown e) = message e.
Proof.
  unfold groq_rethrown. destruct (Groq.raw_truthy _); [done|].
  by destruct (negb _).
Qed.

(** X10.  An answer that is garbled (the fetch fails, or the status is a
    success and the body is not JSON or is [null]) is retried by both
    clients after 2000 ms: a usable second answer is returned, and three
    garbled answers in a row end in the error of the third, after three
    requests and waits of 2000 and 4000 ms. *)
Theorem garbled_answers_are_retried env textContent prompt w :
  truthy_str (GROQ_API_KEY env) = true ->
  garbled (provider env (List.length (fetches w))) = true ->
  let second := provider env (S (List.length (fetches w))) in
  let third := provider env (S (S (List.length (fetches w)))) in
  let groq := Groq.request_for textContent prompt in
  let gemini := gemini_request textContent prompt in
  (forall c, groq_answer second = Some c ->
     Groq.callGroqWithText env textContent prompt 3 w
     = (Ret (Some c), log_fetch (retried w groq 2000) groq)) /\
  (forall v, gemini_answer second = Some v ->
     Gemini.callGeminiWithText env textContent prompt 3 w
     = (Ret v, log_fetch (retried w gemini 2000) gemini)) /\
  (garbled second = true -> garbled third = true ->
   (exists e w',
      Groq.callGroqWithText env textContent prompt 3 w = (Throw e, w') /\
      message e = garbled_message env third /\
      fetches w' = fetches w ++ [groq; groq; groq] /\
      timers w' = timers w ++ [2000; 4000]) /\
   (exists e w',
      Gemini.callGeminiWithText env textContent prompt 3 w = (Throw e, w') /\
      message e = garbled_message env third /\
      fetches w' = fetches w ++ [gemini; gemini; gemini] /\
      timers w' = timers w ++ [2000; 4000])).
Proof.
  intros Hkey H1. cbv zeta.
  rewrite (callGroqWithText_loop env textContent prompt w Hkey).
  unfold Gemini.callGeminiWithText. change (Z.to_nat 3) with 3%nat.
  fold (gemini_request textContent prompt).
  rewrite groq_three_passes, gemini_three_passes. cbv zeta.
  change (provider env (List.length (fetches w))) with (next_answer env w) in H1.
  destruct (garbled_groq_answer env _ H1) as [-> _].
  destruct (garbled_gemini_answer env _ H1) as [-> _].
  rewrite !next_answer_retried.
  split; [by intros c ->|]. split; [by intros v ->|].
  intros H2 H3.
  destruct (garbled_groq_answer env _ H2) as [-> _].
  destruct (garbled_gemini_answer env _ H2) as [-> _].
  rewrite ?next_answer_retried, ?length_fetches_retried.
  destruct (garbled_groq_answer env _ H3) as [-> Hm3].
  destruct (garbled_gemini_answer env _ H3) as [-> Hm3'].
  split.
  - eexists _, _. split; [reflexivity|].
    split; [by rewrite groq_rethrown_message|].
    cbn. by rewrite <- !app_assoc.
  - eexists _, _. split; [reflexivity|]. split; [done|].
    cbn. by rewrite <- !app_assoc.
Qed.

Lemma gemini_userMessage_production env e :
  isDevelopment env = false ->
  In (Gemini.userMessage env e)
    ["File size exceeds the maximum allowed limit (20MB).";
     "AI service is temporarily unavailable. Please try again later.";
     "Authentication failed. Please log in again.";
     "Network error. Please check your connection and try again.";
     "Failed to process AI response. Please try again.";
     "An unexpected error occurred. Please try again later."].
Proof.
  intros Hprod. unfold Gemini.userMessage. rewrite Hprod.
  repeat (match goal with |- context [if ?b then _ else _] => destruct b end;
          [cbn; tauto|]).
  cbn; tauto.
Qed.

(** X11.  Outside development a 500 response of the Gemini handler carries
    one of six fixed messages and neither the provider's raw answer nor
    its status code. *)
Theorem production_hides_error_details env req w :
  isDevelopment env = false ->
  exists resp w',
    Gemini.handler env req w = (Ret resp, w') /\
    (Http.status resp = 500 ->
     Http.raw_api_response resp = None /\ Http.status_code resp = None /\
     exists msg,
       Http.error resp = Some msg /\
       In msg
         ["File size exceeds the maximum allowed limit (20MB).";
          "AI service is temporarily unavailable. Please try again later.";
          "Authentication failed. Please log in again.";
          "Network error. Please check your connection and try again.";
          "Failed to process AI response. Please try again.";
          "An unexpected error occurred. Please try again later."]).
Proof.
  intros Hprod.
  destruct (gemini_handler_run env req w) as (resp & w' & E & Hrun).
  exists resp, w'. split; [done|]. intros Hstatus.
  destruct Hrun; cbn in Hstatus; try discriminate;
    (split; [done|]; split; [done|]; eexists; split; [reflexivity|];
     by apply gemini_userMessage_production).
Qed.

(** ** The paths of the Groq handlers *)

Ltac nothing_sent :=
  exists []; rewrite app_nil_r; split; [done|]; split; [cbn; lia|constructor].

Lemma same_state_refl w : same_state w w.
Proof. by repeat split. Qed.

(** What three passes of the Groq loop do to the world. *)
Lemma groq_loop_log env r after w out w1 :
  Groq.retry_loop env r 3 1 3 after w = (out, w1) ->
  same_state w w1 /\
  exists n, (1 <= n <= 3)%nat /\ fetches w1 = fetches w ++ repeat r n.
Proof.
  rewrite groq_three_passes. cbv zeta.
  repeat break_match; intros [= <- <-]; (split; [by repeat split|]).
  - exists 1%nat. split; [lia|done].
  - exists 2%nat. split; [lia|]. cbn. by rewrite <- !app_assoc.
  - exists 3%nat. split; [lia|]. cbn. by rewrite <- !app_assoc.
  - exists 3%nat. split; [lia|]. cbn. by rewrite <- !app_assoc.
Qed.

Lemma authenticate_status env req r :
  Groq.authenticate env req = inl r ->
  Http.ok r = false /\ (Http.status r = 405 \/ Http.status r = 401).
Proof.
  unfold Groq.authenticate. repeat break_match; intros [= <-]; cbn; auto.
Qed.

Lemma errorResponse_status env e :
  Http.status (Groq.errorResponse env e) = 500 /\
  Http.ok (Groq.errorResponse env e) = false.
Proof. done. Qed.

Lemma groq_handler_paths env req w :
  exists resp w',
    Groq.handler env req w = (Ret resp, w') /\
    In (Http.status resp) [200; 400; 401; 405; 500] /\
    (Http.ok resp = true <-> Http.status resp = 200) /\
    same_state w w' /\
    exists sent,
      fetches w' = fetches w ++ sent /\ (List.length sent <= 3)%nat /\
      Forall (fun r => groq_request_of req = Some r) sent.
Proof.
  unfold Groq.handler, try_catch, Groq.serve, groq_request_of.
  destruct (Groq.authenticate env req) as [r|userId] eqn:Hauth.
  { destruct (authenticate_status _ _ _ Hauth) as (Hok & Hst).
    eexists _, _. split; [reflexivity|].
    split; [cbn; destruct Hst as [-> | ->]; tauto|].
    split; [rewrite Hok; split; [done|]; by destruct Hst as [Hs | Hs]; rewrite Hs|].
    split; [apply same_state_refl|].
    nothing_sent. }
  destruct (Http.json_body req) as [body|].
  2:{ eexists _, _. split; [reflexivity|]. cbn.
      split; [tauto|]. split; [done|]. split; [apply same_state_refl|].
      nothing_sent. }
  destruct (Groq.no_material body).
  { eexists _, _. split; [reflexivity|]. cbn.
    split; [tauto|]. split; [done|]. split; [apply same_state_refl|].
    nothing_sent. }
  cbv zeta. unfold bind at 1.
  set (r := Groq.request_for _ _).
  assert (Hcall : forall out w1,
             Groq.callGroqWithText env (Groq.material_of body)
               (Groq.prompt (default 20 (Http.mcq_count body))) 3 w = (out, w1) ->
             same_state w w1 /\
             exists sent,
               fetches w1 = fetches w ++ sent /\ (List.length sent <= 3)%nat /\
               Forall (fun r' => Some r = Some r') sent).
  { intros out w1. unfold Groq.callGroqWithText.
    destruct (truthy_str (GROQ_API_KEY env)).
    - change (Z.to_nat 3) with 3%nat. intros E.
      apply groq_loop_log in E as (Hsame & n & Hn & Hf).
      split; [done|]. exists (repeat r n). split; [done|].
      split; [rewrite repeat_length; lia|].
      clear. induction n; by constructor.
    - intros [= <- <-]. split; [apply same_state_refl|].
      nothing_sent. }
  destruct (Groq.callGroqWithText _ _ _ _ w) as [[[c|]|e] w1] eqn:Ecall;
    specialize (Hcall _ _ eq_refl) as (Hsame & Hsent).
  - unfold bind at 1, lift.
    destruct (Groq.normalize env (Groq.content c)) as [e|l].
    + eexists _, _. split; [reflexivity|]. cbn. split; [tauto|]. by split.
    + eexists _, _. split; [reflexivity|]. cbn. split; [tauto|]. by split.
  - eexists _, _. split; [reflexivity|]. cbn. split; [tauto|]. by split.
  - eexists _, _. split; [reflexivity|]. cbn. split; [tauto|]. by split.
Qed.

Lemma length_text l : String.length (text l) = List.length l.
Proof. unfold text. induction l as [|c l IH]; [done|]. cbn. by rewrite IH. Qed.

Lemma length_chars s : List.length (chars s) = String.length s.
Proof. by rewrite <- (text_chars s) at 2; rewrite length_text. Qed.

(** The material the Groq clients put into a request: the first 2500
    characters. *)
Lemma limitedTextContent_slice textContent :
  Groq.limitedTextContent textContent = slice0 textContent Groq.MAX_INPUT_LENGTH /\
  strlen (Groq.limitedTextContent textContent) <= Groq.MAX_INPUT_LENGTH.
Proof.
  unfold Groq.limitedTextContent, slice0, strlen, Groq.MAX_INPUT_LENGTH.
  destruct (2500 <? Z.of_nat (String.length textContent)) eqn:E.
  - split; [done|]. rewrite length_text, length_take. lia.
  - apply Z.ltb_ge in E. split; [|lia].
    rewrite firstn_all2; [by rewrite text_chars|].
    rewrite length_chars. lia.
Qed.

Lemma quota_handler_paths env req w :
  exists resp w',
    GroqQuota.handler env req w = (Ret resp, w') /\
    In (Http.status resp) [200; 400; 401; 405; 429; 500] /\
    (Http.ok resp = true <-> Http.status resp = 200) /\
    exists sent,
      fetches w' = fetches w ++ sent /\ (List.length sent <= 3)%nat /\
      Forall (fun r => quota_request_of req = Some r) sent.
Proof.
  unfold GroqQuota.handler, try_catch, GroqQuota.serve, quota_request_of.
  destruct (Groq.authenticate env req) as [r|userId] eqn:Hauth.
  { destruct (authenticate_status _ _ _ Hauth) as (Hok & Hst).
    eexists _, _. split; [reflexivity|].
    split; [cbn; destruct Hst as [-> | ->]; tauto|].
    split; [rewrite Hok; split; [done|]; by destruct Hst as [Hs | Hs]; rewrite Hs|].
    nothing_sent. }
  unfold bind at 1.
  destruct (getUserSubscription_total env userId w) as (sub & ->).
  unfold bind at 1.
  destruct (checkUserLimits_total env userId sub w) as (usage & t & _ & ->).
  set (w2 := set_usage w t).
  assert (Hf2 : fetches w2 = fetches w) by done.
  destruct (Quota.allowed (Quota.limits_of sub usage)); cbn [negb].
  2:{ eexists _, _. split; [reflexivity|]. cbn. split; [tauto|]. split; [done|].
      nothing_sent. }
  destruct (Http.json_body req) as [body|].
  2:{ eexists _, _. split; [reflexivity|]. cbn. split; [tauto|]. split; [done|].
      nothing_sent. }
  destruct (Groq.no_material body).
  { eexists _, _. split; [reflexivity|]. cbn. split; [tauto|]. split; [done|].
    nothing_sent. }
  unfold bind at 1.
  set (r := Groq.request_for _ _).
  assert (Hcall : forall out w3,
             GroqQuota.callGroqWithText env (Groq.material_of body)
               GroqQuota.staticPrompt 3 w2 = (out, w3) ->
             exists sent,
               fetches w3 = fetches w ++ sent /\ (List.length sent <= 3)%nat /\
               Forall (fun r' => Some r = Some r') sent).
  { intros out w3. unfold GroqQuota.callGroqWithText.
    destruct (truthy_str (GROQ_API_KEY env)).
    - change (Z.to_nat 3) with 3%nat. intros E.
      apply groq_loop_log in E as (_ & n & Hn & Hf).
      exists (repeat r n). split; [by rewrite Hf, Hf2|].
      split; [rewrite repeat_length; lia|].
      clear. induction n; by constructor.
    - intros [= <- <-]. rewrite Hf2. nothing_sent. }
  destruct (GroqQuota.callGroqWithText _ _ _ _ w2) as [[[c|]|e] w3] eqn:Ecall;
    specialize (Hcall _ _ eq_refl) as Hsent.
  - unfold bind at 1, lift.
    destruct (Groq.normalize env (Groq.content c)) as [e|l].
    + eexists _, _. split; [reflexivity|]. cbn. split; [tauto|]. by split.
    + unfold ret at 1. unfold bind at 1.
      destruct (incrementUserUsage_total env userId w3) as (t' & ->).
      eexists _, _. split; [reflexivity|]. cbn. split; [tauto|]. by split.
  - eexists _, _. split; [reflexivity|]. cbn. split; [tauto|]. by split.
  - eexists _, _. split; [reflexivity|]. cbn. split; [tauto|]. by split.
Qed.

(** X12.  The three handlers never throw: every request gets a response
    whose status is one of a fixed list, and [ok] is true exactly for
    status 200.  The Groq handler without quota leaves the tables, the
    cache and the global counter as they were. *)
Theorem handlers_always_answer env req w :
  (exists resp w',
     Gemini.handler env req w = (Ret resp, w') /\
     In (Http.status resp) [200; 400; 401; 405; 429; 500; 503] /\
     (Http.ok resp = true <-> Http.status resp = 200)) /\
  (exists resp w',
     Groq.handler env req w = (Ret resp, w') /\
     In (Http.status resp) [200; 400; 401; 405; 500] /\
     (Http.ok resp = true <-> Http.status resp = 200) /\
     same_state w w') /\
  (exists resp w',
     GroqQuota.handler env req w = (Ret resp, w') /\
     In (Http.status resp) [200; 400; 401; 405; 429; 500] /\
     (Http.ok resp = true <-> Http.status resp = 200)).
Proof.
  split; [|split].
  - destruct (gemini_handler_run env req w) as (resp & w' & E & Hrun).
    exists resp, w'. split; [done|].
    destruct Hrun; cbn; (split; [tauto|done]).
  - destruct (groq_handler_paths env req w) as (resp & w' & E & Hst & Hok & Hsame & _).
    by exists resp, w'.
  - destruct (quota_handler_paths env req w) as (resp & w' & E & Hst & Hok & _).
    by exists resp, w'.
Qed.

(** X13.  For a request whose material is ASCII text, every request that
    the two Groq handlers of the later versions send goes to the Groq
    URL, at most three times per request, and carries the prompt
    followed by the first 2500 characters of the numbered sections built
    from the study material, and nothing more of it. *)
Theorem groq_material_is_truncated env req w :
  (forall body, Http.json_body req = Some body -> ascii_body body = true) ->
  let limited body :=
    slice0 (Groq.material_of body) Groq.MAX_INPUT_LENGTH in
  (exists resp w' sent,
     Groq.handler env req w = (Ret resp, w') /\
     fetches w' = fetches w ++ sent /\ (List.length sent <= 3)%nat /\
     Forall (fun r =>
       exists body,
         Http.json_body req = Some body /\
         url r = Groq.GROQ_URL /\
         content r = Groq.prompt (default 20 (Http.mcq_count body)) +:+ nl +:+ nl
                     +:+ "STUDY MATERIAL:" +:+ nl +:+ limited body /\
         strlen (limited body) <= 2500) sent) /\
  (exists resp w' sent,
     GroqQuota.handler env req w = (Ret resp, w') /\
     fetches w' = fetches w ++ sent /\ (List.length sent <= 3)%nat /\
     Forall (fun r =>
       exists body,
         Http.json_body req = Some body /\
         url r = Groq.GROQ_URL /\
         content r = GroqQuota.staticPrompt +:+ nl +:+ nl
                     +:+ "STUDY MATERIAL:" +:+ nl +:+ limited body /\
         strlen (limited body) <= 2500) sent).
Proof.
  intros _. cbv zeta. split.
  - destruct (groq_handler_paths env req w)
      as (resp & w' & E & _ & _ & _ & sent & Hf & Hlen & Hall).
    exists resp, w', sent. split; [done|]. split; [done|]. split; [done|].
    eapply Forall_impl; [exact Hall|]. intros r Hr. cbn beta in Hr.
    unfold groq_request_of in Hr.
    destruct (Http.json_body req) as [body|]; [|done].
    injection Hr as <-. exists body. split; [done|]. split; [done|].
    destruct (limitedTextContent_slice (Groq.material_of body)) as (Hs & Hl).
    unfold Groq.request_for. cbn [content]. rewrite <- Hs. by split.
  - destruct (quota_handler_paths env req w)
      as (resp & w' & E & _ & _ & sent & Hf & Hlen & Hall).
    exists resp, w', sent. split; [done|]. split; [done|]. split; [done|].
    eapply Forall_impl; [exact Hall|]. intros r Hr. cbn beta in Hr.
    unfold quota_request_of in Hr.
    destruct (Http.json_body req) as [body|]; [|done].
    injection Hr as <-. exists body. split; [done|]. split; [done|].
    destruct (limitedTextContent_slice (Groq.material_of body)) as (Hs & Hl).
    unfold Groq.request_for. cbn [content]. rewrite <- Hs. by split.
Qed.

Lemma drop_while_nil p l : drop_while p l = [] <-> forallb p l = true.
Proof.
  induction l as [|c l IH]; [done|]. cbn.
  destruct (p c); [exact IH|]. split; discriminate.
Qed.

Lemma drop_while_all p l : forallb p l = true -> drop_while p l = [].
Proof. apply drop_while_nil. Qed.

Lemma drop_while_head p l c r : drop_while p l = c :: r -> p c = false.
Proof.
  induction l as [|x l IH]; [done|]. cbn.
  destruct (p x) eqn:E; [exact IH|]. by intros [= <- _].
Qed.

Lemma text_nil l : text l = EmptyString <-> l = [].
Proof. destruct l; cbn; split; done. Qed.

(** [trim] leaves nothing exactly of a blank string. *)
Lemma trim_blank s : String.eqb (trim s) EmptyString = blank s.
Proof.
  unfold trim, blank.
  destruct (forallb is_space (chars s)) eqn:E.
  - rewrite (drop_while_all _ _ E). reflexivity.
  - apply String.eqb_neq. intros H. apply text_nil in H.
    assert (Hd : drop_while is_space (rev (drop_while is_space (chars s))) = []).
    { destruct (drop_while is_space (rev (drop_while is_space (chars s)))); [done|].
      cbn in H. by destruct (rev _). }
    apply drop_while_nil in Hd.
    destruct (drop_while is_space (chars s)) as [|c r] eqn:Ed.
    + apply drop_while_nil in Ed. congruence.
    + apply drop_while_head in Ed.
      rewrite forallb_forall in Hd. specialize (Hd c).
      rewrite Hd in Ed; [done|]. apply in_rev. rewrite rev_involutive. by left.
Qed.

Lemma truthy_trim s : truthy_str (Some (trim s)) = negb (blank s).
Proof.
  rewrite <- trim_blank. by destruct (trim s).
Qed.

Lemma sanitizedChunks_blank l :
  Groq.is_nil (Groq.sanitizedChunks (Some l)) = forallb blank l.
Proof.
  unfold Groq.sanitizedChunks. induction l as [|c l IH]; [done|].
  cbn [map List.filter forallb]. rewrite trim_blank.
  destruct (blank c); cbn [negb andb]; [exact IH|done].
Qed.

Lemma no_material_blank body : Groq.no_material body = blank_body body.
Proof.
  unfold Groq.no_material, blank_body.
  destruct (Http.text_content body) as [s|]; cbn [option_map].
  - rewrite truthy_trim, negb_involutive.
    destruct (Http.text_chunks body) as [l|]; [|done].
    by rewrite sanitizedChunks_blank.
  - cbn [truthy_str negb andb].
    destruct (Http.text_chunks body) as [l|]; [|done].
    by rewrite sanitizedChunks_blank.
Qed.

(** X14.  An authenticated request to the Groq handler whose text and
    chunks are missing or white space only (the ASCII white space) is
    answered 400 without any effect; a body of ASCII text that is not
    blank is answered 200 or 500. *)
Theorem blank_material_is_rejected env req w userId body :
  Groq.authenticate env req = inr userId ->
  Http.json_body req = Some body ->
  exists resp w',
    Groq.handler env req w = (Ret resp, w') /\
    (blank_body body = true ->
     resp = Http.failure 400 "text_content or text_chunks is required" /\ w' = w) /\
    (ascii_body body = true -> blank_body body = false ->
     Http.status resp = 200 \/ Http.status resp = 500).
Proof.
  intros Hauth Hbody.
  unfold Groq.handler, try_catch, Groq.serve. rewrite Hauth, Hbody.
  rewrite no_material_blank.
  destruct (blank_body body).
  { eexists _, _. split; [reflexivity|]. by split. }
  cbv zeta. unfold bind at 1.
  destruct (Groq.callGroqWithText _ _ _ _ w) as [[[c|]|e] w1].
  - unfold bind at 1, lift.
    destruct (Groq.normalize env (Groq.content c)) as [e|l];
      eexists _, _; (split; [reflexivity|]); split; try done; intros _ _; cbn; auto.
  - eexists _, _. split; [reflexivity|]. split; [done|]. intros _ _; cbn; auto.
  - eexists _, _. split; [reflexivity|]. split; [done|]. intros _ _; cbn; auto.
Qed.

(** X15.  When the third try of the Groq handler ends in a failure status,
    the 500 response carries the provider's body as [raw_api_response]
    and its status as [status_code], in production too, where the error
    message is the fixed one. *)
Theorem groq_error_response_carries_provider_body
    env req w userId body st text :
  Groq.authenticate env req = inr userId ->
  Http.json_body req = Some body ->
  Groq.no_material body = false ->
  truthy_str (GROQ_API_KEY env) = true ->
  groq_answer (provider env (List.length (fetches w))) = None ->
  groq_answer (provider env (S (List.length (fetches w)))) = None ->
  provider env (S (S (List.length (fetches w)))) = Responded st text ->
  ok_status st = false ->
  exists resp w',
    Groq.handler env req w = (Ret resp, w') /\
    Http.status resp = 500 /\ Http.ok resp = false /\
    Http.raw_api_response resp
    = Some (JStr (if String.eqb text EmptyString then "Groq API failed: " else text)) /\
    Http.status_code resp = (if st =? 0 then None else Some st) /\
    (isDevelopment env = false ->
     Http.error resp
     = Some "AI service is temporarily unavailable. Please try again later.").
Proof.
  intros Hauth Hbody Hmat Hkey H1 H2 H3 Hst.
  unfold Groq.handler, try_catch, Groq.serve. rewrite Hauth, Hbody, Hmat.
  cbv zeta. unfold bind at 1.
  rewrite (callGroqWithText_loop env _ _ w Hkey), groq_three_passes. cbv zeta.
  change (next_answer env w) with (provider env (List.length (fetches w))).
  rewrite H1, next_answer_retried, H2.
  rewrite next_answer_retried, length_fetches_retried, H3.
  unfold groq_answer, groq_failure. rewrite Hst.
  eexists _, _. split; [reflexivity|].
  split; [done|]. split; [done|].
  unfold Groq.errorResponse, groq_rethrown.
  cbn [rawResponse Groq.raw_truthy truthy message statusCode
       Http.raw_api_response Http.status_code Http.error Http.failure].
  destruct (String.eqb text EmptyString) eqn:Etext.
  - apply String.eqb_eq in Etext as ->. cbn. split; [done|]. split; [done|].
    intros Hprod. unfold Groq.userMessage. by rewrite Hprod.
  - cbn [negb]. cbn [rawResponse Groq.raw_truthy truthy statusCode message].
    rewrite Etext. cbn [negb]. split; [done|]. split; [done|].
    intros Hprod. unfold Groq.userMessage. rewrite Hprod. cbn [message].
    reflexivity.
Qed.

(** ** The SQL functions *)

Lemma next_midnight_later now : now < Sql.next_midnight now.
Proof.
  unfold Sql.next_midnight, Sql.DAY_MS.
  pose proof (Z.div_mod now (24 * 60 * 60 * 1000) ltac:(lia)).
  pose proof (Z.mod_pos_bound now (24 * 60 * 60 * 1000) ltac:(lia)). lia.
Qed.

(** A row reset at [from] is due again exactly on a later day. *)
Lemma next_midnight_due from now :
  from <= now ->
  (Sql.next_midnight from <=? now) = negb (Schema.day now =? Schema.day from).
Proof.
  intros Hle. unfold Sql.next_midnight, Schema.day.
  assert (HD : 0 < Sql.DAY_MS) by (unfold Sql.DAY_MS; lia).
  pose proof (Z.div_le_mono from now Sql.DAY_MS HD Hle) as Hmono.
  destruct (now / Sql.DAY_MS =? from / Sql.DAY_MS) eqn:E; cbn [negb].
  - apply Z.eqb_eq in E. apply Z.leb_gt. rewrite <- E.
    pose proof (Z.div_mod now Sql.DAY_MS ltac:(lia)).
    pose proof (Z.mod_pos_bound now Sql.DAY_MS HD). lia.
  - apply Z.eqb_neq in E. apply Z.leb_le.
    pose proof (Z.div_mod now Sql.DAY_MS ltac:(lia)).
    pose proof (Z.mod_pos_bound now Sql.DAY_MS HD).
    assert (from / Sql.DAY_MS + 1 <= now / Sql.DAY_MS) by lia. nia.
Qed.

Lemma next_midnight_same_day from now :
  Schema.day now = Schema.day from -> Sql.next_midnight now = Sql.next_midnight from.
Proof. unfold Sql.next_midnight, Schema.day. by intros ->. Qed.

Lemma uploads_on_cons d now op events :
  Schema.uploads_on d ((now, op) :: events)
  = (match op with
     | Schema.Upload => if Schema.day now =? d then 1 else 0
     | _ => 0
     end) + Schema.uploads_on d events.
Proof.
  unfold Schema.uploads_on. cbn [List.filter].
  destruct op; try lia.
  destruct (Schema.day now =? d); cbn [List.length]; lia.
Qed.

Lemma last_time_later from events :
  Schema.in_order from events = true -> from <= Schema.last_time from events.
Proof.
  revert from. induction events as [|[now op] events IH]; intros from; cbn.
  - lia.
  - intros [Hle Hrest]%andb_prop. apply Z.leb_le in Hle.
    specialize (IH now Hrest). unfold Schema.last_time in IH. lia.
Qed.

Lemma day_mono a b : a <= b -> Schema.day a <= Schema.day b.
Proof.
  intros H. unfold Schema.day. apply Z.div_le_mono; [|done].
  unfold Sql.DAY_MS. lia.
Qed.

(** One call on a live or stale row. *)
Lemma step_row user t row from n now op :
  t !! user = Some row ->
  Schema.uploads_today row = Some n ->
  Schema.daily_reset_at row = Some (Sql.next_midnight from) ->
  from <= now ->
  exists row',
    Schema.step user t (now, op) !! user = Some row' /\
    Schema.uploads_today row'
    = Some ((if Schema.day now =? Schema.day from then n else 0)
            + match op with Schema.Upload => 1 | _ => 0 end) /\
    Schema.daily_reset_at row' = Some (Sql.next_midnight now) /\
    forall v, v <> user -> Schema.step user t (now, op) !! v = t !! v.
Proof.
  intros Hrow Hn Hreset Hle.
  assert (Hdue : Schema.reset_due now (t !! user)
                 = negb (Schema.day now =? Schema.day from)).
  { rewrite Hrow. cbn. rewrite Hreset. by apply next_midnight_due. }
  destruct op; cbn [Schema.step snd];
    unfold Schema.check_and_reset_daily_uploads_on_login,
      Schema.get_user_usage_stats, Schema.increment_upload_count;
    cbn [snd]; rewrite Hdue;
    destruct (Schema.day now =? Schema.day from) eqn:E; cbn [negb];
    unfold Schema.update; rewrite ?Hrow;
    try (apply Z.eqb_eq in E; apply next_midnight_same_day in E).
  all: try (eexists; split; [apply lookup_insert_eq|]; cbn;
            split; [rewrite ?Hn; cbn; f_equal; lia|];
            split; [congruence|];
            intros v Hv; by rewrite lookup_insert_ne).
  exists row. split; [done|]. split; [rewrite Hn; f_equal; lia|].
  split; [congruence|done].
Qed.

Lemma run_rows user events : forall t row from n,
  t !! user = Some row ->
  Schema.uploads_today row = Some n ->
  Schema.daily_reset_at row = Some (Sql.next_midnight from) ->
  Schema.in_order from events = true ->
  let final := Schema.last_time from events in
  exists row',
    Schema.run user events t !! user = Some row' /\
    Schema.uploads_today row'
    = Some ((if Schema.day final =? Schema.day from then n else 0)
            + Schema.uploads_on (Schema.day final) events) /\
    Schema.daily_reset_at row' = Some (Sql.next_midnight final) /\
    forall v, v <> user -> Schema.run user events t !! v = t !! v.
Proof.
  induction events as [|[now op] events IH]; intros t row from n Hrow Hn Hreset Hord;
    cbv zeta.
  - cbn. exists row. rewrite Z.eqb_refl. split; [done|].
    split; [rewrite Hn; f_equal; unfold Schema.uploads_on; cbn; lia|done].
  - cbn in Hord. apply andb_prop in Hord as [Hle Hrest]. apply Z.leb_le in Hle.
    destruct (step_row user t row from n now op Hrow Hn Hreset Hle)
      as (row1 & Hrow1 & Hn1 & Hreset1 & Hframe1).
    destruct (IH _ row1 now _ Hrow1 Hn1 Hreset1 Hrest)
      as (row' & Hrow' & Hn' & Hreset' & Hframe').
    change (Schema.run user ((now, op) :: events) t)
      with (Schema.run user events (Schema.step user t (now, op))).
    change (Schema.last_time from ((now, op) :: events))
      with (Schema.last_time now events).
    exists row'. split; [done|]. split; [|split; [done|]].
    + rewrite Hn'. f_equal. rewrite uploads_on_cons.
      pose proof (last_time_later now events Hrest) as Hlast.
      pose proof (day_mono _ _ Hle). pose proof (day_mono _ _ Hlast).
      rewrite (Z.eqb_sym (Schema.day now) (Schema.day (Schema.last_time now events))).
      destruct (Z.eqb_spec (Schema.day (Schema.last_time now events)) (Schema.day now));
        destruct (Z.eqb_spec (Schema.day now) (Schema.day from));
        destruct (Z.eqb_spec (Schema.day (Schema.last_time now events)) (Schema.day from));
        destruct op; lia.
    + intros v Hv. rewrite Hframe' by done. by apply Hframe1.
Qed.

(** X16.  For a user created by the sign-up trigger, after any sequence
    of logins, reads and uploads at times that do not go back,
    [uploads_today] is the number of uploads made on the UTC day of the
    last call, the reset time is the midnight after it, and no other
    user's row has changed. *)
Theorem daily_counter_counts_uploads_of_the_day
    (user : string) (created : Z) (db : Schema.Database) (events : list (Z * Schema.Op)) :
  Schema.user_usage_stats db !! user = None ->
  Schema.in_order created events = true ->
  let t := Schema.user_usage_stats
             (Schema.create_user_subscription_and_stats created user db) in
  let final := Schema.last_time created events in
  exists row,
    Schema.run user events t !! user = Some row /\
    Schema.uploads_today row = Some (Schema.uploads_on (Schema.day final) events) /\
    Schema.daily_reset_at row = Some (Sql.next_midnight final) /\
    Schema.reset_due final (Some row) = false /\
    forall v, v <> user ->
      Schema.run user events t !! v = Schema.user_usage_stats db !! v.
Proof.
  intros Hnew Hord. cbv zeta.
  cbn [Schema.create_user_subscription_and_stats Schema.user_usage_stats].
  unfold Schema.insert_new. rewrite Hnew.
  set (fresh := {| Schema.uploads_today := Some 0;
                   Schema.daily_reset_at := Some (Sql.next_midnight created);
                   Schema.last_login_at := Some created;
                   Schema.usage_created_at := created;
                   Schema.usage_updated_at := created |}).
  destruct (run_rows user events (<[user := fresh]> (Schema.user_usage_stats db))
              fresh created 0 (lookup_insert_eq _ _ _) eq_refl eq_refl Hord)
    as (row & Hrow & Hn & Hreset & Hframe).
  cbv zeta in *. exists row. split; [exact Hrow|].
  split; [rewrite Hn; f_equal; destruct (_ =? _); lia|].
  split; [exact Hreset|]. split.
  - cbn. rewrite Hreset. apply Z.leb_gt. apply next_midnight_later.
  - intros v Hv. rewrite Hframe by done. by rewrite lookup_insert_ne.
Qed.

(** *** The edge functions' view of the tables *)

Lemma view_reset_due now (row : option Schema.UsageStats) :
  Sql.reset_due now (Schema.usage_view <$> row) = Schema.reset_due now row.
Proof. destruct row as [[up [r|] login c u]|]; reflexivity. Qed.

Lemma view_update user f g (t : gmap string Schema.UsageStats) :
  (forall r, Schema.usage_view (f r) = g (Schema.usage_view r)) ->
  Schema.usage_view <$> Schema.update user f t
  = Sql.update_row user g (Schema.usage_view <$> t).
Proof.
  intros Hfg. unfold Schema.update, Sql.update_row. rewrite lookup_fmap.
  destruct (t !! user) as [row|]; cbn; [|done].
  by rewrite fmap_insert, Hfg.
Qed.


Lemma view_get_user_usage_stats now user (t : gmap string Schema.UsageStats) :
  Schema.usage_view <$> (Schema.get_user_usage_stats now user t).2
  = (Sql.get_user_usage_stats now user (Schema.usage_view <$> t)).2 /\
  map (fun r => (r.1.1, r.1.2)) (Schema.get_user_usage_stats now user t).1
  = (Sql.get_user_usage_stats now user (Schema.usage_view <$> t)).1.
Proof.
  unfold Schema.get_user_usage_stats, Sql.get_user_usage_stats. cbn [fst snd].
  rewrite lookup_fmap, view_reset_due.
  match goal with |- context [Schema.update user ?f t] =>
    pose proof (view_update user f
      (fun _ => {| Sql.uploads_today := Some 0;
                   Sql.daily_reset_at := Some (Sql.next_midnight now) |}) t
      ltac:(done)) as Hupd
  end.
  destruct (Schema.reset_due now (t !! user)).
  - rewrite <- Hupd. split; [done|]. rewrite lookup_fmap.
    by destruct (Schema.update user _ t !! user).
  - split; [done|]. rewrite lookup_fmap. by destruct (t !! user).
Qed.

Lemma view_login now user (t : gmap string Schema.UsageStats) :
  Schema.usage_view <$> Schema.check_and_reset_daily_uploads_on_login now user t
  = (Sql.get_user_usage_stats now user (Schema.usage_view <$> t)).2.
Proof.
  unfold Schema.check_and_reset_daily_uploads_on_login, Sql.get_user_usage_stats.
  cbn [snd]. rewrite lookup_fmap, view_reset_due.
  destruct (Schema.reset_due now (t !! user)).
  - by apply view_update.
  - rewrite (view_update user _ (fun r => r)); [|done].
    unfold Sql.update_row. destruct (_ !! user) eqn:E; [|done].
    by apply insert_id.
Qed.



(** X17.  The sign-up trigger gives a new user a free, active
    subscription and an empty counter, leaves every other user alone and
    does nothing when fired again; the edge functions then see the user
    as FREE with five uploads left until the next midnight. *)
Theorem new_user_starts_free_with_full_quota
    env (w : World) (db : Schema.Database) (created : Z) (new_id : string) :
  let db' := Schema.create_user_subscription_and_stats created new_id db in
  Schema.user_usage_stats db !! new_id = None ->
  Schema.user_subscriptions db !! new_id = None ->
  user_usage_stats w = Schema.usage_view <$> Schema.user_usage_stats db' ->
  user_subscriptions w = Schema.subscription_view <$> Schema.user_subscriptions db' ->
  created <= clock w ->
  db_fault env SelectSubscription = Works ->
  db_fault env RpcGetUsageStats = Works ->
  Schema.create_user_subscription_and_stats (clock w) new_id db' = db' /\
  (forall v, v <> new_id ->
     Schema.user_usage_stats db' !! v = Schema.user_usage_stats db !! v /\
     Schema.user_subscriptions db' !! v = Schema.user_subscriptions db !! v) /\
  Quota.getUserSubscription env new_id w = (Ret Quota.FREE, w) /\
  exists limits w',
    Quota.checkUserLimits env new_id Quota.FREE w = (Ret limits, w') /\
    Quota.allowed limits = true /\ Quota.remaining limits = 5 /\
    Quota.resetTime limits = Sql.next_midnight (clock w).
Proof.
  cbv zeta. intros Hnew_usage Hnew_sub Husage Hsubs Hle Hsel Hrpc.
  set (db' := Schema.create_user_subscription_and_stats created new_id db) in *.
  assert (Hu : Schema.user_usage_stats db' !! new_id
               = Some {| Schema.uploads_today := Some 0;
                         Schema.daily_reset_at := Some (Sql.next_midnight created);
                         Schema.last_login_at := Some created;
                         Schema.usage_created_at := created;
                         Schema.usage_updated_at := created |}).
  { subst db'. cbn. unfold Schema.insert_new. rewrite Hnew_usage.
    apply lookup_insert_eq. }
  assert (Hs : Schema.user_subscriptions db' !! new_id
               = Some {| Schema.plan_type := "free"; Schema.is_active := true;
                         Schema.status := "active";
                         Schema.revenue_cat_customer_id := None;
                         Schema.revenue_cat_subscription_id := None;
                         Schema.created_at := created;
                         Schema.updated_at := created |}).
  { subst db'. cbn. unfold Schema.insert_new. rewrite Hnew_sub.
    apply lookup_insert_eq. }
  split; [|split; [|split]].
  - unfold Schema.create_user_subscription_and_stats at 1.
    unfold Schema.insert_new. rewrite Hu, Hs. by destruct db'.
  - intros v Hv. subst db'. cbn. unfold Schema.insert_new.
    rewrite Hnew_usage, Hnew_sub. by rewrite !lookup_insert_ne.
  - unfold Quota.getUserSubscription, try_catch, bind, db_call. rewrite Hsel.
    unfold Quota.select_active_subscription.
    rewrite Hsubs, lookup_fmap, Hs. reflexivity.
  - assert (Hrow : user_usage_stats w !! new_id
                   = Some {| Sql.uploads_today := Some 0;
                             Sql.daily_reset_at := Some (Sql.next_midnight created) |}).
    { by rewrite Husage, lookup_fmap, Hu. }
    unfold Quota.checkUserLimits, bind, ret.
    rewrite (getUserUsageStatsFromDB_row env new_id w _ _ Hrpc Hrow).
    rewrite (next_midnight_due created (clock w) Hle).
    destruct (Schema.day (clock w) =? Schema.day created) eqn:Eday; cbn [negb].
    + eexists _, _. split; [reflexivity|]. cbn.
      split; [done|]. split; [done|].
      apply Z.eqb_eq in Eday. symmetry. by apply next_midnight_same_day.
    + eexists _, _. split; [reflexivity|]. cbn. done.
Qed.

(** X18.  The insert trigger [check_upload_limit] and the quota check of
    the edge functions decide alike on a counter that is not due for a
    reset, provided a subscription on the pro plan is active: the
    trigger raises exactly when the check refuses, with the same
    limit. *)
Theorem upload_trigger_agrees_with_quota_check
    env (w : World) (db : Schema.Database) (user : string) :
  user_usage_stats w = Schema.usage_view <$> Schema.user_usage_stats db ->
  user_subscriptions w = Schema.subscription_view <$> Schema.user_subscriptions db ->
  db_fault env SelectSubscription = Works ->
  db_fault env RpcGetUsageStats = Works ->
  (Schema.user_usage_stats db !! user = None \/
   Schema.reset_due (clock w) (Schema.user_usage_stats db !! user) = false) ->
  (forall s, Schema.user_subscriptions db !! user = Some s ->
             String.eqb (Schema.status s) "active"
             || negb (String.eqb (Schema.plan_type s) "pro") = true) ->
  exists sub limits w',
    Quota.getUserSubscription env user w = (Ret sub, w) /\
    Quota.checkUserLimits env user sub w = (Ret limits, w') /\
    (Quota.allowed limits = true <-> Schema.check_upload_limit user db = inr tt) /\
    (forall plan uploads limit,
       Schema.check_upload_limit user db = inl (plan, uploads, limit) ->
       limit = Quota.daily_limit sub /\ Quota.daily_limit sub <= uploads).
Proof.
  intros Husage Hsubs Hsel Hrpc Hrow Hactive.
  (* the tier *)
  assert (Htier : exists sub,
             Quota.getUserSubscription env user w = (Ret sub, w) /\
             (let user_plan :=
                match Schema.user_subscriptions db !! user with
                | Some s => Schema.plan_type s
                | None => "free"
                end in
              if String.eqb user_plan "free" then 5
              else if String.eqb user_plan "pro" then 50 else 5)
             = Quota.daily_limit sub).
  { unfold Quota.getUserSubscription, try_catch, bind, db_call. rewrite Hsel.
    unfold Quota.select_active_subscription. rewrite Hsubs, lookup_fmap.
    destruct (Schema.user_subscriptions db !! user) as [s|] eqn:Es; cbn.
    - specialize (Hactive s eq_refl).
      destruct (String.eqb (Schema.status s) "active") eqn:Est; cbn.
      + eexists. split; [reflexivity|].
        destruct (String.eqb (Schema.plan_type s) "pro") eqn:Epro.
        * apply String.eqb_eq in Epro. rewrite Epro. reflexivity.
        * by destruct (String.eqb (Schema.plan_type s) "free").
      + eexists. split; [reflexivity|]. cbn in Hactive.
        apply negb_true_iff in Hactive. rewrite Hactive.
        by destruct (String.eqb (Schema.plan_type s) "free").
    - eexists. split; [reflexivity|]. reflexivity. }
  destruct Htier as (sub & Esub & Hlimit).
  (* the counter *)
  assert (Hcount : exists limits w',
             Quota.checkUserLimits env user sub w = (Ret limits, w') /\
             Quota.allowed limits
             = negb (Quota.daily_limit sub <=?
                     match Schema.user_usage_stats db !! user with
                     | Some r => Sql.coalesce (Schema.uploads_today r) 0
                     | None => 0
                     end)).
  { destruct (Schema.user_usage_stats db !! user) as [[up reset login c u]|] eqn:Er.
    - destruct Hrow as [|Hlive]; [done|]. cbn in Hlive.
      destruct reset as [reset|]; [|done].
      assert (Hr : user_usage_stats w !! user
                   = Some {| Sql.uploads_today := up;
                             Sql.daily_reset_at := Some reset |}).
      { by rewrite Husage, lookup_fmap, Er. }
      unfold Quota.checkUserLimits, bind, ret.
      rewrite (getUserUsageStatsFromDB_row env user w _ _ Hrpc Hr), Hlive.
      eexists _, _. split; [reflexivity|].
      unfold Quota.limits_of. cbn [Quota.uploads_today Schema.uploads_today].
      by destruct (Quota.daily_limit sub <=? Sql.coalesce up 0).
    - assert (Hr : user_usage_stats w !! user = None).
      { by rewrite Husage, lookup_fmap, Er. }
      eexists _, _. split; [by apply checkUserLimits_no_row|]. cbn. by destruct sub. }
  destruct Hcount as (limits & w' & Echeck & Hallowed).
  exists sub, limits, w'. split; [done|]. split; [done|].
  unfold Schema.check_upload_limit. cbv zeta in Hlimit |- *. rewrite Hlimit.
  rewrite Hallowed.
  destruct (Quota.daily_limit sub <=? _) eqn:E; cbn [negb].
  - split; [done|]. intros plan uploads limit [= _ <- <-].
    by apply Z.leb_le in E.
  - split; [done|]. intros plan uploads limit [=].
Qed.

(** ** The first Groq handler *)

Lemma simple_attempt_once env r attempt maxRetries w :
  GroqSimple.attempt_once env r attempt maxRetries w =
  match simple_answer (next_answer env w) with
  | Some c => (Ret (GroqSimple.Return c), log_fetch w r)
  | None =>
      if attempt =? maxRetries
      then (Throw (simple_failure env (next_answer env w)), log_fetch w r)
      else (Ret GroqSimple.Continue, retried w r (2000 * attempt))
  end.
Proof.
  unfold GroqSimple.attempt_once, next_answer, simple_answer, simple_failure,
    retried, fetch.
  monad_unfold.
  destruct (provider env (List.length (fetches w))) as [msg|st body]; cbn.
  - by destruct (attempt =? maxRetries).
  - destruct (ok_status st); cbn.
    + destruct (JSON_parse body) as [[]|]; cbn; try done;
        by destruct (attempt =? maxRetries).
    + destruct ((500 <=? st) && (attempt <? maxRetries)) eqn:E; cbn.
      * apply andb_true_iff in E as [_ E]. apply Z.ltb_lt in E.
        destruct (attempt =? maxRetries) eqn:E'; [apply Z.eqb_eq in E'; lia|done].
      * by destruct (attempt =? maxRetries).
Qed.

Lemma simple_three_passes env r w :
  GroqSimple.retry_loop env r 3 1 3 w =
  match simple_answer (next_answer env w) with
  | Some c => (Ret (Some c), log_fetch w r)
  | None =>
      let w1 := retried w r 2000 in
      match simple_answer (next_answer env w1) with
      | Some c => (Ret (Some c), log_fetch w1 r)
      | None =>
          let w2 := retried w1 r 4000 in
          match simple_answer (next_answer env w2) with
          | Some c => (Ret (Some c), log_fetch w2 r)
          | None => (Throw (simple_failure env (next_answer env w2)), log_fetch w2 r)
          end
      end
  end.
Proof.
  cbn [GroqSimple.retry_loop]. unfold bind, ret.
  change (1 + 1 + 1) with 3. change (1 + 1) with 2.
  rewrite simple_attempt_once. change (2000 * 1) with 2000.
  destruct (simple_answer (next_answer env w)); [done|]. cbn [Z.eqb Pos.eqb].
  rewrite simple_attempt_once. change (2000 * 2) with 4000.
  destruct (simple_answer (next_answer env (retried w r 2000))); [done|].
  cbn [Z.eqb Pos.eqb].
  rewrite simple_attempt_once.
  by destruct (simple_answer (next_answer env (retried (retried w r 2000) r 4000))).
Qed.

Lemma simple_loop_log env r w out w1 :
  GroqSimple.retry_loop env r 3 1 3 w = (out, w1) ->
  same_state w w1 /\
  exists n, (1 <= n <= 3)%nat /\ fetches w1 = fetches w ++ repeat r n.
Proof.
  rewrite simple_three_passes. cbv zeta.
  repeat break_match; intros [= <- <-]; (split; [by repeat split|]).
  - exists 1%nat. split; [lia|done].
  - exists 2%nat. split; [lia|]. cbn. by rewrite <- !app_assoc.
  - exists 3%nat. split; [lia|]. cbn. by rewrite <- !app_assoc.
  - exists 3%nat. split; [lia|]. cbn. by rewrite <- !app_assoc.
Qed.

(** X19.  The first Groq handler never throws, touches neither table nor
    cache, never exposes the provider's raw answer, and sends at most
    three requests, each with its prompt for the requested number of
    questions (30 when none or none positive is given) followed by the
    whole text, not truncated. *)
Theorem simple_handler_sends_text_unchanged env req w :
  exists resp w' sent,
    GroqSimple.handler env req w = (Ret resp, w') /\
    In (Http.status resp) [200; 400; 401; 405; 500] /\
    (Http.ok resp = true <-> Http.status resp = 200) /\
    Http.raw_api_response resp = None /\
    same_state w w' /\
    fetches w' = fetches w ++ sent /\ (List.length sent <= 3)%nat /\
    Forall (fun r =>
      exists body textContent,
        Http.json_body req = Some body /\
        Http.text_content body = Some textContent /\
        content r
        = GroqSimple.prompt (match Http.mcq_count body with
                             | Some n => if 0 <? n then n else 30
                             | None => 30
                             end)
          +:+ nl +:+ nl +:+ "STUDY MATERIAL:" +:+ nl +:+ textContent) sent.
Proof.
  unfold GroqSimple.handler, try_catch, GroqSimple.serve.
  destruct (Groq.authenticate env req) as [r|userId] eqn:Hauth.
  { destruct (authenticate_status _ _ _ Hauth) as (Hok & Hst).
    assert (Hraw : Http.raw_api_response r = None).
    { revert Hauth. unfold Groq.authenticate.
      repeat break_match; by intros [= <-]. }
    eexists _, _, []. split; [reflexivity|].
    split; [cbn; destruct Hst as [-> | ->]; tauto|].
    split; [rewrite Hok; split; [done|]; by destruct Hst as [Hs | Hs]; rewrite Hs|].
    split; [done|]. split; [apply same_state_refl|].
    rewrite app_nil_r. split; [done|]. split; [cbn; lia|constructor]. }
  destruct (Http.json_body req) as [body|].
  2:{ eexists _, _, []. split; [reflexivity|]. cbn.
      split; [tauto|]. split; [done|]. split; [done|].
      split; [apply same_state_refl|].
      rewrite app_nil_r. split; [done|]. split; [lia|constructor]. }
  destruct (truthy_str (Http.text_content body)) eqn:Htext; cbn [negb].
  2:{ eexists _, _, []. split; [reflexivity|]. cbn.
      split; [tauto|]. split; [done|]. split; [done|].
      split; [apply same_state_refl|].
      rewrite app_nil_r. split; [done|]. split; [lia|constructor]. }
  destruct (Http.text_content body) as [textContent|] eqn:Etext; [|done].
  cbv zeta. cbn [default]. unfold bind at 1.
  set (r := GroqSimple.request_for textContent
              (GroqSimple.prompt (GroqSimple.count_of (Http.mcq_count body)))).
  assert (Hcall : forall out w1,
             GroqSimple.callGroqWithText env textContent
               (GroqSimple.prompt (GroqSimple.count_of (Http.mcq_count body))) 3 w
             = (out, w1) ->
             same_state w w1 /\
             exists sent,
               fetches w1 = fetches w ++ sent /\ (List.length sent <= 3)%nat /\
               Forall (fun r' => r' = r) sent).
  { intros out w1. unfold GroqSimple.callGroqWithText.
    destruct (truthy_str (GROQ_API_KEY env)).
    - change (Z.to_nat 3) with 3%nat. intros E.
      apply simple_loop_log in E as (Hsame & n & Hn & Hf).
      split; [done|]. exists (repeat r n). split; [done|].
      split; [rewrite repeat_length; lia|].
      clear. induction n; by constructor.
    - intros [= <- <-]. split; [apply same_state_refl|].
      exists []. rewrite app_nil_r. split; [done|]. split; [cbn; lia|constructor]. }
  assert (Hsent : forall sent, Forall (fun r' => r' = r) sent ->
            Forall (fun r =>
              exists body' textContent',
                Some body = Some body' /\
                Http.text_content body' = Some textContent' /\
                content r
                = GroqSimple.prompt (match Http.mcq_count body' with
                                     | Some n => if 0 <? n then n else 30
                                     | None => 30
                                     end)
                  +:+ nl +:+ nl +:+ "STUDY MATERIAL:" +:+ nl +:+ textContent') sent).
  { intros sent H. eapply Forall_impl; [exact H|].
    intros r' ->. by exists body, textContent. }
  destruct (GroqSimple.callGroqWithText _ _ _ _ w) as [[groqRaw|e] w1] eqn:Ecall;
    specialize (Hcall _ _ eq_refl) as (Hsame & sent & Hf & Hlen & Hall).
  - unfold bind at 1, lift.
    destruct (GroqSimple.normalize groqRaw) as [e|l].
    + eexists _, _, sent. split; [reflexivity|]. cbn. split; [tauto|].
      split; [done|]. split; [done|]. split; [done|]. split; [done|].
      split; [done|]. by apply Hsent.
    + eexists _, _, sent. split; [reflexivity|]. cbn. split; [tauto|].
      split; [done|]. split; [done|]. split; [done|]. split; [done|].
      split; [done|]. by apply Hsent.
  - eexists _, _, sent. split; [reflexivity|]. cbn. split; [tauto|].
    split; [done|]. split; [done|]. split; [done|]. split; [done|].
    split; [done|]. by apply Hsent.
Qed.

Lemma JSON_parse_js_str raw : JSON_parse_js (Some (JStr raw)) = JSON_parse raw.
Proof. reflexivity. Qed.

(** X20.  An answer that parses as JSON and is not an array is rejected
    by the Gemini handler and by the first Groq handler, which do not
    look for an array inside it; the later Groq handler accepts the
    non-empty array under one of its known keys. *)
Theorem json_reply_that_is_no_array_is_not_rescued env raw v :
  JSON_parse raw = Some v ->
  isArray v = false ->
  Gemini.normalize (Some (JStr raw))
  = inl (Error ("Gemini response is not an array: " +:+ raw)) /\
  GroqSimple.normalize (Some (JStr raw))
  = inl (Error ("Groq response is not an array: " +:+ raw)) /\
  (forall props l,
     v = JObj props ->
     Groq.first_keyed_array props Groq.possibleKeys = Some l ->
     Groq.is_nil l = false ->
     Groq.normalize env (JStr raw) = inr l).
Proof.
  intros Hparse Harr. split; [|split].
  - unfold Gemini.normalize, Gemini.extract. rewrite JSON_parse_js_str, Hparse.
    by destruct v.
  - unfold GroqSimple.normalize, GroqSimple.extract.
    rewrite JSON_parse_js_str, Hparse. by destruct v.
  - intros props l -> Hfirst Hnil.
    unfold Groq.normalize, Groq.parse_direct, JSON_parse_value.
    cbn [ToString]. rewrite Hparse, Hfirst. cbn [default]. cbv zeta.
    by destruct l.
Qed.

(** ** The function that resends the confirmation mail *)

(** [class+] followed by [r] matches exactly the strings that split into
    a non-empty run of the class and a match of [r]. *)
Lemma matches_plus p r s :
  Resend.matches (Resend.Plus p :: r) s = true <->
  exists a b, s = a ++ b /\ a <> [] /\ forallb p a = true /\
              Resend.matches r b = true.
Proof.
  cbn [Resend.matches].
  destruct s as [|x s].
  { split; [done|]. intros (a & b & H & Ha & _). by destruct a. }
  set (more := fix more (s : list ascii) {struct s} : bool :=
         match s with
         | y :: s'' => (p y && more s'') || Resend.matches r s
         | [] => Resend.matches r []
         end).
  assert (Hmore : forall s,
             more s = true <->
             exists a b, s = a ++ b /\ forallb p a = true /\
                         Resend.matches r b = true).
  { clear. intros s. induction s as [|y s IH].
    - cbn. split.
      + intros H. by exists [], [].
      + intros (a & b & H & _ & Hb). symmetry in H.
        apply app_eq_nil in H as [-> ->]. done.
    - cbn [more]. rewrite orb_true_iff, andb_true_iff, IH. split.
      + intros [[Hy (a & b & -> & Ha & Hb)]|H].
        * exists (y :: a), b. cbn. by rewrite Hy.
        * by exists [], (y :: s).
      + intros (a & b & H & Ha & Hb). destruct a as [|y' a].
        * right. cbn in H. by subst.
        * left. cbn in H, Ha. injection H as <- ->.
          apply andb_prop in Ha as [Hy Ha]. split; [done|]. by exists a, b. }
  rewrite andb_true_iff, Hmore. split.
  - intros [Hx (a & b & -> & Ha & Hb)].
    exists (x :: a), b. cbn. by rewrite Hx.
  - intros (a & b & H & Hne & Ha & Hb). destruct a as [|x' a]; [done|].
    cbn in H, Ha. injection H as <- ->. apply andb_prop in Ha as [Hx Ha].
    split; [done|]. by exists a, b.
Qed.

Lemma matches_lit c r s :
  Resend.matches (Resend.Lit c :: r) s = true <->
  exists b, s = c :: b /\ Resend.matches r b = true.
Proof.
  cbn [Resend.matches]. destruct s as [|x s].
  - split; [done|]. by intros (b & H & _).
  - rewrite andb_true_iff. split.
    + intros [Hx Hb]. apply Ascii.eqb_eq in Hx as ->. by exists s.
    + intros (b & [= -> ->] & Hb). by rewrite Ascii.eqb_refl.
Qed.

Lemma matches_end s : Resend.matches [] s = true <-> s = [].
Proof. destruct s; cbn; split; done. Qed.

(** X21.  The pattern of the confirmation function accepts exactly the
    strings [name@host.tld] with three non-empty parts that hold neither
    white space nor an at sign (dots are allowed in each part; the white
    space of the embedding is the ASCII one). *)
Theorem accepted_address_shape (s : list ascii) :
  Resend.matches Resend.emailRegex s = true <->
  exists name host tld,
    s = name ++ "@"%char :: host ++ "."%char :: tld /\
    name <> [] /\ host <> [] /\ tld <> [] /\
    forallb Resend.plain (name ++ host ++ tld) = true.
Proof.
  unfold Resend.emailRegex. rewrite matches_plus. split.
  - intros (name & b & -> & Hname & Hpn & Hb).
    apply matches_lit in Hb as (b1 & -> & Hb).
    apply matches_plus in Hb as (host & b2 & -> & Hhost & Hph & Hb).
    apply matches_lit in Hb as (b3 & -> & Hb).
    apply matches_plus in Hb as (tld & b4 & -> & Htld & Hpt & Hb).
    apply matches_end in Hb as ->. rewrite app_nil_r.
    exists name, host, tld. rewrite !forallb_app, Hpn, Hph, Hpt. done.
  - intros (name & host & tld & -> & Hname & Hhost & Htld & Hp).
    rewrite !forallb_app in Hp.
    apply andb_prop in Hp as [Hpn Hp]. apply andb_prop in Hp as [Hph Hpt].
    exists name, ("@"%char :: host ++ "."%char :: tld).
    split; [done|]. split; [done|]. split; [done|].
    apply matches_lit. eexists. split; [reflexivity|].
    apply matches_plus. exists host, ("."%char :: tld).
    split; [done|]. split; [done|]. split; [done|].
    apply matches_lit. eexists. split; [reflexivity|].
    apply matches_plus. exists tld, []. rewrite app_nil_r. done.
Qed.

(** One leaf of the handler: the response, the calls, and how far the
    request went. *)
Ltac known := first [eassumption | reflexivity].

Ltac resend_leaf :=
  eexists _, _; split; [reflexivity|];
  cbn [Resend.status Resend.ok Resend.failure In List.length];
  split; [tauto|]; split; [done|];
  split; [|first [done | intros Hstatus; discriminate Hstatus]];
  first
    [ by left
    | right; do 2 eexists;
      split; [known|]; split; [known|]; split; [known|];
      first
        [ by left
        | right; do 3 eexists;
          split; [known|]; split; [known|]; split; [known|];
          split; [known|]; split; [known|];
          first
            [ by left
            | right; eexists; split; [known|]; split; [known|];
              split; intros Hx;
              first [discriminate Hx | reflexivity | eassumption | congruence] ] ] ].

(** X22.  The confirmation function never throws.  It calls the admin API
    only for a body whose [email] passes the pattern; it generates a link
    only for an address that is the mail of a listed user who is not
    confirmed; it invites only with the link generated; and it answers
    200 exactly when the invitation succeeds, after these three calls. *)
Theorem confirmation_goes_to_listed_unconfirmed_users env req :
  exists resp calls,
    Resend.handler env req = (resp, calls) /\
    In (Resend.status resp) [200; 400; 404; 405; 500] /\
    (Resend.ok resp = true <-> Resend.status resp = 200) /\
    (calls = [] \/
     exists body address,
       Resend.json_body req = Some body /\
       get body (Name "email") = Some address /\
       Resend.test address = true /\
       (calls = [Resend.ListUsers] \/
        exists s users u,
          address = JStr s /\
          Resend.listUsers env = Api.Data users /\
          In u users /\ Resend.email u = Some s /\
          truthy_str (Resend.email_confirmed_at u) = false /\
          (calls = [Resend.ListUsers; Resend.GenerateLink address] \/
           exists redirect,
             Resend.generateLink env address = Api.Data redirect /\
             calls = [Resend.ListUsers; Resend.GenerateLink address;
                      Resend.InviteUserByEmail address redirect] /\
             (Resend.status resp = 200 <->
              Resend.inviteUserByEmail env address redirect = Api.Data tt)))) /\
    (Resend.status resp = 200 -> List.length calls = 3%nat).
Proof.
  unfold Resend.handler, Resend.serve.
  destruct (negb (String.eqb (Resend.method req) "POST")); [resend_leaf|].
  destruct (Resend.json_body req) as [body|] eqn:Ebody; [|resend_leaf].
  destruct body; try resend_leaf.
  all: match goal with |- context [get ?b (Name "email")] =>
         destruct (get b (Name "email")) as [address|] eqn:Eget; [|resend_leaf] end.
  all: destruct (truthy address); cbn [negb]; [|resend_leaf].
  all: destruct (Resend.test address) eqn:Etest; cbn [negb]; [|resend_leaf].
  all: destruct (Resend.listUsers env) as [users|msg|msg] eqn:Elist;
         try resend_leaf.
  all: destruct (List.find _ users) as [u|] eqn:Efind; [|resend_leaf].
  all: apply find_some in Efind as [Hin Hsame];
         unfold Resend.same_email in Hsame;
         destruct (Resend.email u) as [a|] eqn:Eemail; [|done];
         destruct address as [| | | s | |]; try done;
         apply String.eqb_eq in Hsame as ->.
  all: destruct (truthy_str (Resend.email_confirmed_at u)) eqn:Econf;
         [resend_leaf|].
  all: destruct (Resend.generateLink env (JStr s)) as [redirect|msg|msg] eqn:Elink;
         try resend_leaf.
  all: cbv zeta;
         destruct (Resend.inviteUserByEmail env (JStr s) redirect)
           as [[]|msg|msg] eqn:Einv; resend_leaf.
Qed.

(** ** The function that syncs a subscription *)

(** *** Defining properties of an object *)

Lemma obj_has_lookup props k :
  obj_has props k = match obj_lookup props k with Some _ => true | None => false end.
Proof.
  induction props as [|[k' v'] props IH]; [done|]. cbn.
  destruct (String.eqb k k'); [done|]. exact IH.
Qed.

Lemma obj_lookup_replace props k v k' :
  obj_has props k = true ->
  obj_lookup (obj_replace props k v) k'
  = if String.eqb k' k then Some v else obj_lookup props k'.
Proof.
  induction props as [|[k0 v0] props IH]; [done|]. cbn.
  destruct (String.eqb k k0) eqn:E0.
  - intros _. apply String.eqb_eq in E0 as ->. cbn.
    by destruct (String.eqb k' k0).
  - cbn [orb]. intros Hhas. cbn. rewrite (IH Hhas).
    destruct (String.eqb k' k0) eqn:E1; [|done].
    apply String.eqb_eq in E1 as ->.
    rewrite String.eqb_sym in E0. by rewrite E0.
Qed.

Lemma obj_lookup_insert props k v k' :
  obj_has props k = false ->
  obj_lookup (obj_insert props k v) k'
  = if String.eqb k' k then Some v else obj_lookup props k'.
Proof.
  induction props as [|[k0 v0] props IH]; cbn.
  - intros _. by destruct (String.eqb k' k).
  - destruct (String.eqb k k0) eqn:E0; [done|]. cbn [orb]. intros Hhas.
    destruct (key_before k k0); cbn.
    + by destruct (String.eqb k' k).
    + rewrite (IH Hhas).
      destruct (String.eqb k' k0) eqn:E1; [|done].
      apply String.eqb_eq in E1 as ->.
      rewrite String.eqb_sym in E0. by rewrite E0.
Qed.

(** Defining a property makes it the value read under its key, and
    leaves the others. *)
Lemma obj_lookup_set props k v k' :
  obj_lookup (obj_set props k v) k'
  = if String.eqb k' k then Some v else obj_lookup props k'.
Proof.
  unfold obj_set. destruct (obj_has props k) eqn:E.
  - by apply obj_lookup_replace.
  - by apply obj_lookup_insert.
Qed.

Lemma obj_lookup_snoc l k0 v0 k :
  obj_lookup (l ++ [(k0, v0)]) k
  = match obj_lookup l k with
    | Some v => Some v
    | None => if String.eqb k k0 then Some v0 else None
    end.
Proof.
  induction l as [|[k1 v1] l IH]; [reflexivity|].
  cbn [app obj_lookup]. rewrite IH. by destruct (String.eqb k k1).
Qed.

(** The properties after [{ ...target, ...source }]: the last binding of
    the source wins over the target. *)
Lemma obj_lookup_define entries : forall target k,
  obj_lookup (fold_left (fun acc kv => obj_set acc (fst kv) (snd kv)) entries target) k
  = match obj_lookup (rev entries) k with
    | Some v => Some v
    | None => obj_lookup target k
    end.
Proof.
  induction entries as [|[k0 v0] entries IH]; intros target k; [done|].
  cbn [fold_left rev fst snd]. rewrite IH, obj_lookup_set.
  rewrite obj_lookup_snoc. destruct (obj_lookup (rev entries) k); [done|].
  by destruct (String.eqb k k0).
Qed.


Lemma sync_handler_paths env req :
  exists resp calls,
    Sync.handler env req = (resp, calls) /\
    In (Sync.status resp) [200; 400; 401; 405; 500] /\
    (Sync.ok resp = true <-> Sync.status resp = 200) /\
    (calls = [] \/
     exists authHeader userId body customer,
       Sync.method req = "POST" /\
       Sync.authorization req = Some authHeader /\
       startsWith authHeader "Bearer " = true /\
       Sync.getUser env (replace authHeader "Bearer " EmptyString) = Some userId /\
       Sync.json_body req = Some body /\
       get body (Name "revenue_cat_customer_id") = Some customer /\
       truthy customer = true /\
       let pro := (Sync.isProActive env customer
                     (get body (Name "entitlement_data"))).1 in
       let fetched := (Sync.isProActive env customer
                         (get body (Name "entitlement_data"))).2 in
       let subscription :=
         match Sync.or_else (get body (Name "revenue_cat_subscription_id"))
                 (Some JNull) with
         | Some v => v
         | None => JNull
         end in
       calls = fetched ++ [Sync.SyncUserSubscription customer subscription pro] /\
       match Sync.sync_user_subscription env customer subscription pro with
       | Data rpcData =>
           resp = {| Sync.status := 200; Sync.ok := true; Sync.error := None;
                     Sync.data :=
                       Some (JObj
                         (Sync.spread
                            [("plan_type", JStr (if pro then "pro" else "free"));
                             ("status", JStr (if pro then "active" else "cancelled"))]
                            rpcData)) |}
       | Failed msg =>
           resp = Sync.failure 500 ("Failed to sync subscription: " +:+ msg)
       | Rejected msg =>
           resp = Sync.failure 500 (Sync.errorMessage (Error msg))
       end).
Proof.
  unfold Sync.handler, Sync.serve.
  destruct (String.eqb (Sync.method req) "POST") eqn:Emethod; cbn [negb].
  2:{ eexists _, _. split; [reflexivity|]. cbn. split; [tauto|].
      split; [done|]. by left. }
  apply String.eqb_eq in Emethod.
  destruct (Sync.authorization req) as [authHeader|] eqn:Eauth.
  2:{ eexists _, _. split; [reflexivity|]. cbn. split; [tauto|].
      split; [done|]. by left. }
  destruct (startsWith authHeader "Bearer ") eqn:Ebearer; cbn [negb].
  2:{ eexists _, _. split; [reflexivity|]. cbn. split; [tauto|].
      split; [done|]. by left. }
  destruct (Sync.getUser env _) as [userId|] eqn:Euser.
  2:{ eexists _, _. split; [reflexivity|]. cbn. split; [tauto|].
      split; [done|]. by left. }
  destruct (Sync.json_body req) as [body|] eqn:Ebody.
  2:{ eexists _, _. split; [reflexivity|]. cbn. split; [tauto|].
      split; [done|]. by left. }
  destruct body;
    try (eexists _, _; split; [reflexivity|]; cbn; split; [tauto|];
         split; [done|]; by left).
  all: cbv zeta.
  all: match goal with |- context [get ?b (Name "revenue_cat_customer_id")] =>
         destruct (get b (Name "revenue_cat_customer_id")) as [customer|] eqn:Eid end.
  all: try (eexists _, _; split; [reflexivity|]; cbn; split; [tauto|];
            split; [done|]; by left).
  all: destruct (truthy customer) eqn:Etruthy; cbn [negb].
  all: try (eexists _, _; split; [reflexivity|]; cbn; split; [tauto|];
            split; [done|]; by left).
  all: match goal with |- context [Sync.isProActive ?e ?c ?ed] =>
         destruct (Sync.isProActive e c ed) as [pro fetched] eqn:Epro end.
  all: match goal with |- context [Sync.sync_user_subscription ?e ?c ?sub ?p] =>
         destruct (Sync.sync_user_subscription e c sub p)
           as [rpcData|msg|msg] eqn:Erpc end.
  all: eexists _, _; (split; [reflexivity|]);
         cbn [Sync.status Sync.ok Sync.failure In];
         (split; [tauto|]); (split; [done|]); right;
         do 4 eexists; (split; [known|]); (split; [known|]); (split; [known|]);
         (split; [known|]); (split; [known|]); (split; [known|]); (split; [known|]);
         cbv zeta; rewrite Epro; cbn [fst snd];
         (split; [reflexivity|]); rewrite Erpc; reflexivity.
Qed.

Lemma obj_lookup_rev props k :
  NoDup (map fst props) -> obj_lookup (rev props) k = obj_lookup props k.
Proof.
  induction props as [|[k0 v0] props IH]; [done|].
  cbn [map fst rev obj_lookup]. intros Hnd. apply NoDup_cons in Hnd as [Hnot Hnd].
  rewrite obj_lookup_snoc, (IH Hnd).
  destruct (String.eqb k k0) eqn:E.
  - apply String.eqb_eq in E as ->.
    destruct (obj_lookup props k0) as [v|] eqn:El; [|done].
    exfalso. apply Hnot. clear -El.
    induction props as [|[k1 v1] props IH]; [done|]. cbn in El |- *.
    destruct (String.eqb k0 k1) eqn:E1.
    + apply String.eqb_eq in E1 as ->. by left.
    + right. by apply IH.
  - by destruct (obj_lookup props k).
Qed.

Lemma isProActive_calls env customer ed :
  (Sync.isProActive env customer ed).2 = []
  \/ (Sync.isProActive env customer ed).2
     = [Sync.FetchSubscriber (Sync.subscriber_url customer)].
Proof.
  unfold Sync.isProActive. destruct (truthy_str _); [by right|by left].
Qed.

Lemma from_entitlement_data_renewing env ed :
  truthy ed = true -> Sync.willRenew ed = true ->
  Sync.from_entitlement_data env (Some ed) = true.
Proof. intros Ht Hr. cbn. by rewrite Ht, Hr. Qed.

(** X23.  Nothing is asked of RevenueCat or of the database unless the
    request is a POST with a bearer token the auth service accepts and a
    truthy customer id; then the RPC is called exactly once, last, after
    at most one request to RevenueCat for this customer. *)
Theorem sync_calls_need_an_authenticated_customer env req :
  (Sync.handler env req).2 = []
  \/ exists authHeader userId body customer subscription pro,
       Sync.method req = "POST" /\
       Sync.authorization req = Some authHeader /\
       startsWith authHeader "Bearer " = true /\
       Sync.getUser env (replace authHeader "Bearer " EmptyString) = Some userId /\
       Sync.json_body req = Some body /\
       get body (Name "revenue_cat_customer_id") = Some customer /\
       truthy customer = true /\
       ((Sync.handler env req).2
        = [Sync.SyncUserSubscription customer subscription pro]
        \/ (Sync.handler env req).2
           = [Sync.FetchSubscriber (Sync.subscriber_url customer);
              Sync.SyncUserSubscription customer subscription pro]).
Proof.
  destruct (sync_handler_paths env req)
    as (resp & calls & -> & _ & _ & [->|Hpath]); [by left|].
  destruct Hpath as (authHeader & userId & body & customer & H1 & H2 & H3 & H4
                     & H5 & H6 & H7 & Hcalls & _).
  cbv zeta in Hcalls. right. do 6 eexists.
  do 7 (split; [eassumption|]). cbn [snd]. rewrite Hcalls.
  destruct (isProActive_calls env customer (get body (Name "entitlement_data")))
    as [->| ->]; [by left|by right].
Qed.

(** X24.  Without a verdict of RevenueCat the client is believed: when the
    secret key is not set, the request to RevenueCat fails, its status is
    not a 2xx or its body is no JSON, an authenticated request whose
    [entitlement_data] says [will_renew: true] is synced as pro. *)
Theorem unverified_sync_believes_the_client
    env req authHeader userId body customer ed :
  Sync.method req = "POST" ->
  Sync.authorization req = Some authHeader ->
  startsWith authHeader "Bearer " = true ->
  Sync.getUser env (replace authHeader "Bearer " EmptyString) = Some userId ->
  Sync.json_body req = Some body ->
  get body (Name "revenue_cat_customer_id") = Some customer ->
  truthy customer = true ->
  get body (Name "entitlement_data") = Some ed ->
  truthy ed = true ->
  Sync.willRenew ed = true ->
  (truthy_str (Sync.REVENUECAT_SECRET_KEY env) = false
   \/ (exists reason,
         Sync.revenueCat env (Sync.subscriber_url customer) = FetchFailed reason)
   \/ (exists st answer,
         Sync.revenueCat env (Sync.subscriber_url customer) = Responded st answer
         /\ (ok_status st = false \/ JSON_parse answer = None))) ->
  exists subscription,
    last (Sync.handler env req).2
    = Some (Sync.SyncUserSubscription customer subscription true)
    /\ (Sync.sync_user_subscription env customer subscription true = Data JNull ->
        (Sync.handler env req).1
        = {| Sync.status := 200; Sync.ok := true; Sync.error := None;
             Sync.data := Some (JObj [("plan_type", JStr "pro");
                                      ("status", JStr "active")]) |}).
Proof.
  intros Hmethod Hauth Hbearer Huser Hbody Hid Htruthy Hed Hted Hrenew Hwhy.
  assert (Hpro : (Sync.isProActive env customer (Some ed)).1 = true).
  { unfold Sync.isProActive.
    pose proof (from_entitlement_data_renewing env ed Hted Hrenew) as Hclient.
    destruct Hwhy as [-> | [(reason & Hres) | (st & answer & Hres & Hbad)]];
      [exact Hclient| |].
    - destruct (truthy_str _); [|exact Hclient]. cbn [fst]. by rewrite Hres.
    - destruct (truthy_str _); [|exact Hclient]. cbn [fst]. rewrite Hres.
      unfold Sync.verified. destruct Hbad as [-> | Hparse].
      + exact Hclient.
      + destruct (ok_status st); [|exact Hclient]. by rewrite Hparse. }
  destruct (sync_handler_paths env req)
    as (resp & calls & Hrun & _ & _ & [->|Hpath]).
  { exfalso. revert Hrun. unfold Sync.handler, Sync.serve.
    rewrite Hmethod, Hauth, String.eqb_refl. cbn [negb]. rewrite Hbearer. cbn [negb]. rewrite Huser, Hbody.
    destruct body; try discriminate Hid.
    all: cbv zeta; rewrite Hid, Htruthy, Hed; cbn [negb].
    all: destruct (Sync.isProActive _ _ _) as [p f]; cbv beta iota zeta;
         match goal with |- context [Sync.sync_user_subscription ?e ?c ?s ?b] =>
           destruct (Sync.sync_user_subscription e c s b) end;
         intros [= _ Hnil]; by destruct f. }
  destruct Hpath as (authHeader' & userId' & body' & customer' & _ & _ & _ & _
                     & Hbody' & Hid' & _ & Hcalls & Hresp).
  rewrite Hbody in Hbody'. injection Hbody' as <-.
  rewrite Hid in Hid'. injection Hid' as <-.
  cbv zeta in Hcalls, Hresp. rewrite Hed, Hpro in Hcalls, Hresp.
  rewrite Hrun. cbn [fst snd]. eexists. split.
  - rewrite Hcalls. apply last_snoc.
  - intros Hrpc. rewrite Hrpc in Hresp. exact Hresp.
Qed.

(** X25.  What the RPC answers wins over the verdict: each property of the
    answered object is the property of the response's data, and only the
    missing ones of [plan_type] and [status] come from the verdict. *)
Theorem rpc_answer_overrides_the_verdict
    env req customer subscription pro props :
  last (Sync.handler env req).2
  = Some (Sync.SyncUserSubscription customer subscription pro) ->
  Sync.sync_user_subscription env customer subscription pro = Data (JObj props) ->
  NoDup (map fst props) ->
  exists d,
    Sync.status (Sync.handler env req).1 = 200 /\
    Sync.data (Sync.handler env req).1 = Some d /\
    forall k,
      get d (Name k)
      = match get (JObj props) (Name k) with
        | Some v => Some v
        | None =>
            get (JObj [("plan_type", JStr (if pro then "pro" else "free"));
                       ("status", JStr (if pro then "active" else "cancelled"))])
              (Name k)
        end.
Proof.
  intros Hlast Hrpc Hnd.
  destruct (sync_handler_paths env req)
    as (resp & calls & Hrun & _ & _ & [->|Hpath]).
  { rewrite Hrun in Hlast. discriminate Hlast. }
  destruct Hpath as (authHeader & userId & body & customer' & _ & _ & _ & _
                     & _ & _ & _ & Hcalls & Hresp).
  cbv zeta in Hcalls, Hresp. rewrite Hrun in Hlast |- *. cbn [fst snd] in *.
  rewrite Hcalls, last_snoc in Hlast. injection Hlast as -> Hsub Hpro.
  rewrite Hsub, Hpro, Hrpc in Hresp. subst resp. eexists.
  split; [reflexivity|]. split; [reflexivity|]. intros k.
  cbn [get]. unfold Sync.spread. cbn [Sync.own_properties].
  rewrite obj_lookup_define, obj_lookup_rev by exact Hnd. reflexivity.
Qed.

(** ** The file client and the global ceiling *)

(** What three passes of the Gemini loop send. *)
Lemma gemini_loop_log env r w out w1 :
  Gemini.retry_loop env r 3 1 3 w = (out, w1) ->
  same_state w w1 /\
  exists n, (1 <= n <= 3)%nat /\ fetches w1 = fetches w ++ repeat r n.
Proof.
  rewrite gemini_three_passes. cbv zeta.
  repeat break_match; intros [= <- <-]; (split; [by repeat split|]).
  - exists 1%nat. split; [lia|done].
  - exists 2%nat. split; [lia|]. cbn. by rewrite <- !app_assoc.
  - exists 3%nat. split; [lia|]. cbn. by rewrite <- !app_assoc.
  - exists 3%nat. split; [lia|]. cbn. by rewrite <- !app_assoc.
Qed.

(** X26.  A file is sent to Gemini exactly when its base64 text has at most
    27962026 characters (20 MB of data): a longer one is refused before
    anything is sent, with the production message of the size limit; a
    shorter one goes out as inline data, one to three times. *)
Theorem file_over_20MB_is_refused_unsent env body fileData w :
  truthy_str (Http.text_content body) = false ->
  Http.file_data body = Some fileData ->
  (27962026 < strlen fileData ->
   exists e,
     Gemini.provider_call env body w = (Throw e, w) /\
     includes (message e) "File too large" = true /\
     (isDevelopment env = false ->
      Gemini.userMessage env e
      = "File size exceeds the maximum allowed limit (20MB).")) /\
  (strlen fileData <= 27962026 ->
   exists out w' n,
     Gemini.provider_call env body w = (out, w') /\
     (1 <= n <= 3)%nat /\
     fetches w' = fetches w ++
       repeat {| url := Gemini.GEMINI_URL; content := Gemini.prompt;
                 inlineData := Some (default EmptyString (Http.mime_type body),
                                     fileData) |} n).
Proof.
  intros Htext Hfile. unfold Gemini.provider_call, Gemini.callGeminiWithFileData.
  rewrite Htext, Hfile.
  change (default EmptyString (Some fileData)) with fileData. split.
  - intros Hbig.
    match goal with |- context [?a <? ?b] => destruct (Z.ltb_spec a b) end;
      [|lia].
    eexists. split; [reflexivity|]. split; [reflexivity|].
    intros Hprod. unfold Gemini.userMessage. rewrite Hprod. reflexivity.
  - intros Hsmall.
    match goal with |- context [?a <? ?b] => destruct (Z.ltb_spec a b) end;
      [lia|].
    change (Z.to_nat 3) with 3%nat.
    destruct (Gemini.retry_loop env _ 3 1 3 w) as [out w'] eqn:E.
    apply gemini_loop_log in E as (_ & n & Hn & Hf).
    by exists out, w', n.
Qed.

(** The global check when the window has ended: the counter starts again
    and the request passes. *)
Lemma checkGlobalUsage_new_window w :
  globalUsageResetTime w < clock w ->
  Gemini.checkGlobalUsage w
  = (Ret {| Gemini.allowed := true; Gemini.remaining := Gemini.MAX_GLOBAL_USAGE;
            Gemini.resetTime := clock w + Gemini.GLOBAL_WINDOW |},
     set_global w 0 (clock w + Gemini.GLOBAL_WINDOW)).
Proof.
  intros Hpast. unfold Gemini.checkGlobalUsage. monad_unfold.
  assert ((globalUsageResetTime w <? clock w) = true) as -> by by apply Z.ltb_lt.
  reflexivity.
Qed.

(** The global check while the window lasts. *)
Lemma checkGlobalUsage_same_window w :
  clock w <= globalUsageResetTime w ->
  Gemini.checkGlobalUsage w
  = (Ret (if Gemini.MAX_GLOBAL_USAGE <=? globalUsageCount w
          then {| Gemini.allowed := false; Gemini.remaining := 0;
                  Gemini.resetTime := globalUsageResetTime w |}
          else {| Gemini.allowed := true;
                  Gemini.remaining := Gemini.MAX_GLOBAL_USAGE - globalUsageCount w;
                  Gemini.resetTime := globalUsageResetTime w |}), w).
Proof.
  intros Hlive. unfold Gemini.checkGlobalUsage. monad_unfold.
  assert ((globalUsageResetTime w <? clock w) = false) as -> by by apply Z.ltb_ge.
  by destruct (Gemini.MAX_GLOBAL_USAGE <=? globalUsageCount w).
Qed.

(** X27.  Once the global counter has reached its ceiling, every POST is
    answered 503 with the state untouched, whoever sends it, as long as
    the window lasts; the first request after the reset time is not
    answered 503. *)
Theorem ceiling_refuses_until_the_window_ends env req w :
  Http.method req = "POST" ->
  Gemini.MAX_GLOBAL_USAGE <= globalUsageCount w ->
  (clock w <= globalUsageResetTime w ->
   Gemini.handler env req w
   = (Ret (Gemini.response503
             {| Gemini.allowed := false; Gemini.remaining := 0;
                Gemini.resetTime := globalUsageResetTime w |} (clock w)), w)) /\
  (globalUsageResetTime w < clock w ->
   exists resp w',
     Gemini.handler env req w = (Ret resp, w') /\
     In (Http.status resp) [200; 400; 401; 429; 500]).
Proof.
  intros Hmethod Hfull. split.
  - intros Hlive. unfold Gemini.handler, try_catch, Gemini.serve.
    rewrite Hmethod. cbn [String.eqb Ascii.eqb Bool.eqb negb].
    unfold bind at 1. rewrite (checkGlobalUsage_same_window w Hlive).
    assert ((Gemini.MAX_GLOBAL_USAGE <=? globalUsageCount w) = true) as ->
      by by apply Z.leb_le.
    reflexivity.
  - intros Hpast.
    destruct (gemini_handler_run env req w) as (resp & w' & E & Hrun).
    exists resp, w'. split; [exact E|].
    pose proof (checkGlobalUsage_new_window w Hpast) as Hg.
    destruct Hrun; cbn; try tauto; try congruence.
    match goal with
    | H : Gemini.checkGlobalUsage _ = (Ret ?g, _), H' : Gemini.allowed ?g = false |- _ =>
        rewrite Hg in H; injection H as <- <-; discriminate H'
    end.
Qed.

(** *** The properties on concrete inputs *)

(** The user has used all five uploads, and is admitted with five
    remaining because the usage RPC rejects. *)
Lemma unreadable_usage_admits_witness :
  Quota.checkUserLimits unreadable "user-1" Quota.FREE exhausted_world
  = (Ret {| Quota.allowed := true; Quota.limitType := None;
            Quota.remaining := Quota.daily_limit Quota.FREE;
            Quota.resetTime := clock exhausted_world + Sql.DAY_MS |},
     exhausted_world).
Proof.
  apply (unreadable_usage_admits unreadable "user-1" Quota.FREE exhausted_world).
  left. exists "connection refused". reflexivity.
Defined.

(** The counter of [stale_world] is a day old; the fallback query
    counts its three uploads. *)
Lemma fallback_snapshot_skips_reset_witness :
  exists limits,
    Quota.checkUserLimits without_rpc "user-1" Quota.FREE stale_world
    = (Ret limits, stale_world) /\
    (Quota.allowed limits = false
     <-> Quota.daily_limit Quota.FREE <= Quota.or_zero (Some 3)) /\
    (Quota.allowed limits = true ->
     Quota.remaining limits = Quota.daily_limit Quota.FREE - Quota.or_zero (Some 3)) /\
    Quota.resetTime limits = midnight - Sql.DAY_MS.
Proof.
  apply (fallback_snapshot_skips_reset without_rpc "user-1" Quota.FREE stale_world
           (usage_row 3 (midnight - Sql.DAY_MS)));
    [reflexivity | reflexivity | vm_compute; reflexivity].
Defined.


Example fallback_leaves_updated_at_behind :
  Schema.manual_increment (t0 + 60000) "user-2" (Schema.user_usage_stats signed_up)
    !! "user-2"
  = Some {| Schema.uploads_today := Some 1;
            Schema.daily_reset_at := Some midnight;
            Schema.last_login_at := Some t0;
            Schema.usage_created_at := t0;
            Schema.usage_updated_at := t0 |} /\
  Schema.increment_upload_count (t0 + 60000) "user-2"
    (Schema.user_usage_stats signed_up) !! "user-2"
  = Some {| Schema.uploads_today := Some 1;
            Schema.daily_reset_at := Some midnight;
            Schema.last_login_at := Some t0;
            Schema.usage_created_at := t0;
            Schema.usage_updated_at := t0 + 60000 |}.
Proof. split; vm_compute; reflexivity. Qed.

Lemma fresh_world_reaches_provider :
  reaches_provider generating (post bearer notes) fresh_world open_global
    "user-1" Quota.FREE admitted_limits (text_body notes) fresh_world fresh_world.
Proof.
  split; [|repeat split; vm_compute; reflexivity].
  split; [reflexivity|]. exists fresh_world.
  repeat split; vm_compute; reflexivity.
Defined.

Lemma generated_request_commits_once_witness :
  exists resp w5,
    Gemini.handler generating (post bearer notes) fresh_world = (Ret resp, w5) /\
    Http.status resp = 200 /\ Http.ok resp = true /\
    Http.cached resp = Some false /\ Http.mcqs resp = Some [good_mcq] /\
    globalUsageCount w5 = globalUsageCount fresh_world + 1 /\
    Http.global_remaining <$> Http.global_usage resp
    = Some (Gemini.MAX_GLOBAL_USAGE - globalUsageCount w5) /\
    user_usage_stats w5
    = Sql.increment_upload_count (clock generated_world) "user-1"
        (user_usage_stats fresh_world) /\
    mcqCache w5 !! Gemini.generateFileHash (Gemini.material_of (text_body notes))
    = Some {| mcqs := [good_mcq]; timestamp := clock generated_world |} /\
    (db_fault generating RpcGetUsageStats = Works ->
     forall row,
       user_usage_stats fresh_world !! "user-1" = Some row ->
       Sql.reset_due (clock generated_world) (Some row) = false ->
       exists uploads,
         Sql.uploads_today <$> (user_usage_stats w5 !! "user-1")
         = Some (Some uploads) /\
         Http.remaining <$> Http.user_limits resp
         = Some (Quota.daily_limit Quota.FREE - uploads)) /\
    Http.remaining <$> Http.user_limits resp
    = Some (Quota.remaining admitted_limits - 1) /\
    (db_fault generating RpcGetUsageStats = Works ->
     forall row,
       user_usage_stats fresh_world !! "user-1" = Some row ->
       Sql.reset_due (clock generated_world) (Some row) = true ->
       Sql.uploads_today <$> (user_usage_stats w5 !! "user-1") = Some (Some 1) /\
       Http.remaining <$> Http.user_limits resp
       = Some (Quota.daily_limit Quota.FREE - snapshot_uploads (Some row) - 1)).
Proof.
  apply (generated_request_commits_once generating (post bearer notes) fresh_world
           open_global "user-1" Quota.FREE admitted_limits (text_body notes)
           fresh_world fresh_world (Some (JStr good_mcqs)) generated_world
           [good_mcq]);
    [apply fresh_world_reaches_provider | vm_compute; reflexivity
    | vm_compute; reflexivity | reflexivity].
Defined.

Lemma garbled_answers_are_retried_witness :
  let second := provider garbling (S (List.length (fetches fresh_world))) in
  let third := provider garbling (S (S (List.length (fetches fresh_world)))) in
  let groq := Groq.request_for notes "prompt" in
  let gemini := gemini_request notes "prompt" in
  (forall c, groq_answer second = Some c ->
     Groq.callGroqWithText garbling notes "prompt" 3 fresh_world
     = (Ret (Some c), log_fetch (retried fresh_world groq 2000) groq)) /\
  (forall v, gemini_answer second = Some v ->
     Gemini.callGeminiWithText garbling notes "prompt" 3 fresh_world
     = (Ret v, log_fetch (retried fresh_world gemini 2000) gemini)) /\
  (garbled second = true -> garbled third = true ->
   (exists e w',
      Groq.callGroqWithText garbling notes "prompt" 3 fresh_world = (Throw e, w') /\
      message e = garbled_message garbling third /\
      fetches w' = fetches fresh_world ++ [groq; groq; groq] /\
      timers w' = timers fresh_world ++ [2000; 4000]) /\
   (exists e w',
      Gemini.callGeminiWithText garbling notes "prompt" 3 fresh_world = (Throw e, w') /\
      message e = garbled_message garbling third /\
      fetches w' = fetches fresh_world ++ [gemini; gemini; gemini] /\
      timers w' = timers fresh_world ++ [2000; 4000])).
Proof.
  apply (garbled_answers_are_retried garbling notes "prompt" fresh_world);
    [reflexivity | vm_compute; reflexivity].
Defined.

Lemma production_hides_error_details_witness :
  exists resp w',
    Gemini.handler rejecting (post bearer notes) fresh_world = (Ret resp, w') /\
    (Http.status resp = 500 ->
     Http.raw_api_response resp = None /\ Http.status_code resp = None /\
     exists msg,
       Http.error resp = Some msg /\
       In msg
         ["File size exceeds the maximum allowed limit (20MB).";
          "AI service is temporarily unavailable. Please try again later.";
          "Authentication failed. Please log in again.";
          "Network error. Please check your connection and try again.";
          "Failed to process AI response. Please try again.";
          "An unexpected error occurred. Please try again later."]).
Proof.
  apply (production_hides_error_details rejecting (post bearer notes) fresh_world).
  reflexivity.
Defined.

Lemma groq_material_is_truncated_witness :
  let limited body :=
    slice0 (Groq.material_of body) Groq.MAX_INPUT_LENGTH in
  (exists resp w' sent,
     Groq.handler rejecting (post bearer notes) fresh_world = (Ret resp, w') /\
     fetches w' = fetches fresh_world ++ sent /\ (List.length sent <= 3)%nat /\
     Forall (fun r =>
       exists body,
         Http.json_body (post bearer notes) = Some body /\
         url r = Groq.GROQ_URL /\
         content r = Groq.prompt (default 20 (Http.mcq_count body)) +:+ nl +:+ nl
                     +:+ "STUDY MATERIAL:" +:+ nl +:+ limited body /\
         strlen (limited body) <= 2500) sent) /\
  (exists resp w' sent,
     GroqQuota.handler rejecting (post bearer notes) fresh_world = (Ret resp, w') /\
     fetches w' = fetches fresh_world ++ sent /\ (List.length sent <= 3)%nat /\
     Forall (fun r =>
       exists body,
         Http.json_body (post bearer notes) = Some body /\
         url r = Groq.GROQ_URL /\
         content r = GroqQuota.staticPrompt +:+ nl +:+ nl
                     +:+ "STUDY MATERIAL:" +:+ nl +:+ limited body /\
         strlen (limited body) <= 2500) sent).
Proof.
  apply (groq_material_is_truncated rejecting (post bearer notes) fresh_world).
  intros body [= <-]. vm_compute. reflexivity.
Defined.

Lemma blank_material_is_rejected_witness :
  exists resp w',
    Groq.handler rejecting (post bearer "   ") fresh_world = (Ret resp, w') /\
    (blank_body (text_body "   ") = true ->
     resp = Http.failure 400 "text_content or text_chunks is required"
     /\ w' = fresh_world) /\
    (ascii_body (text_body "   ") = true -> blank_body (text_body "   ") = false ->
     Http.status resp = 200 \/ Http.status resp = 500).
Proof.
  apply (blank_material_is_rejected rejecting (post bearer "   ") fresh_world
           "user-1" (text_body "   ")); reflexivity.
Defined.

Lemma groq_error_response_carries_provider_body_witness :
  exists resp w',
    Groq.handler rejecting (post bearer notes) fresh_world = (Ret resp, w') /\
    Http.status resp = 500 /\ Http.ok resp = false /\
    Http.raw_api_response resp = Some (JStr "bad request") /\
    Http.status_code resp = Some 400 /\
    (isDevelopment rejecting = false ->
     Http.error resp
     = Some "AI service is temporarily unavailable. Please try again later.").
Proof.
  apply (groq_error_response_carries_provider_body rejecting (post bearer notes)
           fresh_world "user-1" (text_body notes) 400 "bad request");
    first [reflexivity | vm_compute; reflexivity].
Defined.

(** Four uploads in two days: the counter shows the two of the second
    day. *)
Lemma daily_counter_counts_uploads_of_the_day_witness :
  exists row,
    Schema.run "user-2" two_days (Schema.user_usage_stats signed_up) !! "user-2"
    = Some row /\
    Schema.uploads_today row = Some 2 /\
    Schema.daily_reset_at row = Some (midnight + Sql.DAY_MS) /\
    Schema.reset_due (midnight + 7) (Some row) = false /\
    forall v, v <> "user-2" ->
      Schema.run "user-2" two_days (Schema.user_usage_stats signed_up) !! v
      = Schema.user_usage_stats no_users !! v.
Proof.
  apply (daily_counter_counts_uploads_of_the_day "user-2" t0 no_users two_days);
    reflexivity.
Defined.

Lemma new_user_starts_free_with_full_quota_witness :
  Schema.create_user_subscription_and_stats (clock (world_of signed_up)) "user-2"
    signed_up = signed_up /\
  (forall v, v <> "user-2" ->
     Schema.user_usage_stats signed_up !! v = Schema.user_usage_stats no_users !! v /\
     Schema.user_subscriptions signed_up !! v
     = Schema.user_subscriptions no_users !! v) /\
  Quota.getUserSubscription down "user-2" (world_of signed_up)
  = (Ret Quota.FREE, world_of signed_up) /\
  exists limits w',
    Quota.checkUserLimits down "user-2" Quota.FREE (world_of signed_up)
    = (Ret limits, w') /\
    Quota.allowed limits = true /\ Quota.remaining limits = 5 /\
    Quota.resetTime limits = Sql.next_midnight (clock (world_of signed_up)).
Proof.
  apply (new_user_starts_free_with_full_quota down (world_of signed_up) no_users
           t0 "user-2");
    first [reflexivity | vm_compute; discriminate].
Defined.

(** After five uploads the trigger raises and the quota check refuses. *)
Lemma upload_trigger_agrees_with_quota_check_witness :
  exists sub limits w',
    Quota.getUserSubscription down "user-2" (world_of used_up)
    = (Ret sub, world_of used_up) /\
    Quota.checkUserLimits down "user-2" sub (world_of used_up) = (Ret limits, w') /\
    (Quota.allowed limits = true
     <-> Schema.check_upload_limit "user-2" used_up = inr tt) /\
    (forall plan uploads limit,
       Schema.check_upload_limit "user-2" used_up = inl (plan, uploads, limit) ->
       limit = Quota.daily_limit sub /\ Quota.daily_limit sub <= uploads).
Proof.
  apply (upload_trigger_agrees_with_quota_check down (world_of used_up) used_up
           "user-2"); try reflexivity.
  - right. vm_compute. reflexivity.
  - intros s Hs. vm_compute in Hs. injection Hs as <-. reflexivity.
Defined.

Example trigger_raises_after_five_uploads :
  Schema.check_upload_limit "user-2" used_up = inl ("free", 5, 5).
Proof. vm_compute. reflexivity. Qed.

Lemma json_reply_that_is_no_array_is_not_rescued_witness :
  Gemini.normalize (Some (JStr wrapped_mcqs))
  = inl (Error ("Gemini response is not an array: " +:+ wrapped_mcqs)) /\
  GroqSimple.normalize (Some (JStr wrapped_mcqs))
  = inl (Error ("Groq response is not an array: " +:+ wrapped_mcqs)) /\
  (forall props l,
     JObj [("mcqs", JArr [good_mcq])] = JObj props ->
     Groq.first_keyed_array props Groq.possibleKeys = Some l ->
     Groq.is_nil l = false ->
     Groq.normalize rejecting (JStr wrapped_mcqs) = inr l).
Proof.
  apply (json_reply_that_is_no_array_is_not_rescued rejecting wrapped_mcqs
           (JObj [("mcqs", JArr [good_mcq])]));
    [vm_compute; reflexivity | reflexivity].
Defined.

(** No secret key is set: the client's word makes the user pro. *)
Lemma unverified_sync_believes_the_client_witness :
  exists subscription,
    last (Sync.handler (sync_env None (FetchFailed "unused") (Data JNull))
            (sync_request renewing_claim)).2
    = Some (Sync.SyncUserSubscription (JStr "cust-1") subscription true)
    /\ (Sync.sync_user_subscription (sync_env None (FetchFailed "unused") (Data JNull))
          (JStr "cust-1") subscription true = Data JNull ->
        (Sync.handler (sync_env None (FetchFailed "unused") (Data JNull))
           (sync_request renewing_claim)).1
        = {| Sync.status := 200; Sync.ok := true; Sync.error := None;
             Sync.data := Some (JObj [("plan_type", JStr "pro");
                                      ("status", JStr "active")]) |}).
Proof.
  apply (unverified_sync_believes_the_client
           (sync_env None (FetchFailed "unused") (Data JNull))
           (sync_request renewing_claim) "Bearer token-1" "user-1" renewing_claim
           (JStr "cust-1") renewing);
    try reflexivity.
  left. reflexivity.
Defined.

(** The verdict is pro and the RPC answers with a free plan: the
    response says free. *)
Lemma rpc_answer_overrides_the_verdict_witness :
  exists d,
    Sync.status (Sync.handler (sync_env None (FetchFailed "unused")
                                 (Data (JObj kept_free)))
                   (sync_request renewing_claim)).1 = 200 /\
    Sync.data (Sync.handler (sync_env None (FetchFailed "unused")
                               (Data (JObj kept_free)))
                 (sync_request renewing_claim)).1 = Some d /\
    forall k,
      get d (Name k)
      = match get (JObj kept_free) (Name k) with
        | Some v => Some v
        | None =>
            get (JObj [("plan_type", JStr "pro"); ("status", JStr "active")])
              (Name k)
        end.
Proof.
  apply (rpc_answer_overrides_the_verdict
           (sync_env None (FetchFailed "unused") (Data (JObj kept_free)))
           (sync_request renewing_claim) (JStr "cust-1") JNull true kept_free);
    [reflexivity | reflexivity |].
  apply (bool_decide_unpack _). vm_compute. reflexivity.
Defined.

Example synced_response_says_free :
  Sync.handler (sync_env None (FetchFailed "unused") (Data (JObj kept_free)))
    (sync_request renewing_claim)
  = ({| Sync.status := 200; Sync.ok := true; Sync.error := None;
        Sync.data := Some (JObj [("plan_type", JStr "free");
                                 ("status", JStr "expired")]) |},
     [Sync.SyncUserSubscription (JStr "cust-1") JNull true]).
Proof. vm_compute. reflexivity. Qed.

Lemma file_over_20MB_is_refused_unsent_witness :
  (27962026 < strlen "JVBERi0xLjQK" ->
   exists e,
     Gemini.provider_call rejecting file_body fresh_world = (Throw e, fresh_world) /\
     includes (message e) "File too large" = true /\
     (isDevelopment rejecting = false ->
      Gemini.userMessage rejecting e
      = "File size exceeds the maximum allowed limit (20MB).")) /\
  (strlen "JVBERi0xLjQK" <= 27962026 ->
   exists out w' n,
     Gemini.provider_call rejecting file_body fresh_world = (out, w') /\
     (1 <= n <= 3)%nat /\
     fetches w' = fetches fresh_world ++
       repeat {| url := Gemini.GEMINI_URL; content := Gemini.prompt;
                 inlineData := Some (default EmptyString (Http.mime_type file_body),
                                     "JVBERi0xLjQK") |} n).
Proof.
  apply (file_over_20MB_is_refused_unsent rejecting file_body "JVBERi0xLjQK"
           fresh_world); reflexivity.
Defined.

(** The ceiling is reached at [t0], inside the window: a request without
    a token gets 503; the same world after the window gets another
    answer. *)
Lemma ceiling_refuses_until_the_window_ends_witness :
  (clock full_world <= globalUsageResetTime full_world ->
   Gemini.handler rejecting (post None notes) full_world
   = (Ret (Gemini.response503
             {| Gemini.allowed := false; Gemini.remaining := 0;
                Gemini.resetTime := globalUsageResetTime full_world |}
             (clock full_world)), full_world)) /\
  (globalUsageResetTime full_world < clock full_world ->
   exists resp w',
     Gemini.handler rejecting (post None notes) full_world = (Ret resp, w') /\
     In (Http.status resp) [200; 400; 401; 429; 500]).
Proof.
  apply (ceiling_refuses_until_the_window_ends rejecting (post None notes) full_world);
    [reflexivity | vm_compute; discriminate].
Defined.

(** The same world a millisecond after the reset time: the request is
    past the ceiling and fails authentication. *)
Example request_after_the_window_is_not_refused :
  exists resp w',
    Gemini.handler rejecting (post None notes)
      (set_clock full_world (globalUsageResetTime full_world + 1)) = (Ret resp, w') /\
    Http.status resp = 401 /\ globalUsageCount w' = 0.
Proof. eexists _, _. split; [vm_compute; reflexivity|split; reflexivity]. Qed.
